(** * PhishScan: the heuristic phishing detector of [phishing_detector.py]

    A shallow embedding of the analysis engine ([normalize_url],
    [domain_parts], [is_trusted_domain], [analyze] and their helpers) together
    with the facts about it that the specification states.  The views of the
    web application [app.py] that scan a URL and keep the scan history are
    embedded in the module [App].

    Conventions of the embedding.
    - A Python [str] is a Rocq [string]; a character stands for the code
      point of the same number, so the strings of the model are the Python
      strings whose code points are below 256.
    - A Python [int] is a [Z].
    - A Python exception that leaves a function is the [Raise] outcome of the
      [result] monad; a [try/except] that turns a failure into [None] is an
      [option].
    - Everything outside the program (the resolver, the TLS client, WHOIS,
      the HTTP client, the HTML parser, the public-suffix splitter, the socket
      address parsers, [ipaddress] and the regular-expression engine on script
      text) is a field of the record [World]; the functions of the program
      take the world as an argument and are deterministic in it.
    - [urllib.parse] is modelled concretely after CPython 3.11
      ([urlsplit], [urlparse], [urlunsplit], [urlunparse], [hostname]).
    - [analyze] keeps two accumulators, [findings] and [score].  The state of
      the embedding keeps them and two ghost fields beside them: the list of
      network operations performed, and a ledger with one entry per
      [findings.append(f); score += w] pair, which keeps the finding, the
      weight and the detection site together. *)

From Stdlib Require Import ZArith NArith List String Ascii Bool Lia.
From Stdlib Require Import DecimalString.
Import ListNotations.

Local Open Scope string_scope.
Local Open Scope Z_scope.

(** ** Outcomes of a call *)

Inductive exn : Type :=
| ValueError
| IndexError.

Inductive result (A : Type) : Type :=
| Ok (a : A)
| Raise (e : exn).

Arguments Ok {A} a.
Arguments Raise {A} e.

Definition bind {A B : Type} (m : result A) (k : A -> result B) : result B :=
  match m with
  | Ok a => k a
  | Raise e => Raise e
  end.

Notation "x <- m ;; k" := (bind m (fun x => k))
  (at level 61, m at next level, right associativity).
Notation "' p <- m ;; k" := (bind m (fun p => k))
  (at level 61, p pattern, m at next level, right associativity).

(** ** The methods of [str] that the program uses *)

Module Str.

Definition code (c : ascii) : N := N_of_ascii c.

Definition between (lo hi : N) (c : ascii) : bool :=
  ((lo <=? code c) && (code c <=? hi))%N.

(** [str.isspace] on the code points below 256. *)
Definition is_space (c : ascii) : bool :=
  between 9 13 c || between 28 32 c || (code c =? 133)%N || (code c =? 160)%N.

Definition is_upper (c : ascii) : bool :=
  between 65 90 c || (between 192 222 c && negb (code c =? 215)%N).

Definition lower_char (c : ascii) : ascii :=
  if is_upper c then ascii_of_N (code c + 32) else c.

Fixpoint lower (s : string) : string :=
  match s with
  | EmptyString => EmptyString
  | String c s' => String (lower_char c) (lower s')
  end.

Definition is_empty (s : string) : bool :=
  match s with EmptyString => true | _ => false end.

Fixpoint lstrip_by (p : ascii -> bool) (s : string) : string :=
  match s with
  | EmptyString => EmptyString
  | String c s' => if p c then lstrip_by p s' else s
  end.

Fixpoint rstrip_by (p : ascii -> bool) (s : string) : string :=
  match s with
  | EmptyString => EmptyString
  | String c s' =>
      let r := rstrip_by p s' in
      if is_empty r && p c then EmptyString else String c r
  end.

(** [s.strip()] *)
Definition strip (s : string) : string := rstrip_by is_space (lstrip_by is_space s).

Fixpoint filter (p : ascii -> bool) (s : string) : string :=
  match s with
  | EmptyString => EmptyString
  | String c s' => if p c then String c (filter p s') else filter p s'
  end.

Fixpoint forallb (p : ascii -> bool) (s : string) : bool :=
  match s with
  | EmptyString => true
  | String c s' => p c && forallb p s'
  end.

Fixpoint existsb (p : ascii -> bool) (s : string) : bool :=
  match s with
  | EmptyString => false
  | String c s' => p c || existsb p s'
  end.

(** [c in s] for a one-character [c]. *)
Definition mem (c : ascii) (s : string) : bool := existsb (Ascii.eqb c) s.

(** [(s[:i], s[i+1:])] for [i = s.find(c)], when [c] occurs in [s]. *)
Fixpoint partition (c : ascii) (s : string) : option (string * string) :=
  match s with
  | EmptyString => None
  | String d s' =>
      if Ascii.eqb d c then Some (EmptyString, s')
      else match partition c s' with
           | Some (a, b) => Some (String d a, b)
           | None => None
           end
  end.

(** The same at the last occurrence: [i = s.rfind(c)]. *)
Fixpoint rpartition (c : ascii) (s : string) : option (string * string) :=
  match s with
  | EmptyString => None
  | String d s' =>
      match rpartition c s' with
      | Some (a, b) => Some (String d a, b)
      | None => if Ascii.eqb d c then Some (EmptyString, s') else None
      end
  end.

(** The longest prefix of characters satisfying [p], and the rest. *)
Fixpoint span (p : ascii -> bool) (s : string) : string * string :=
  match s with
  | EmptyString => (EmptyString, EmptyString)
  | String c s' =>
      if p c then let '(a, b) := span p s' in (String c a, b)
      else (EmptyString, s)
  end.

Fixpoint startswith (pre s : string) : bool :=
  match pre, s with
  | EmptyString, _ => true
  | String a pre', String b s' => Ascii.eqb a b && startswith pre' s'
  | String _ _, EmptyString => false
  end.

Fixpoint drop (n : nat) (s : string) : string :=
  match n, s with
  | O, _ => s
  | S n', String _ s' => drop n' s'
  | S _, EmptyString => EmptyString
  end.

Fixpoint take (n : nat) (s : string) : string :=
  match n, s with
  | O, _ => EmptyString
  | S n', String c s' => String c (take n' s')
  | S _, EmptyString => EmptyString
  end.

(** [sub in s] *)
Fixpoint contains (sub s : string) : bool :=
  startswith sub s ||
  match s with
  | EmptyString => false
  | String _ s' => contains sub s'
  end.

(** [s.endswith(suf)] *)
Fixpoint endswith (suf s : string) : bool :=
  String.eqb suf s ||
  match s with
  | EmptyString => false
  | String _ s' => endswith suf s'
  end.

(** [s.split(sub, 1)[1]]: what follows the first occurrence of [sub]. *)
Fixpoint after_first (sub s : string) : option string :=
  if startswith sub s then Some (drop (String.length sub) s)
  else match s with
       | EmptyString => None
       | String _ s' => after_first sub s'
       end.

(** [s.replace(old, new, 1)] for a non-empty [old]. *)
Fixpoint replace_first (old new s : string) : string :=
  if startswith old s then new ++ drop (String.length old) s
  else match s with
       | EmptyString => EmptyString
       | String c s' => String c (replace_first old new s')
       end.

(** [s.split(c)] for a one-character separator. *)
Fixpoint split (c : ascii) (s : string) : list string :=
  match s with
  | EmptyString => [EmptyString]
  | String d s' =>
      match split c s' with
      | [] => [EmptyString]
      | w :: ws => if Ascii.eqb d c then EmptyString :: w :: ws
                   else String d w :: ws
      end
  end.

(** [s.count(c)] for a one-character [c]. *)
Fixpoint count (c : ascii) (s : string) : Z :=
  match s with
  | EmptyString => 0
  | String d s' => (if Ascii.eqb d c then 1 else 0) + count c s'
  end.

Definition len (s : string) : Z := Z.of_nat (String.length s).

(** [str(n)] for an integer. *)
Definition of_Z (n : Z) : string := NilZero.string_of_int (Z.to_int n).

(** [sep.join(l)] *)
Fixpoint join (sep : string) (l : list string) : string :=
  match l with
  | [] => EmptyString
  | [x] => x
  | x :: rest => x ++ sep ++ join sep rest
  end.

End Str.

(** ** [urllib.parse] *)

Module UrlLib.

Inductive ip_version : Type := IPv4 | IPv6.

Record ParseResult : Type := mkParse {
  scheme : string;
  netloc : string;
  path : string;
  params : string;
  query : string;
  fragment : string
}.

Definition uses_netloc : list string :=
  [EmptyString; "ftp"; "http"; "gopher"; "nntp"; "telnet"; "imap"; "wais"; "file";
   "mms"; "https"; "shttp"; "snews"; "prospero"; "rtsp"; "rtspu"; "rsync";
   "svn"; "svn+ssh"; "sftp"; "nfs"; "git"; "git+ssh"; "ws"; "wss"].

Definition uses_params : list string :=
  [EmptyString; "ftp"; "hdl"; "prospero"; "http"; "imap"; "https"; "shttp"; "rtsp";
   "rtspu"; "sip"; "sips"; "mms"; "sftp"; "tel"].

Definition in_list (s : string) (l : list string) : bool :=
  List.existsb (String.eqb s) l.

Definition is_ascii_alpha (c : ascii) : bool :=
  Str.between 65 90 c || Str.between 97 122 c.

Definition is_digit (c : ascii) : bool := Str.between 48 57 c.

(** [c in scheme_chars] *)
Definition scheme_char (c : ascii) : bool :=
  is_ascii_alpha c || is_digit c || Str.mem c "+-.".

(** [c in _WHATWG_C0_CONTROL_OR_SPACE] *)
Definition c0_control_or_space (c : ascii) : bool := (Str.code c <=? 32)%N.

(** [c in _UNSAFE_URL_BYTES_TO_REMOVE] *)
Definition unsafe_url_byte (c : ascii) : bool :=
  Str.mem c (String "009" (String "013" (String "010" EmptyString))).

Definition is_delim (c : ascii) : bool := Str.mem c "/?#".

Definition not_delim (c : ascii) : bool := negb (is_delim c).

(** The characters [urlsplit] keeps when it removes the unsafe ones. *)
Definition keep_url_byte (c : ascii) : bool := negb (unsafe_url_byte c).

Definition is_hex (c : ascii) : bool :=
  is_digit c || Str.between 97 102 c || Str.between 65 70 c.

(** [re.match(r"\Av[a-fA-F0-9]+\..+\Z", hostname)] *)
Definition ipvfuture_ok (hostname : string) : bool :=
  match hostname with
  | String "v" rest =>
      let '(hex, tl) := Str.span is_hex rest in
      negb (Str.is_empty hex) &&
      match tl with
      | String "." body =>
          negb (Str.is_empty body) && negb (Str.mem "010" body)
      | _ => false
      end
  | _ => false
  end.

Section WithIpAddress.

(** [ipaddress.ip_address]: the version of a well-formed address, [None]
    when it raises [ValueError]. *)
Variable ip_address : string -> option ip_version.

Definition _check_bracketed_host (hostname : string) : result unit :=
  if Str.startswith "v" hostname then
    if ipvfuture_ok hostname then Ok tt else Raise ValueError
  else
    match ip_address hostname with
    | None => Raise ValueError
    | Some IPv4 => Raise ValueError
    | Some IPv6 => Ok tt
    end.

Definition _check_bracketed_netloc (netloc : string) : result unit :=
  let hostname_and_port :=
    match Str.rpartition "@" netloc with
    | Some (_, after) => after
    | None => netloc
    end in
  match Str.partition "[" hostname_and_port with
  | Some (before_bracket, bracketed) =>
      if negb (Str.is_empty before_bracket) then Raise ValueError
      else
        let '(hostname, port) :=
          match Str.partition "]" bracketed with
          | Some (h, p) => (h, p)
          | None => (bracketed, EmptyString)
          end in
        if negb (Str.is_empty port) && negb (Str.startswith ":" port)
        then Raise ValueError
        else _check_bracketed_host hostname
  | None =>
      let hostname :=
        match Str.partition ":" hostname_and_port with
        | Some (h, _) => h
        | None => hostname_and_port
        end in
      _check_bracketed_host hostname
  end.

(** [_splitnetloc(url, 2)] on a [url] that starts with two slashes. *)
Definition _splitnetloc2 (url : string) : string * string :=
  Str.span not_delim (Str.drop 2 url).

(** The scheme step of [urlsplit]: when the text before the first colon
    starts with an ASCII letter and consists of scheme characters, it is the
    scheme (in lower case) and the rest is what follows the colon. *)
Definition split_scheme (url : string) : string * string :=
  match Str.partition ":" url with
  | Some (String c0 pre, post) =>
      if is_ascii_alpha c0 && Str.forallb scheme_char (String c0 pre)
      then (Str.lower (String c0 pre), post)
      else (EmptyString, url)
  | _ => (EmptyString, url)
  end.

(** The two bracket checks of [urlsplit] on the network location. *)
Definition netloc_ok (netloc : string) : result unit :=
  let ob := Str.mem "[" netloc in
  let cb := Str.mem "]" netloc in
  if (ob && negb cb) || (cb && negb ob) then Raise ValueError
  else if ob && cb then _check_bracketed_netloc netloc
  else Ok tt.

(** The network-location step of [urlsplit]. *)
Definition split_authority (url : string) : result (string * string) :=
  if Str.startswith "//" url then
    let '(netloc, rest) := _splitnetloc2 url in
    _ <- netloc_ok netloc ;; Ok (netloc, rest)
  else Ok (EmptyString, url).

(** [url.split(c, 1)] when [c] occurs in [url], and [url] with an empty
    second part when it does not. *)
Definition cut (c : ascii) (url : string) : string * string :=
  match Str.partition c url with
  | Some (a, b) => (a, b)
  | None => (url, EmptyString)
  end.

(** [urlsplit] after the scheme step. *)
Definition split_rest (scheme url : string) : result ParseResult :=
  '(netloc, url) <- split_authority url ;;
  let '(url, fragment) := cut "#" url in
  let '(url, query) := cut "?" url in
  Ok (mkParse scheme netloc url EmptyString query fragment).

(** [urlsplit(url)] with the default [scheme=''] and fragments allowed;
    the result carries an empty [params].  [_checknetloc] compares the
    netloc with its NFKC form and raises when the latter gains one of
    [/?#@:]; no code point below 256 normalises to a string with one of
    these, so the check passes on every string of the model. *)
Definition urlsplit (url0 : string) : result ParseResult :=
  let url := Str.lstrip_by c0_control_or_space url0 in
  let url := Str.filter keep_url_byte url in
  let '(scheme, url) := split_scheme url in
  split_rest scheme url.

Definition _splitparams (url : string) : string * string :=
  match Str.rpartition "/" url with
  | Some (dir, last) =>
      match Str.partition ";" last with
      | Some (a, b) => (dir ++ "/" ++ a, b)
      | None => (url, EmptyString)
      end
  | None =>
      match Str.partition ";" url with
      | Some (a, b) => (a, b)
      | None => (Str.take (Nat.pred (String.length url)) url, url)
      end
  end.

(** Path and parameters as [urlparse] separates them for a scheme that
    uses parameters. *)
Definition split_if (url : string) : string * string :=
  if Str.mem ";" url then _splitparams url else (url, EmptyString).

(** The parameter step of [urlparse]. *)
Definition with_params (sp : ParseResult) : ParseResult :=
  if in_list (scheme sp) uses_params && Str.mem ";" (path sp) then
    let '(p, prm) := _splitparams (path sp) in
    mkParse (scheme sp) (netloc sp) p prm (query sp) (fragment sp)
  else sp.

Definition urlparse (url : string) : result ParseResult :=
  sp <- urlsplit url ;; Ok (with_params sp).

End WithIpAddress.

Definition urlunsplit (scheme netloc url query fragment : string) : string :=
  let url :=
    if negb (Str.is_empty netloc) ||
       (negb (Str.is_empty scheme) && in_list scheme uses_netloc &&
        negb (Str.startswith "//" url))
    then
      let url :=
        if negb (Str.is_empty url) && negb (Str.startswith "/" url)
        then "/" ++ url else url in
      "//" ++ netloc ++ url
    else url in
  let url := if negb (Str.is_empty scheme) then scheme ++ ":" ++ url else url in
  let url := if negb (Str.is_empty query) then url ++ "?" ++ query else url in
  if negb (Str.is_empty fragment) then url ++ "#" ++ fragment else url.

(** [url = "%s;%s" % (url, params)] when [params] is not empty. *)
Definition rejoin (url params : string) : string :=
  if negb (Str.is_empty params) then url ++ ";" ++ params else url.

Definition rejoin_pair (ab : string * string) : string :=
  rejoin (fst ab) (snd ab).

Definition urlunparse (p : ParseResult) : string :=
  urlunsplit (scheme p) (netloc p) (rejoin (path p) (params p)) (query p)
             (fragment p).

(** [parsed.geturl()] *)
Definition geturl (p : ParseResult) : string := urlunparse p.

(** [parsed._replace(fragment=f)] *)
Definition replace_fragment (f : string) (p : ParseResult) : ParseResult :=
  mkParse (scheme p) (netloc p) (path p) (params p) (query p) f.

(** [parsed.hostname], [None] when the host is empty. *)
Definition hostname (p : ParseResult) : option string :=
  let hostinfo :=
    match Str.rpartition "@" (netloc p) with
    | Some (_, after) => after
    | None => netloc p
    end in
  let host :=
    match Str.partition "[" hostinfo with
    | Some (_, bracketed) =>
        match Str.partition "]" bracketed with
        | Some (h, _) => h
        | None => bracketed
        end
    | None =>
        match Str.partition ":" hostinfo with
        | Some (h, _) => h
        | None => hostinfo
        end
    end in
  if Str.is_empty host then None
  else
    match Str.partition "%" host with
    | Some (h, zone) => Some (Str.lower h ++ "%" ++ zone)
    | None => Some (Str.lower host)
    end.

(** A string that is empty or starts with a slash. *)
Definition rooted (s : string) : Prop :=
  match s with
  | EmptyString => True
  | String c _ => c = "/"%char
  end.

(** What [urlunsplit] appends for the query. *)
Definition query_suffix (qry : string) : string :=
  if negb (Str.is_empty qry) then "?" ++ qry else EmptyString.

(** What the normalized URL of an http or https parse carries after the
    scheme and its two slashes. *)
Definition canonical_rest (sp : ParseResult) : string :=
  netloc sp ++ rejoin_pair (split_if (path sp)) ++ query_suffix (query sp).

Definition lower_letter (c : ascii) : bool := Str.between 97 122 c.

End UrlLib.

(** ** The values and the outside world of the detector *)

Module Detector.

Import UrlLib.

(** The Python values that occur in evidence dictionaries and in WHOIS
    records.  A [VDatetime] holds an instant in microseconds since the
    epoch, a naive datetime being read as UTC. *)
#[warnings="-register-all"]
Inductive PyVal : Type :=
| VNone
| VBool (b : bool)
| VInt (n : Z)
| VStr (s : string)
| VDatetime (t : Z)
| VList (l : list PyVal).

Definition Dict : Type := list (string * PyVal).

Fixpoint lookup {A : Type} (k : string) (d : list (string * A)) : option A :=
  match d with
  | [] => None
  | (k', v) :: d' => if String.eqb k k' then Some v else lookup k d'
  end.

(** The result of [tldextract.extract]. *)
Record ExtractResult : Type := mkExtract {
  ext_subdomain : string;
  ext_domain : string;
  ext_suffix : string
}.

(** The outcome of [socket.inet_aton] and [socket.inet_pton]: the address
    parses, the call raises [OSError], or it raises something else (a
    [ValueError] on a string with an embedded null character). *)
Inductive sock_outcome : Type :=
| SockOk
| SockOSError
| SockOther (e : exn).

Record Response : Type := mkResponse {
  status_code : Z;
  text : string
}.

(** [bool(resp)] is [resp.ok]: the status is not an error status. *)
Definition resp_ok (r : Response) : bool :=
  negb ((400 <=? status_code r) && (status_code r <? 600)).

Inductive RelVal : Type :=
| RelList (l : list string)
| RelStr (s : string).

Record LinkTag : Type := mkLink {
  link_rel : option RelVal;
  link_href : option string
}.

Record ScriptTag : Type := mkScript {
  script_src : option string;
  script_string : option string
}.

(** What the program reads from the parsed page: per element kind, in
    document order, the attributes it asks for ([None] when the attribute
    is absent). *)
Record Soup : Type := mkSoup {
  soup_title : option (option string);   (* soup.title, then .string *)
  soup_links : list LinkTag;             (* link elements *)
  soup_forms : list (option string);     (* form elements: action *)
  soup_anchors : list (option string);   (* a elements: href *)
  soup_inputs : list (option string);    (* input elements: type *)
  soup_scripts : list ScriptTag;         (* script elements *)
  soup_iframes : list (option string)    (* iframe elements: src *)
}.

Record World : Type := mkWorld {
  ip_address : string -> option ip_version;
  tld_extract : string -> ExtractResult;
  inet_aton : string -> sock_outcome;
  inet_pton6 : string -> sock_outcome;
  (* socket.gethostbyname_ex: (hostname, aliaslist, ipaddrlist) *)
  gethostbyname_ex : string -> option (string * list string * list string);
  (* ssl: the peer certificate as a dictionary of its text fields *)
  getpeercert : string -> option (list (string * string));
  (* datetime.strptime on a certificate date *)
  strptime_cert : string -> option Z;
  now_tls : Z;
  whois_lookup : string -> option Dict;
  (* datetime.fromisoformat(str(x)) *)
  fromisoformat_str : PyVal -> option Z;
  now_whois : Z;
  requests_get : string -> option Response;
  beautiful_soup : string -> option Soup;
  (* re.search(pattern, content, re.IGNORECASE) *)
  re_search : string -> string -> bool
}.

(** The network operations a run performs, in order. *)
Inductive Call : Type :=
| CallDns (host : string)
| CallTls (host : string)
| CallWhois (domain : string)
| CallFetch (url : string).

(** *** Constants *)

Definition SUSPICIOUS_TLDS : list string :=
  ["zip"; "kim"; "top"; "work"; "country"; "stream"; "biz"; "men"; "loan";
   "mom"; "gq"; "cf"; "tk"; "ml"; "ga"; "surf"; "fit"; "ltda"; "cam"; "bar";
   "click"; "link"; "xyz"; "rest"; "review"; "date"; "online"; "cam"; "app";
   "pics"; "quest"; "ryuk";
   "accountant"; "bid"; "cc"; "club"; "cricket"; "date"; "download"; "faith";
   "ga"; "ga"; "gq"; "gq"; "link"; "ltd"; "men"; "ml"; "mom"; "party";
   "press"; "pw"; "review"; "science"; "stream"; "tk"; "top"; "win"; "work";
   "xyz"].

Definition LEGITIMATE_TLDS : list string :=
  ["com"; "org"; "net"; "edu"; "gov"; "mil"; "io"; "ai"; "co"; "uk"; "us";
   "ca"; "au"; "nz"; "de"; "fr"; "es"; "it"; "nl"; "se"; "no"; "dk"; "fi";
   "ie"; "at"; "ch"; "be"; "lu"; "pt"; "gr"; "hu"; "pl"; "cz"; "sk"; "si";
   "hr"; "ba"; "rs"; "me"; "al"; "mk"; "mt"; "cy"; "li"; "is"; "ee"; "lv";
   "lt"].

Definition TRUSTED_DOMAINS : list string :=
  ["google.com"; "facebook.com"; "apple.com"; "microsoft.com"; "amazon.com";
   "netflix.com";
   "twitter.com"; "instagram.com"; "linkedin.com"; "github.com";
   "oracle.com"; "whatsapp.com";
   "signal.org"; "telegram.org"; "discord.com"; "slack.com"; "dropbox.com";
   "box.com";
   "adobe.com"; "salesforce.com"; "ibm.com"; "intel.com"; "nvidia.com";
   "amd.com";
   "paypal.com"; "stripe.com"; "visa.com"; "mastercard.com";
   "americanexpress.com";
   "wikipedia.org"; "mozilla.org"; "wordpress.org"; "archive.org";
   "berkeley.edu"; "stanford.edu"; "mit.edu"; "harvard.edu"; "yale.edu";
   "princeton.edu";
   "columbia.edu"; "upenn.edu"; "cornell.edu"; "brown.edu"; "dartmouth.edu";
   "ucla.edu"; "ucsd.edu"; "ucb.edu"; "umich.edu"; "uiuc.edu"; "utexas.edu"].

(** The trusted patterns all have one shape: anchored at both ends, a
    sequence of label runs and literal text, matched without regard to
    case. *)
Inductive Atom : Type :=
| Label              (* [a-zA-Z0-9-]+ *)
| Alpha2             (* [a-zA-Z]{2,} *)
| Lit (s : string).  (* literal text *)

Definition TRUSTED_PATTERNS : list (list Atom) :=
  [ [Label; Lit ".oracle.com"];
    [Label; Lit ".whatsapp.com"];
    [Label; Lit ".google.com"];
    [Label; Lit ".microsoft.com"];
    [Label; Lit ".apple.com"];
    [Label; Lit ".amazon.com"];
    [Label; Lit ".github.com"];
    [Label; Lit ".edu"];
    [Label; Lit "."; Label; Lit ".edu"];
    [Label; Lit ".edu."; Alpha2];
    [Label; Lit ".ac."; Alpha2];
    [Label; Lit ".gov"];
    [Label; Lit ".gov."; Alpha2];
    [Label; Lit ".org"];
    [Label; Lit ".mil"] ].

Definition SUSPICIOUS_KEYWORDS : list string :=
  ["login-secure"; "verify-account"; "update-details"; "secure-account";
   "bank-login";
   "wallet-access"; "pay-now"; "password-reset"; "support-ticket";
   "helpdesk-verify";
   "unlock-account"; "billing-update"; "confirm-details"; "re-activate-now";
   "gift-card"; "free-offer"; "prize-winner"; "bonus-claim"].

Definition BRAND_HINTS : list string :=
  ["Apple"; "Microsoft"; "Google"; "Facebook"; "Instagram"; "Amazon";
   "Netflix"; "PayPal"; "Adobe"; "LinkedIn"; "Bank"].

Definition OBFUSCATION_HINTS : list string :=
  ["\beval\s*\("; "Function\s*\("; "atob\s*\("; "unescape\s*\(";
   "fromCharCode\s*\(";
   "document\.write\s*\("; "\.replace\s*\(/.*?/"; "obfuscate"; "packer";
   "window\["].

Definition REDIRECT_HINTS : list string :=
  ["window\.location"; "location\.href"; "location\.replace"; "top\.location"].

Definition RIGHTCLICK_BLOCK_HINTS : list string :=
  ["contextmenu"; "document\.oncontextmenu"; "return\s+false;"].

(** The keys of the weight table. *)
Inductive WeightKey : Type :=
| ip_in_url | punycode | unicode_homoglyphs | too_many_subdomains
| suspicious_tld | url_length | at_symbol | double_slash | many_hyphens
| suspicious_keywords
| no_https | weak_tls | cert_short_validity | cert_expiring_soon
| dns_missing | domain_too_new
| external_favicon | external_form_action | mailto_exfil
| password_over_http | many_external_scripts | many_iframes | obfuscation
| redirect_js | rightclick_block | brand_title_mismatch.

Definition WEIGHTS (k : WeightKey) : Z :=
  match k with
  | ip_in_url => 8
  | punycode => 5
  | unicode_homoglyphs => 5
  | too_many_subdomains => 2
  | suspicious_tld => 4
  | url_length => 2
  | at_symbol => 5
  | double_slash => 2
  | many_hyphens => 2
  | suspicious_keywords => 3
  | no_https => 0
  | weak_tls => 0
  | cert_short_validity => 0
  | cert_expiring_soon => 0
  | dns_missing => 6
  | domain_too_new => 4
  | external_favicon => 2
  | external_form_action => 8
  | mailto_exfil => 5
  | password_over_http => 10
  | many_external_scripts => 3
  | many_iframes => 2
  | obfuscation => 4
  | redirect_js => 2
  | rightclick_block => 2
  | brand_title_mismatch => 3
  end.

(** *** Findings, reports and the state of a run *)

Inductive Severity : Type := LOW | MEDIUM | HIGH.

(** A finding is the triple the program appends to [findings]. *)
Definition Finding : Type := (Severity * string * Dict)%type.

(** The detection site a finding comes from: one of the weighted rules, or
    the resolved-host check, whose penalty is a literal. *)
Inductive Signal : Type :=
| Weighted (k : WeightKey)
| ResolvedHostMismatch.

Record Entry : Type := mkEntry {
  e_signal : Signal;
  e_finding : Finding;
  e_weight : Z
}.

(** [findings] and [score] are the two accumulators of [analyze];
    [calls] lists the network operations performed so far.  [ledger] is a
    ghost record: each [findings.append(f); score += w] pair of the source
    adds one entry that names its site and keeps [f] and [w] together. *)
Record St : Type := mkSt {
  findings : list Finding;
  score : Z;
  calls : list Call;
  ledger : list Entry
}.

Definition st0 : St := mkSt [] 0 [] [].

(** [findings.append(f); score += w] at the site [sg]. *)
Definition hit (sg : Signal) (w : Z) (f : Finding) (st : St) : St :=
  mkSt (findings st ++ [f]) (score st + w) (calls st)
       (ledger st ++ [mkEntry sg f w]).

(** [findings.append(f); score += WEIGHTS[k]] *)
Definition flag (k : WeightKey) (f : Finding) (st : St) : St :=
  hit (Weighted k) (WEIGHTS k) f st.

Definition flag_if (b : bool) (k : WeightKey) (f : Finding) (st : St) : St :=
  if b then flag k f st else st.

Definition call (c : Call) (st : St) : St :=
  mkSt (findings st) (score st) (calls st ++ [c]) (ledger st).

Record Context : Type := mkContext {
  dns_resolve : bool;
  domain_age_days_ctx : option Z;
  uses_https : bool;
  trusted_domain : bool
}.

Record Sources : Type := mkSources {
  external_domains : list string;
  form_actions : list string;
  mailto_links : list string;
  obfuscated_scripts : list string;
  redirect_scripts : list string;
  rightclick_block_src : bool;
  title : option string;
  favicon_external : bool
}.

Definition sources0 : Sources := mkSources [] [] [] [] [] false None false.

(** The dictionary [analyze] returns; [sources] is [None] for the empty
    dictionary of the trusted branch. *)
Record Report : Type := mkReport {
  input_url : string;
  normalized_url : string;
  host : string;
  domain : string;
  tld : string;
  verdict : string;
  risk_score : Z;
  threats : list Finding;
  context : Context;
  sources : option Sources
}.

(** What a run leaves behind: the report, the network operations it
    performed, the ghost ledger and the parsed page it inspected, if it
    inspected one. *)
Record Run : Type := mkRun {
  report : Report;
  run_calls : list Call;
  run_ledger : list Entry;
  run_page : option Soup
}.

(** *** The helpers of [analyze] *)

Section Program.

Variable w : World.

(** [s] starts with [lit], letters compared without regard to case. *)
Fixpoint startswith_ci (lit s : string) : bool :=
  match lit, s with
  | EmptyString, _ => true
  | String a lit', String b s' =>
      Ascii.eqb (Str.lower_char a) (Str.lower_char b) && startswith_ci lit' s'
  | String _ _, EmptyString => false
  end.

(** [re.match(r"^https?://", url, re.IGNORECASE)] on a string of the
    embedding.  Without regard to case the "s" of the pattern also matches
    U+017F, a code point that these strings do not have. *)
Definition has_http_scheme (url : string) : bool :=
  startswith_ci "http://" url || startswith_ci "https://" url.

(** [if not re.match(...): url = "http://" + url] *)
Definition with_default_scheme (url : string) : string :=
  if negb (has_http_scheme url) then "http://" ++ url else url.

Definition normalize_url (url : string) : result string :=
  let url := Str.strip url in
  let url := with_default_scheme url in
  parsed <- urlparse (ip_address w) url ;;
  Ok (geturl (replace_fragment EmptyString parsed)).

Definition domain_parts (url : string) : string * string :=
  let ext := tld_extract w url in
  let domain :=
    if negb (Str.is_empty (ext_suffix ext))
    then ext_domain ext ++ "." ++ ext_suffix ext
    else ext_domain ext in
  (Str.lower domain, Str.lower (ext_subdomain ext)).

Definition label_char (c : ascii) : bool :=
  is_ascii_alpha c || is_digit c || Ascii.eqb c "-".

(** [re.match] of an anchored pattern; the final [$] matches at the end
    of the string and before a newline that ends it. *)
Fixpoint match_atoms (p : list Atom) (s : string) : bool :=
  match p with
  | [] => Str.is_empty s || String.eqb s (String "010" EmptyString)
  | Label :: p' =>
      let '(run, rest) := Str.span label_char s in
      negb (Str.is_empty run) && match_atoms p' rest
  | Alpha2 :: p' =>
      let '(run, rest) := Str.span is_ascii_alpha s in
      (2 <=? String.length run)%nat && match_atoms p' rest
  | Lit l :: p' =>
      startswith_ci l s && match_atoms p' (Str.drop (String.length l) s)
  end.

Definition is_trusted_domain (domain : string) : bool :=
  if in_list domain TRUSTED_DOMAINS then true
  else if List.existsb (fun td => Str.endswith ("." ++ td) domain) TRUSTED_DOMAINS
  then true
  else if List.existsb (fun p => match_atoms p domain) TRUSTED_PATTERNS then true
  else if Str.endswith ".edu" domain || Str.contains ".edu." domain ||
          Str.contains ".ac." domain then true
  else if Str.endswith ".gov" domain || Str.contains ".gov." domain then true
  else if Str.endswith ".org" domain then true
  else false.

Definition is_legitimate_tld (tld : string) : bool :=
  in_list tld LEGITIMATE_TLDS.

Definition is_ip (host : string) : result bool :=
  match inet_aton w host with
  | SockOk => Ok true
  | SockOther e => Raise e
  | SockOSError =>
      match inet_pton6 w host with
      | SockOk => Ok true
      | SockOther e => Raise e
      | SockOSError => Ok false
      end
  end.

Definition contains_unicode_homoglyphs (host : string) : bool :=
  Str.existsb (fun c => (127 <? Str.code c)%N) host.

Definition get_dns_a (host : string)
  : option (string * list string * list string) :=
  gethostbyname_ex w host.

Definition get_tls_cert (host : string) : option (list (string * string)) :=
  getpeercert w host.

Definition parse_cert_dates (cert : list (string * string))
  : option Z * option Z :=
  let field k := match lookup k cert with Some s => s | None => EmptyString end in
  match cert with
  | [] => (None, None)
  | _ => (strptime_cert w (field "notBefore"), strptime_cert w (field "notAfter"))
  end.

Definition get_whois (domain : string) : option Dict := whois_lookup w domain.

(** [timedelta.days] of the difference of two instants. *)
Definition days_between (later earlier : Z) : Z :=
  (later - earlier) / 86400000000.

Definition _to_dt (x : PyVal) : result (option Z) :=
  x <- match x with
       | VList [] => Raise IndexError
       | VList (y :: _) => Ok y
       | _ => Ok x
       end ;;
  match x with
  | VDatetime t => Ok (Some t)
  | _ => Ok (fromisoformat_str w x)
  end.

Definition domain_age_days (wd : option Dict) : result (option Z) :=
  match wd with
  | None | Some [] => Ok None
  | Some d =>
      created <- _to_dt (match lookup "creation_date" d with
                         | Some v => v
                         | None => VNone
                         end) ;;
      match created with
      | None => Ok None
      | Some t => Ok (Some (Z.max 0 (days_between (now_whois w) t)))
      end
  end.

Definition fetch (url : string) : option Response := requests_get w url.

Definition try_https_upgrade (url : string) : result string :=
  parsed <- urlparse (ip_address w) url ;;
  if String.eqb (scheme parsed) "http"
  then Ok (Str.replace_first "http://" "https://" url)
  else Ok url.

Definition _rel_contains_icon (rel_val : option RelVal) : bool :=
  match rel_val with
  | None => false
  | Some (RelList l) => Str.contains "icon" (Str.lower (Str.join " " l))
  | Some (RelStr s) => Str.contains "icon" (Str.lower s)
  end.

(** [set.add]: the set of external domains is kept as a list without
    repetition. *)
Definition set_add (d : string) (s : list string) : list string :=
  if in_list d s then s else s ++ [d].

Definition add_external (base_domain : string) (acc : list string)
           (attr : string) : list string :=
  let d := fst (domain_parts attr) in
  if negb (Str.is_empty d) && negb (String.eqb d base_domain)
  then set_add d acc else acc.

Fixpoint somes {A : Type} (l : list (option A)) : list A :=
  match l with
  | [] => []
  | Some a :: l' => a :: somes l'
  | None :: l' => somes l'
  end.

Definition collect_external_domains (soup : Soup) (base_domain : string)
  : list string :=
  let externals := [] in
  let externals :=
    fold_left (add_external base_domain)
              (somes (map script_src (soup_scripts soup))) externals in
  let externals :=
    fold_left (add_external base_domain)
              (somes (soup_iframes soup)) externals in
  fold_left (add_external base_domain)
            (somes (map link_href (soup_links soup))) externals.

Definition looks_like_brand_mismatch (title domain : string) : bool :=
  let title := Str.strip title in
  if Str.is_empty title then false
  else
    let title_brands :=
      List.filter (fun b => Str.contains (Str.lower b) (Str.lower title))
                  BRAND_HINTS in
    match title_brands with
    | [] => false
    | _ =>
        negb (List.existsb
                (fun b => Str.contains (Str.lower b) (Str.lower domain))
                title_brands)
    end.

(** *** [analyze], stage by stage *)

(** [len([p for p in host.split(".") if p]) - 2 if domain in host
    else host.count(".")] *)
Definition sub_count (host domain : string) : Z :=
  if Str.contains domain host
  then Z.of_nat (List.length
                   (List.filter (fun p => negb (Str.is_empty p))
                                (Str.split "." host))) - 2
  else Str.count "." host.

Definition tld_of (normalized : string) : string :=
  Str.lower (List.last (Str.split "." (ext_suffix (tld_extract w normalized)))
                       EmptyString).

Definition first_keyword (normalized : string) : option string :=
  List.find (fun kw => Str.contains kw (Str.lower normalized))
            SUSPICIOUS_KEYWORDS.

Definition many_subdomains_finding (host : string) (n : Z) : Finding :=
  (LOW, "Many subdomains (" ++ Str.of_Z n ++ ").", [("host", VStr host)]).

(** Lines 378-424: the checks on the URL text. *)
Definition url_checks (normalized host domain : string) (st : St)
  : result (St * string) :=
  ip <- is_ip host ;;
  let st := flag_if ip ip_in_url
    (MEDIUM, "IP address used in URL (often used to hide identity).",
     [("host", VStr host)]) st in
  let st := flag_if (Str.startswith "xn--" host || Str.contains ".xn--" host)
    punycode
    (LOW, "Punycode (IDN) in hostname; potential homograph attack.",
     [("host", VStr host)]) st in
  let st := flag_if (contains_unicode_homoglyphs host) unicode_homoglyphs
    (LOW, "Non-ASCII characters in hostname; possible IDN homograph attempt.",
     [("host", VStr host)]) st in
  let n := sub_count host domain in
  let st := flag_if (6 <=? n) too_many_subdomains
    (many_subdomains_finding host n) st in
  let tld := tld_of normalized in
  let st := flag_if (in_list tld SUSPICIOUS_TLDS && negb (is_legitimate_tld tld))
    suspicious_tld
    (LOW, "Suspicious TLD: ." ++ tld, [("tld", VStr tld)]) st in
  let st := flag_if (180 <? Str.len normalized) url_length
    (LOW, "Long URL (" ++ Str.of_Z (Str.len normalized) ++ " chars).",
     [("url", VStr (Str.take 100 normalized ++ "..."))]) st in
  let st := flag_if (Str.mem "@" normalized) at_symbol
    (MEDIUM, "Contains '@' in URL (userinfo part).", []) st in
  rest <- match Str.after_first "://" normalized with
          | Some r => Ok r
          | None => Raise IndexError
          end ;;
  let st := flag_if (Str.contains "//" rest) double_slash
    (LOW, "Double slash in path (can be used for obfuscation).", []) st in
  let st := flag_if (4 <=? Str.count "-" host) many_hyphens
    (LOW, "Many hyphens in hostname.", [("host", VStr host)]) st in
  let st :=
    match first_keyword normalized with
    | Some kw =>
        flag suspicious_keywords
          (LOW, "Suspicious keyword in URL: '" ++ kw ++ "'.",
           [("keyword", VStr kw)]) st
    | None => st
    end in
  Ok (st, tld).

Definition dns_missing_finding : Finding :=
  (HIGH, "DNS resolution failed (domain may not exist).", []).

Definition mismatch_finding (resolved_host domain : string) : Finding :=
  (MEDIUM,
   "Resolved host '" ++ resolved_host ++ "' doesn't match domain '" ++
   domain ++ "'.", []).

(** Lines 434-440: the loop over [resolved_hosts]. *)
Fixpoint resolved_hosts_check (domain : string) (hosts : list string)
         (st : St) : result St :=
  match hosts with
  | [] => Ok st
  | resolved_host :: rest =>
      ip <- is_ip resolved_host ;;
      if ip then resolved_hosts_check domain rest st
      else
        let resolved_domain := fst (domain_parts resolved_host) in
        let st :=
          if negb (String.eqb resolved_domain domain)
          then hit ResolvedHostMismatch 3
                   (mismatch_finding resolved_host domain) st
          else st in
        resolved_hosts_check domain rest st
  end.

(** Lines 427-440. *)
Definition dns_checks (host domain : string) (st : St)
  : result (St * option (string * list string * list string)) :=
  let st := call (CallDns host) st in
  let dns := get_dns_a host in
  match dns with
  | None => Ok (flag dns_missing dns_missing_finding st, dns)
  | Some (_, _, resolved_hosts) =>
      st <- resolved_hosts_check domain resolved_hosts st ;;
      Ok (st, dns)
  end.

(** Lines 442-461. *)
Definition tls_checks (host : string) (uses_https : bool) (st : St) : St :=
  let st := call (CallTls host) st in
  let cert := get_tls_cert host in
  if negb uses_https then flag no_https (HIGH, "No HTTPS (plain HTTP).", []) st
  else
    match cert with
    | None | Some [] =>
        flag weak_tls (HIGH, "HTTPS certificate invalid or untrusted.", []) st
    | Some c =>
        match parse_cert_dates c with
        | (Some not_before, Some not_after) =>
            let total_days := days_between not_after not_before in
            let st := flag_if (total_days <? 30) cert_short_validity
              (LOW, "Certificate has short validity (" ++ Str.of_Z total_days
                    ++ " days).", []) st in
            flag_if (days_between not_after (now_tls w) <? 7)
              cert_expiring_soon
              (MEDIUM, "Certificate expiring soon.", []) st
        | _ => st
        end
    end.

(** Lines 464-468. *)
Definition whois_checks (domain : string) (st : St)
  : result (St * option Z) :=
  let st := call (CallWhois domain) st in
  age_days <- domain_age_days (get_whois domain) ;;
  let st :=
    match age_days with
    | Some a =>
        flag_if (a <? 30) domain_too_new
          (MEDIUM, "Domain is new (" ++ Str.of_Z a ++ " days old).",
           [("age_days", VInt a)]) st
    | None => st
    end in
  Ok (st, age_days).

(** [bool(resp)] for the result of [fetch]. *)
Definition truthy (resp : option Response) : bool :=
  match resp with
  | Some r => resp_ok r
  | None => false
  end.

Record Fetched : Type := mkFetched {
  f_resp : option Response;
  f_normalized : string;
  f_uses_https : bool
}.

(** Lines 471-480: the fetch and its single upgraded retry. *)
Definition fetch_page (normalized : string) (uses_https : bool) (st : St)
  : result (St * Fetched) :=
  let st := call (CallFetch normalized) st in
  let resp := fetch normalized in
  if truthy resp then Ok (st, mkFetched resp normalized uses_https)
  else
    https_url <- try_https_upgrade normalized ;;
    if negb (String.eqb https_url normalized) then
      let st := call (CallFetch https_url) st in
      let resp := fetch https_url in
      if truthy resp then
        _ <- urlparse (ip_address w) https_url ;;
        Ok (st, mkFetched resp https_url true)
      else Ok (st, mkFetched resp normalized uses_https)
    else Ok (st, mkFetched resp normalized uses_https).

(** *** The checks on the fetched page (lines 499-583) *)

Definition Acc : Type := (St * Sources)%type.

Definition truthy_str (o : option string) : option string :=
  match o with
  | Some s => if Str.is_empty s then None else Some s
  | None => None
  end.

Definition title_check (domain : string) (soup : Soup) (a : Acc) : Acc :=
  let '(st, src) := a in
  let t := match soup_title soup with Some t => t | None => None end in
  let src := mkSources (external_domains src) (form_actions src)
               (mailto_links src) (obfuscated_scripts src)
               (redirect_scripts src) (rightclick_block_src src) t
               (favicon_external src) in
  match truthy_str t with
  | Some ts =>
      if looks_like_brand_mismatch ts domain
      then (flag brand_title_mismatch
              (MEDIUM, "Title contains brand name not matching domain.",
               [("title", VStr ts)]) st, src)
      else (st, src)
  | None => (st, src)
  end.

Definition favicon_check (domain : string) (soup : Soup) (a : Acc) : Acc :=
  let '(st, src) := a in
  match List.find (fun l => _rel_contains_icon (link_rel l)) (soup_links soup) with
  | Some favicon =>
      match truthy_str (link_href favicon) with
      | Some href =>
          let favicon_domain := fst (domain_parts href) in
          if negb (Str.is_empty favicon_domain) &&
             negb (String.eqb favicon_domain domain)
          then (flag external_favicon
                  (LOW, "Favicon loaded from external domain.",
                   [("external_domain", VStr favicon_domain)]) st,
                mkSources (external_domains src) (form_actions src)
                  (mailto_links src) (obfuscated_scripts src)
                  (redirect_scripts src) (rightclick_block_src src)
                  (title src) true)
          else (st, src)
      | None => (st, src)
      end
  | None => (st, src)
  end.

(** The form's action leads to a registrable domain other than the
    page's. *)
Definition external_action (domain action : string) : bool :=
  let action_domain := fst (domain_parts action) in
  negb (Str.is_empty action_domain) && negb (String.eqb action_domain domain).

Definition form_finding (action : string) : Finding :=
  (HIGH, "Form submits to external domain: " ++ fst (domain_parts action),
   [("action", VStr action)]).

Definition form_step (domain : string) (a : Acc) (action : string) : Acc :=
  let '(st, src) := a in
  if external_action domain action
  then (flag external_form_action (form_finding action) st,
        mkSources (external_domains src) (form_actions src ++ [action])
          (mailto_links src) (obfuscated_scripts src)
          (redirect_scripts src) (rightclick_block_src src)
          (title src) (favicon_external src))
  else (st, src).

(** [for form in soup.find_all("form", action=True)] *)
Definition forms_check (domain : string) (soup : Soup) (a : Acc) : Acc :=
  fold_left (form_step domain) (somes (soup_forms soup)) a.

Definition mailto_step (a : Acc) (href : string) : Acc :=
  let '(st, src) := a in
  if Str.startswith "mailto:" href && Str.mem "?" href
  then (flag mailto_exfil
          (MEDIUM, "Mailto link with parameters (potential data exfiltration).",
           [("href", VStr href)]) st,
        mkSources (external_domains src) (form_actions src)
          (mailto_links src ++ [href]) (obfuscated_scripts src)
          (redirect_scripts src) (rightclick_block_src src)
          (title src) (favicon_external src))
  else (st, src).

Definition mailto_check (soup : Soup) (a : Acc) : Acc :=
  fold_left mailto_step (somes (soup_anchors soup)) a.

Definition is_password (t : option string) : bool :=
  match t with
  | Some s => String.eqb s "password"
  | None => false
  end.

Definition password_check (uses_https : bool) (soup : Soup) (a : Acc) : Acc :=
  let '(st, src) := a in
  if negb uses_https then
    let password_fields := List.filter is_password (soup_inputs soup) in
    match password_fields with
    | [] => (st, src)
    | _ =>
        (flag password_over_http
           (HIGH, "Password field(s) found on HTTP page.",
            [("count", VInt (Z.of_nat (List.length password_fields)))]) st,
         src)
    end
  else (st, src).

Definition externals_check (domain : string) (soup : Soup) (a : Acc) : Acc :=
  let '(st, src) := a in
  let externals := collect_external_domains soup domain in
  let n := Z.of_nat (List.length externals) in
  let src := mkSources externals (form_actions src)
               (mailto_links src) (obfuscated_scripts src)
               (redirect_scripts src) (rightclick_block_src src)
               (title src) (favicon_external src) in
  (flag_if (8 <? n) many_external_scripts
     (LOW, "Many external domains loaded (" ++ Str.of_Z n ++ ").",
      [("domains", VList (map VStr externals))]) st, src).

Definition iframes_check (soup : Soup) (a : Acc) : Acc :=
  let '(st, src) := a in
  let n := Z.of_nat (List.length (soup_iframes soup)) in
  (flag_if (5 <? n) many_iframes
     (LOW, "Many iframes (" ++ Str.of_Z n ++ ").", []) st, src).

(** [content[:100] + "..." if len(content) > 100 else content] *)
Definition excerpt (content : string) : string :=
  if 100 <? Str.len content then Str.take 100 content ++ "..." else content.

Definition any_hint (hints : list string) (content : string) : bool :=
  List.existsb (fun hint => re_search w hint content) hints.

Definition script_step (a : Acc) (script : ScriptTag) : Acc :=
  match truthy_str (script_string script) with
  | None => a
  | Some content =>
      let content := Str.strip content in
      if Str.is_empty content then a
      else
        let '(st, src) := a in
        let '(st, src) :=
          if any_hint OBFUSCATION_HINTS content
          then (flag obfuscation
                  (MEDIUM, "Script contains obfuscation patterns.", []) st,
                mkSources (external_domains src) (form_actions src)
                  (mailto_links src)
                  (obfuscated_scripts src ++ [excerpt content])
                  (redirect_scripts src) (rightclick_block_src src)
                  (title src) (favicon_external src))
          else (st, src) in
        let '(st, src) :=
          if any_hint REDIRECT_HINTS content
          then (flag redirect_js
                  (LOW, "Script contains redirect logic.", []) st,
                mkSources (external_domains src) (form_actions src)
                  (mailto_links src) (obfuscated_scripts src)
                  (redirect_scripts src ++ [excerpt content])
                  (rightclick_block_src src)
                  (title src) (favicon_external src))
          else (st, src) in
        if any_hint RIGHTCLICK_BLOCK_HINTS content
        then (flag rightclick_block
                (LOW, "Script blocks right-click (common in phishing).", []) st,
              mkSources (external_domains src) (form_actions src)
                (mailto_links src) (obfuscated_scripts src)
                (redirect_scripts src) true
                (title src) (favicon_external src))
        else (st, src)
  end.

Definition scripts_check (soup : Soup) (a : Acc) : Acc :=
  fold_left script_step (soup_scripts soup) a.

(** The body of [if soup:]. *)
Definition soup_checks (domain : string) (uses_https : bool) (soup : Soup)
           (a : Acc) : Acc :=
  let a := title_check domain soup a in
  let a := favicon_check domain soup a in
  let a := forms_check domain soup a in
  let a := mailto_check soup a in
  let a := password_check uses_https soup a in
  let a := externals_check domain soup a in
  let a := iframes_check soup a in
  scripts_check soup a.

(** The page that is inspected: the response is truthy, its status is
    200 and the parser returned a tree. *)
Definition page_of (resp : option Response) : option Soup :=
  match resp with
  | Some r =>
      if resp_ok r && (status_code r =? 200) then beautiful_soup w (text r)
      else None
  | None => None
  end.

(** Lines 482-583. *)
Definition page_checks (domain : string) (f : Fetched) (st : St) : Acc :=
  match page_of (f_resp f) with
  | Some soup => soup_checks domain (f_uses_https f) soup (st, sources0)
  | None => (st, sources0)
  end.

(** Lines 587-592. *)
Definition verdict_of (score : Z) : string :=
  if 35 <=? score then "Phishing"
  else if 20 <=? score then "Suspicious"
  else "Likely safe".

Definition is_some {A : Type} (o : option A) : bool :=
  match o with Some _ => true | None => false end.

Definition host_of (parsed : ParseResult) : string :=
  match hostname parsed with Some h => h | None => EmptyString end.

(** [parsed.scheme.lower() == "https"] *)
Definition uses_https_of (parsed : ParseResult) : bool :=
  String.eqb (Str.lower (scheme parsed)) "https".

(** Lines 360-376: the report of the trusted branch. *)
Definition trusted_report (url normalized : string) (parsed : ParseResult)
           (domain : string) : Report :=
  mkReport url normalized (host_of parsed) domain
    (List.last (Str.split "." domain) EmptyString)
    "Likely safe" 0 []
    (mkContext true None (uses_https_of parsed) true)
    None.

(** Lines 587-612: verdict, context and report of the full analysis. *)
Definition final_report (url host domain tld : string)
           (dns : option (string * list string * list string))
           (age_days : option Z) (fetched : Fetched) (a : Acc) : Report :=
  let '(st, src) := a in
  mkReport url (f_normalized fetched) host domain tld
    (verdict_of (score st)) (score st) (findings st)
    (mkContext (is_some dns) age_days (f_uses_https fetched) false)
    (Some src).

(** [analyze(url)], with the network operations it performed, the
    ledger of its detections and the page it inspected. *)
Definition analyze_run (url : string) : result Run :=
  normalized <- normalize_url url ;;
  parsed <- urlparse (ip_address w) normalized ;;
  let host := host_of parsed in
  let domain := fst (domain_parts normalized) in
  if is_trusted_domain domain then
    Ok (mkRun (trusted_report url normalized parsed domain) [] [] None)
  else
    '(st, tld) <- url_checks normalized host domain st0 ;;
    '(st, dns) <- dns_checks host domain st ;;
    let uses_https := uses_https_of parsed in
    let st := tls_checks host uses_https st in
    '(st, age_days) <- whois_checks domain st ;;
    '(st, fetched) <- fetch_page normalized uses_https st ;;
    let a := page_checks domain fetched st in
    Ok (mkRun (final_report url host domain tld dns age_days fetched a)
              (calls (fst a)) (ledger (fst a)) (page_of (f_resp fetched))).

Definition analyze (url : string) : result Report :=
  r <- analyze_run url ;; Ok (report r).

End Program.

(** *** Reading the ledger *)

Scheme Equality for WeightKey.
Scheme Equality for Signal.

Definition sum_weights (l : list Entry) : Z :=
  fold_right (fun e acc => e_weight e + acc) 0 l.

(** The entries of a ledger that come from the site [sg]. *)
Definition picked (sg : Signal) (l : list Entry) : list Entry :=
  List.filter (fun e => Signal_beq (e_signal e) sg) l.

(** [st'] is [st] after some detections, all from sites in [p]: the
    ledger grew by [d], and the two accumulators of the program grew by
    the findings and by the weights of [d]. *)
Definition extends (p : Signal -> bool) (st st' : St) : Prop :=
  exists d,
    ledger st' = (ledger st ++ d)%list /\
    findings st' = (findings st ++ map e_finding d)%list /\
    score st' = score st + sum_weights d /\
    Forall (fun e => p (e_signal e) = true) d.

Definition url_sig (sg : Signal) : bool :=
  match sg with
  | Weighted (ip_in_url | punycode | unicode_homoglyphs | too_many_subdomains
             | suspicious_tld | url_length | at_symbol | double_slash
             | many_hyphens | suspicious_keywords) => true
  | _ => false
  end.

Definition dns_sig (sg : Signal) : bool :=
  match sg with
  | Weighted dns_missing | ResolvedHostMismatch => true
  | _ => false
  end.

Definition tls_sig (sg : Signal) : bool :=
  match sg with
  | Weighted (no_https | weak_tls | cert_short_validity | cert_expiring_soon) => true
  | _ => false
  end.

Definition whois_sig (sg : Signal) : bool :=
  match sg with
  | Weighted domain_too_new => true
  | _ => false
  end.

Definition page_sig (sg : Signal) : bool :=
  match sg with
  | Weighted (external_favicon | external_form_action | mailto_exfil
             | password_over_http | many_external_scripts | many_iframes
             | obfuscation | redirect_js | rightclick_block
             | brand_title_mismatch) => true
  | _ => false
  end.

Definition any_sig (sg : Signal) : bool := true.

Definition no_sig (sg : Signal) : bool := false.

Definition not_sig (p : Signal -> bool) (sg : Signal) : bool := negb (p sg).

(** The site of the weighted rule [k] and no other. *)
Definition only (k : WeightKey) (sg : Signal) : bool :=
  Signal_beq sg (Weighted k).

Definition script_sig (sg : Signal) : bool :=
  match sg with
  | Weighted (obfuscation | redirect_js | rightclick_block) => true
  | _ => false
  end.


(** A resolved host that the loop of lines 434-440 reports: it is not an
    address and its registrable domain is not [domain]. *)
Definition mismatching (w : World) (domain resolved_host : string) : bool :=
  match is_ip w resolved_host with
  | Ok false => negb (String.eqb (fst (domain_parts w resolved_host)) domain)
  | _ => false
  end.

Definition mismatch_entry (domain resolved_host : string) : Entry :=
  mkEntry ResolvedHostMismatch (mismatch_finding resolved_host domain) 3.

(** The rule [k] left a detection in the run. *)
Definition triggered (k : WeightKey) (r : Run) : bool :=
  negb (Nat.eqb (List.length (picked (Weighted k) (run_ledger r))) 0).

(** [len(host.split("."))]: the dot-separated labels of a host. *)
Definition labels (host : string) : Z :=
  Z.of_nat (List.length (Str.split "." host)).

(** [len([p for p in host.split(".") if p])] *)
Definition nonempty_labels (host : string) : Z :=
  Z.of_nat (List.length
              (List.filter (fun p => negb (Str.is_empty p))
                           (Str.split "." host))).

(** C5 as the specification words it: on a full analysis the
    many-subdomains rule fires exactly when the host has six labels or
    more. *)
Definition fires_from_six_labels (w : World) (url : string) : Prop :=
  forall r,
    analyze_run w url = Ok r ->
    trusted_domain (context (report r)) = false ->
    (triggered too_many_subdomains r = true <->
     6 <= labels (host (report r))).

(** What the forms loop records for a form that posts to another site. *)
Definition form_entry (w : World) (action : string) : Entry :=
  mkEntry (Weighted external_form_action) (form_finding w action) 8.

(** C8 as the specification words it, at the input [u]: normalizing the
    normalized URL gives the normalized URL. *)
Definition normalize_idempotent_at (w : World) (u : string) : Prop :=
  bind (normalize_url w u) (normalize_url w) = normalize_url w u.

(** *** The sites and what they record *)

(** What the site [sg] adds to the score: its entry in the weight table,
    or the literal of the resolved-host check. *)
Definition signal_weight (sg : Signal) : Z :=
  match sg with
  | Weighted k => WEIGHTS k
  | ResolvedHostMismatch => 3
  end.

(** The severity that the site [sg] writes into its finding. *)
Definition signal_severity (sg : Signal) : Severity :=
  match sg with
  | Weighted (no_https | weak_tls | dns_missing | external_form_action
             | password_over_http) => HIGH
  | Weighted (ip_in_url | at_symbol | cert_expiring_soon | domain_too_new
             | mailto_exfil | obfuscation | brand_title_mismatch) => MEDIUM
  | ResolvedHostMismatch => MEDIUM
  | Weighted _ => LOW
  end.

Definition severity_of (f : Finding) : Severity := fst (fst f).

Definition message_of (f : Finding) : string := snd (fst f).

(** An entry as its site writes it. *)
Definition entry_ok (e : Entry) : Prop :=
  e_weight e = signal_weight (e_signal e) /\
  severity_of (e_finding e) = signal_severity (e_signal e).

Definition ledger_ok (st : St) : Prop := Forall entry_ok (ledger st).

(** The largest weight among the sites of one severity. *)
Definition severity_cap (s : Severity) : Z :=
  match s with
  | HIGH => 10
  | MEDIUM => 8
  | LOW => 5
  end.

Definition caps (l : list Finding) : Z :=
  fold_right (fun f acc => severity_cap (severity_of f) + acc) 0 l.

(** *** Reading the findings of a report

    The message of a finding begins with the text of the site that wrote
    it, and with the text of no other site; so the site of a finding, and
    with it the weight that came with the finding, can be read off the
    list of findings that a report carries. *)

Definition SITE_TEXTS : list (string * Signal) :=
  [("IP address used in URL (often used to hide identity).", Weighted ip_in_url);
   ("Punycode (IDN) in hostname; potential homograph attack.", Weighted punycode);
   ("Non-ASCII characters in hostname; possible IDN homograph attempt.",
    Weighted unicode_homoglyphs);
   ("Many subdomains (", Weighted too_many_subdomains);
   ("Suspicious TLD: .", Weighted suspicious_tld);
   ("Long URL (", Weighted url_length);
   ("Contains '@' in URL (userinfo part).", Weighted at_symbol);
   ("Double slash in path (can be used for obfuscation).",
    Weighted double_slash);
   ("Many hyphens in hostname.", Weighted many_hyphens);
   ("Suspicious keyword in URL: '", Weighted suspicious_keywords);
   ("DNS resolution failed (domain may not exist).", Weighted dns_missing);
   ("Resolved host '", ResolvedHostMismatch);
   ("No HTTPS (plain HTTP).", Weighted no_https);
   ("HTTPS certificate invalid or untrusted.", Weighted weak_tls);
   ("Certificate has short validity (", Weighted cert_short_validity);
   ("Certificate expiring soon.", Weighted cert_expiring_soon);
   ("Domain is new (", Weighted domain_too_new);
   ("Title contains brand name not matching domain.",
    Weighted brand_title_mismatch);
   ("Favicon loaded from external domain.", Weighted external_favicon);
   ("Form submits to external domain: ", Weighted external_form_action);
   ("Mailto link with parameters (potential data exfiltration).",
    Weighted mailto_exfil);
   ("Password field(s) found on HTTP page.", Weighted password_over_http);
   ("Many external domains loaded (", Weighted many_external_scripts);
   ("Many iframes (", Weighted many_iframes);
   ("Script contains obfuscation patterns.", Weighted obfuscation);
   ("Script contains redirect logic.", Weighted redirect_js);
   ("Script blocks right-click (common in phishing).",
    Weighted rightclick_block)].

(** The site whose text the message of [f] begins with. *)
Definition site_of (f : Finding) : option Signal :=
  match List.find (fun p => Str.startswith (fst p) (message_of f)) SITE_TEXTS with
  | Some p => Some (snd p)
  | None => None
  end.

Definition from_site (sg : Signal) (f : Finding) : bool :=
  match site_of f with
  | Some s => Signal_beq s sg
  | None => false
  end.

(** The findings of a list that the site [sg] wrote, and the others. *)
Definition findings_of (sg : Signal) (l : list Finding) : list Finding :=
  List.filter (from_site sg) l.

Definition other_findings (sg : Signal) (l : list Finding) : list Finding :=
  List.filter (fun f => negb (from_site sg f)) l.

(** The weight that came with a finding: the weight of its site. *)
Definition weight_of (f : Finding) : Z :=
  match site_of f with
  | Some sg => signal_weight sg
  | None => 0
  end.

Definition total_weight (l : list Finding) : Z :=
  fold_right (fun f acc => weight_of f + acc) 0 l.

(** The finding of an entry tells its site. *)
Definition entry_sited (e : Entry) : Prop :=
  site_of (e_finding e) = Some (e_signal e).

Definition ledger_sited (st : St) : Prop := Forall entry_sited (ledger st).

Definition no_https_entry : Entry :=
  mkEntry (Weighted no_https) (HIGH, "No HTTPS (plain HTTP).", []) 0.

Definition keyword_entry (kw : string) : Entry :=
  mkEntry (Weighted suspicious_keywords)
          (LOW, "Suspicious keyword in URL: '" ++ kw ++ "'.",
           [("keyword", VStr kw)]) 3.

Definition tld_entry (tld : string) : Entry :=
  mkEntry (Weighted suspicious_tld)
          (LOW, "Suspicious TLD: ." ++ tld, [("tld", VStr tld)]) 4.

Definition age_entry (a : Z) : Entry :=
  mkEntry (Weighted domain_too_new)
          (MEDIUM, "Domain is new (" ++ Str.of_Z a ++ " days old).",
           [("age_days", VInt a)]) 4.

Definition mailto_entry (href : string) : Entry :=
  mkEntry (Weighted mailto_exfil)
          (MEDIUM, "Mailto link with parameters (potential data exfiltration).",
           [("href", VStr href)]) 5.

Definition password_entry (count : Z) : Entry :=
  mkEntry (Weighted password_over_http)
          (HIGH, "Password field(s) found on HTTP page.",
           [("count", VInt count)]) 10.

(** [href.startswith("mailto:") and "?" in href] *)
Definition mailto_with_parameters (href : string) : bool :=
  Str.startswith "mailto:" href && Str.mem "?" href.

(** The text that the script checks read from a script element: its
    string, stripped, when it has one and something is left of it. *)
Definition script_text (script : ScriptTag) : option string :=
  match truthy_str (script_string script) with
  | None => None
  | Some content =>
      let content := Str.strip content in
      if Str.is_empty content then None else Some content
  end.

(** Some pattern of [hints] is found in the text of [script]. *)
Definition script_matches (w : World) (hints : list string)
           (script : ScriptTag) : bool :=
  match script_text script with
  | Some content => any_hint w hints content
  | None => false
  end.

Definition obfuscation_entry : Entry :=
  mkEntry (Weighted obfuscation)
          (MEDIUM, "Script contains obfuscation patterns.", []) 4.

Definition redirect_entry : Entry :=
  mkEntry (Weighted redirect_js) (LOW, "Script contains redirect logic.", []) 2.

Definition rightclick_entry : Entry :=
  mkEntry (Weighted rightclick_block)
          (LOW, "Script blocks right-click (common in phishing).", []) 2.

(** The attribute values that [collect_external_domains] reads, in the
    order in which it reads them. *)
Definition external_attrs (soup : Soup) : list string :=
  (somes (map script_src (soup_scripts soup)) ++
   somes (soup_iframes soup) ++
   somes (map link_href (soup_links soup)))%list.

(** The lists and flags of [sources] against the ledger: one recorded
    action per form entry, one recorded link per mailto entry, one excerpt
    per script entry, and a flag exactly when its site has an entry. *)
Definition sources_agree (w : World) (l : list Entry) (src : Sources) : Prop :=
  picked (Weighted external_form_action) l = map (form_entry w) (form_actions src) /\
  picked (Weighted mailto_exfil) l = map mailto_entry (mailto_links src) /\
  List.length (picked (Weighted obfuscation) l) =
    List.length (obfuscated_scripts src) /\
  List.length (picked (Weighted redirect_js) l) =
    List.length (redirect_scripts src) /\
  (rightclick_block_src src = true <->
   picked (Weighted rightclick_block) l <> []) /\
  (favicon_external src = true <->
   picked (Weighted external_favicon) l <> []).

(** The two ways a run can end with a report. *)
Inductive run_path (w : World) (url : string) (r : Run) : Prop :=
| path_trusted (normalized : string) (parsed : ParseResult)
    (Hnorm : normalize_url w url = Ok normalized)
    (Hparse : urlparse (ip_address w) normalized = Ok parsed)
    (Htrust : is_trusted_domain (fst (domain_parts w normalized)) = true)
    (Hrun : r = mkRun (trusted_report url normalized parsed
                         (fst (domain_parts w normalized))) [] [] None)
| path_full (normalized : string) (parsed : ParseResult)
    (st1 st2 st4 st5 : St) (tld : string)
    (dns : option (string * list string * list string))
    (age_days : option Z) (fetched : Fetched)
    (Hnorm : normalize_url w url = Ok normalized)
    (Hparse : urlparse (ip_address w) normalized = Ok parsed)
    (Htrust : is_trusted_domain (fst (domain_parts w normalized)) = false)
    (Hurl : url_checks w normalized (host_of parsed)
              (fst (domain_parts w normalized)) st0 = Ok (st1, tld))
    (Hdns : dns_checks w (host_of parsed)
              (fst (domain_parts w normalized)) st1 = Ok (st2, dns))
    (Hwhois : whois_checks w (fst (domain_parts w normalized))
                (tls_checks w (host_of parsed) (uses_https_of parsed) st2)
              = Ok (st4, age_days))
    (Hfetch : fetch_page w normalized (uses_https_of parsed) st4
              = Ok (st5, fetched))
    (Hrun : r = mkRun
                  (final_report url (host_of parsed)
                     (fst (domain_parts w normalized)) tld dns age_days fetched
                     (page_checks w (fst (domain_parts w normalized)) fetched st5))
                  (calls (fst (page_checks w (fst (domain_parts w normalized))
                                 fetched st5)))
                  (ledger (fst (page_checks w (fst (domain_parts w normalized))
                                  fetched st5)))
                  (page_of w (f_resp fetched))).

End Detector.

(** ** Scenarios

    Concrete worlds on which the program can be run: each one fixes what the
    libraries and the network answer on the few strings the run asks about;
    every other lookup fails. *)

Module Scenarios.

Import UrlLib Detector.

Record Scenario : Type := mkScenario {
  sc_extract : list (string * ExtractResult);
  sc_addresses : list string;
  sc_dns : list (string * (string * list string * list string));
  sc_responses : list (string * Response);
  sc_pages : list (string * Soup)
}.

Definition world_of (sc : Scenario) : World :=
  mkWorld
    (fun _ => None)
    (fun url => match lookup url (sc_extract sc) with
                | Some e => e
                | None => mkExtract EmptyString EmptyString EmptyString
                end)
    (fun h => if in_list h (sc_addresses sc) then SockOk else SockOSError)
    (fun _ => SockOSError)
    (fun h => lookup h (sc_dns sc))
    (fun _ => None)
    (fun _ => None)
    0
    (fun _ => None)
    (fun _ => None)
    0
    (fun url => lookup url (sc_responses sc))
    (fun html => lookup html (sc_pages sc))
    (fun _ _ => false).

(** Nothing is known and the network is down. *)
Definition offline : World := world_of (mkScenario [] [] [] [] []).

(** A trusted site; the network is down. *)
Definition trusted_offline : World :=
  world_of (mkScenario
    [("https://www.google.com/", mkExtract "www" "google" "com")]
    [] [] [] []).

(** An unknown site with six labels in its host; the network is down. *)
Definition six_labels : World :=
  world_of (mkScenario
    [("http://a.b.c.d.example.com", mkExtract "a.b.c.d" "example" "com")]
    [] [] [] []).

(** An unknown site with eight labels in its host; the network is down. *)
Definition eight_labels : World :=
  world_of (mkScenario
    [("http://a.b.c.d.e.f.example.com",
      mkExtract "a.b.c.d.e.f" "example" "com")]
    [] [] [] []).

(** The resolver answers as [socket.gethostbyname_ex] does: a canonical
    name, here in another domain than the host that was asked for, the
    aliases, and the list of addresses. *)
Definition canonical_elsewhere : World :=
  world_of (mkScenario
    [("http://shop.example.com/", mkExtract "shop" "example" "com");
     ("cdn.other.net", mkExtract "cdn" "other" "net");
     ("shop.example.com", mkExtract "shop" "example" "com")]
    ["203.0.113.5"]
    [("shop.example.com",
      ("cdn.other.net", ["shop.example.com"], ["203.0.113.5"]))]
    [] []).

Definition two_forms_page : Soup :=
  mkSoup None []
    [Some "https://collect.evil.net/a"; Some "/search"; None;
     Some "https://drop.bad.io/b"]
    [] [] [] [].

(** A page with two forms that post to other sites, one that posts to
    the site itself and one without an action. *)
Definition two_external_forms : World :=
  world_of (mkScenario
    [("http://shop.example.com/", mkExtract "shop" "example" "com");
     ("https://collect.evil.net/a", mkExtract "collect" "evil" "net");
     ("https://drop.bad.io/b", mkExtract "drop" "bad" "io")]
    [] []
    [("http://shop.example.com/", mkResponse 200 "<forms>")]
    [("<forms>", two_forms_page)]).

Definition thirteen_forms_page : Soup :=
  mkSoup None [] (List.repeat (Some "https://collect.evil.net/a") 13)
         [] [] [] [].

(** A page with thirteen forms that post to another site. *)
Definition thirteen_external_forms : World :=
  world_of (mkScenario
    [("http://shop.example.com/", mkExtract "shop" "example" "com");
     ("https://collect.evil.net/a", mkExtract "collect" "evil" "net")]
    [] []
    [("http://shop.example.com/", mkResponse 200 "<forms>")]
    [("<forms>", thirteen_forms_page)]).

Definition login_page : Soup :=
  mkSoup None [] [] [] [Some "text"; Some "password"] [] [].

(** The site answers over HTTPS only; its page has a password field. *)
Definition https_only : World :=
  world_of (mkScenario
    [("http://login.example.com/", mkExtract "login" "example" "com")]
    [] []
    [("https://login.example.com/", mkResponse 200 "<login>")]
    [("<login>", login_page)]).

(** The same page served over plain HTTP. *)
Definition http_login : World :=
  world_of (mkScenario
    [("http://login.example.com/", mkExtract "login" "example" "com")]
    [] []
    [("http://login.example.com/", mkResponse 200 "<login>")]
    [("<login>", login_page)]).

End Scenarios.

(** ** Scenarios with a registry

    Worlds in which WHOIS answers: the records of the registry and the
    clock that [domain_age_days] reads are added to a world of the
    scenarios above. *)

Module Registry.

Import UrlLib Detector Scenarios.

Definition with_whois (w : World) (records : list (string * Dict)) (now : Z)
  : World :=
  mkWorld (ip_address w) (tld_extract w) (inet_aton w) (inet_pton6 w)
          (gethostbyname_ex w) (getpeercert w) (strptime_cert w) (now_tls w)
          (fun d => lookup d records) (fromisoformat_str w) now
          (requests_get w) (beautiful_soup w) (re_search w).

(** One day in microseconds. *)
Definition day : Z := 86400000000.

Definition shop : Scenario :=
  mkScenario
    [("http://shop.example.com/", mkExtract "shop" "example" "com");
     ("http://shop.example.com/safe", mkExtract "shop" "example" "com");
     ("http://shop.example.com/suspicious", mkExtract "shop" "example" "com");
     ("shop.example.com", mkExtract "shop" "example" "com")]
    ["203.0.113.5"]
    [("shop.example.com", ("shop.example.com", [], ["203.0.113.5"]))]
    [] [].

(** The domain was registered three days ago. *)
Definition young_domain : World :=
  with_whois (world_of shop)
             [("example.com", [("creation_date", VDatetime (100 * day))])]
             (103 * day + 5).

(** The domain was registered four hundred days ago. *)
Definition old_domain : World :=
  with_whois (world_of shop)
             [("example.com", [("creation_date", VDatetime (100 * day))])]
             (500 * day).

(** The clock is behind the registration date of the record. *)
Definition clock_behind : World :=
  with_whois (world_of shop)
             [("example.com", [("creation_date", VDatetime (100 * day))])]
             (40 * day).

(** The record has a list of creation dates, and the list is empty. *)
Definition no_creation_dates : World :=
  with_whois (world_of shop)
             [("example.com", [("creation_date", VList [])])]
             (500 * day).

End Registry.

(** ** Scenarios with a page

    A world in which the pattern search answers on a few pairs of pattern
    and text, and a page with links, inputs, scripts and an iframe. *)

Module Pages.

Import UrlLib Detector Scenarios.

Definition with_patterns (w : World) (found : list (string * string)) : World :=
  mkWorld (ip_address w) (tld_extract w) (inet_aton w) (inet_pton6 w)
          (gethostbyname_ex w) (getpeercert w) (strptime_cert w) (now_tls w)
          (whois_lookup w) (fromisoformat_str w) (now_whois w)
          (requests_get w) (beautiful_soup w)
          (fun pattern content =>
             List.existsb (fun pc => String.eqb (fst pc) pattern &&
                                     String.eqb (snd pc) content) found).

Definition busy_page : Soup :=
  mkSoup None
    [mkLink (Some (RelList ["stylesheet"]))
            (Some "https://cdn.other.net/site.css")]
    []
    [Some "mailto:help@example.com?subject=card"; Some "/home";
     Some "mailto:help@example.com";
     Some "mailto:help@example.com?subject=card"]
    [Some "password"; Some "text"; Some "Password"; Some "password"]
    [mkScript None (Some " eval(atob(payload)) ");
     mkScript (Some "https://cdn.other.net/app.js") None;
     mkScript None (Some "   ");
     mkScript (Some "https://static.example.com/a.js")
              (Some "location.href = target")]
    [Some "https://ads.third.io/frame"].

(** The site serves [busy_page] over plain HTTP; the first script matches
    two of the obfuscation patterns, the last one a redirect pattern. *)
Definition busy : World :=
  with_patterns
    (world_of (mkScenario
       [("http://shop.example.com/", mkExtract "shop" "example" "com");
        ("https://cdn.other.net/site.css", mkExtract "cdn" "other" "net");
        ("https://cdn.other.net/app.js", mkExtract "cdn" "other" "net");
        ("https://static.example.com/a.js", mkExtract "static" "example" "com");
        ("https://ads.third.io/frame", mkExtract "ads" "third" "io")]
       [] []
       [("http://shop.example.com/", mkResponse 200 "<busy>")]
       [("<busy>", busy_page)]))
    [("\beval\s*\(", "eval(atob(payload))");
     ("atob\s*\(", "eval(atob(payload))");
     ("location\.href", "location.href = target")].

Definition with_certificates (w : World)
           (certs : list (string * list (string * string)))
           (dates : list (string * Z)) (now : Z) : World :=
  mkWorld (ip_address w) (tld_extract w) (inet_aton w) (inet_pton6 w)
          (gethostbyname_ex w) (fun h => lookup h certs)
          (fun s => lookup s dates) now
          (whois_lookup w) (fromisoformat_str w) (now_whois w)
          (requests_get w) (beautiful_soup w) (re_search w).

(** The site presents a certificate that has no "notAfter" field. *)
Definition undated_certificate : World :=
  with_certificates
    (world_of (mkScenario
       [("https://shop.example.com/", mkExtract "shop" "example" "com")]
       [] [] [] []))
    [("shop.example.com",
      [("notBefore", "Jan  1 00:00:00 2025 GMT"); ("serialNumber", "01")])]
    [("Jan  1 00:00:00 2025 GMT", 1735689600000000)]
    1750000000000000.

(** A site under ".xyz"; the network is down. *)
Definition cheap_tld : World :=
  world_of (mkScenario
    [("http://prize.example.xyz/", mkExtract "prize" "example" "xyz")]
    [] [] [] []).

(** A site under ".org" that is on no list; the network is down. *)
Definition unlisted_org : World :=
  world_of (mkScenario
    [("http://paypal-login.example.org/",
      mkExtract "paypal-login" "example" "org")]
    [] [] [] []).

End Pages.

(** * The web application of [app.py]

    The views of the Flask application that scan a URL and keep the scan
    history, as functions on the state they share: the list
    [scan_history], the history file and the counters of the client's
    session.

    - A float is kept as the decimal it is written as, in hundredths: [95]
      stands for [0.95]; [min(score / 100, 0.99)] is then the smaller of
      the score and [99], and [0.05 * n] is [5 * n].
    - The clock answers with the formatted timestamp that a view is given.
    - Writing the history file and building the JSON answer are taken to
      succeed; the file then holds the list that was written.
    - The [try] block of [scan_url] raises when [analyze] raises, and when
      the domain age of the report is [None], which [None < 30] does not
      accept; [None] stands for both in [analysis_response] and
      [scan_url]. *)

Module App.

Import UrlLib Detector.

Record ScanEntry : Type := mkScanEntry {
  entry_url : string;
  entry_status : string;
  entry_confidence : Z;
  entry_timestamp : string
}.

Record Features : Type := mkFeatures {
  feat_domain_age : string;
  feat_https : bool;
  feat_suspicious_keywords : bool;
  feat_dns_resolve : bool;
  feat_redirects : Z
}.

Record Shap : Type := mkShap {
  shap_domain_age : Z;
  shap_https : Z;
  shap_suspicious_keywords : Z;
  shap_dns_resolve : Z;
  shap_redirects : Z
}.

Record ScanResponse : Type := mkScanResponse {
  resp_status : string;
  resp_message : string;
  resp_confidence : Z;
  resp_features : Features;
  resp_shap_values : Shap
}.

(** What a view returns: a JSON body, with the status code when the view
    sets one. *)
Inductive Reply : Type :=
| JsonError (code : Z) (error : string)
| JsonScan (body : ScanResponse)
| JsonStatus (status message : string)
| JsonStats (total_scans threats_blocked : Z)
| JsonTheme (status theme : string).

Record AppState : Type := mkApp {
  scan_history : list ScanEntry;
  history_file : option (list ScanEntry);
  session_total_scans : option Z;
  session_threats_blocked : option Z;
  session_theme : option string
}.

(** [session.get(key, 0)] *)
Definition get0 (v : option Z) : Z :=
  match v with
  | Some n => n
  | None => 0
  end.

Definition save_history (st : AppState) : AppState :=
  mkApp (scan_history st) (Some (scan_history st)) (session_total_scans st)
        (session_threats_blocked st) (session_theme st).

Definition load_history (st : AppState) : AppState :=
  match history_file st with
  | Some saved =>
      mkApp saved (history_file st) (session_total_scans st)
            (session_threats_blocked st) (session_theme st)
  | None => st
  end.

Definition clear_history (st : AppState) : Reply * AppState :=
  (JsonStatus "success" "History cleared",
   mkApp [] (Some []) None None (session_theme st)).

Definition is_dangerous (scan : ScanEntry) : bool :=
  String.eqb (entry_status scan) "dangerous".

Definition get_stats (st : AppState) : Reply :=
  JsonStats (Z.of_nat (List.length (scan_history st)))
            (Z.of_nat (List.length (List.filter is_dangerous (scan_history st)))).

(** [scan_history.append(scan_entry); save_history()] *)
Definition append_scan (scan : ScanEntry) (st : AppState) : AppState :=
  save_history
    (mkApp (scan_history st ++ [scan]) (history_file st)
           (session_total_scans st) (session_threats_blocked st)
           (session_theme st)).

(** [session['total_scans'] = session.get('total_scans', 0) + 1] *)
Definition count_scan (st : AppState) : AppState :=
  mkApp (scan_history st) (history_file st)
        (Some (get0 (session_total_scans st) + 1))
        (session_threats_blocked st) (session_theme st).

(** [if status == 'dangerous': session['threats_blocked'] = ... + 1] *)
Definition count_threat (status : string) (st : AppState) : AppState :=
  if String.eqb status "dangerous"
  then mkApp (scan_history st) (history_file st) (session_total_scans st)
             (Some (get0 (session_threats_blocked st) + 1)) (session_theme st)
  else st.

(** Lines 89-107. *)
Definition trusted_response : ScanResponse :=
  mkScanResponse "safe" "This is a trusted domain and appears to be safe" 95
    (mkFeatures "Trusted domain" true false true 0)
    (mkShap 40 30 (-10) 20 5).

(** Lines 128-136. *)
Definition status_of_verdict (verdict : string) : string :=
  let verdict := Str.lower (Str.strip verdict) in
  if String.eqb verdict "phishing" then "dangerous"
  else if String.eqb verdict "suspicious" then "suspicious"
  else if String.eqb verdict "likely safe" then "safe"
  else "safe".

Definition mentions (word : string) (threat : Finding) : bool :=
  Str.contains word (Str.lower (message_of threat)).

(** Lines 128-164: the response that is built from the report, or [None]
    when building it raises. *)
Definition analysis_response (result : Report) : option ScanResponse :=
  let status := status_of_verdict (verdict result) in
  let confidence := Z.min (risk_score result) 99 in
  let features :=
    mkFeatures
      (match domain_age_days_ctx (context result) with
       | Some a => Str.of_Z a
       | None => "None"
       end ++ " days")
      (uses_https (context result))
      (List.existsb (mentions "suspicious") (threats result))
      (dns_resolve (context result))
      (Z.of_nat (List.length (List.filter (mentions "redirect")
                                          (threats result)))) in
  match domain_age_days_ctx (context result) with
  | None => None
  | Some age =>
      let shap_values :=
        mkShap (if age <? 30 then 30 else -20)
               (if uses_https (context result) then 25 else -30)
               (if feat_suspicious_keywords features then 15 else -10)
               (if feat_dns_resolve features then 10 else -20)
               (5 * feat_redirects features) in
      Some (mkScanResponse status
              ("This URL is " ++ Str.lower (verdict result) ++
               " with a risk score of " ++ Str.of_Z (risk_score result) ++ "%")
              confidence features shap_values)
  end.

(** Lines 186-244. *)
Definition mock_responses : list ScanResponse :=
  [ mkScanResponse "safe" "This URL appears to be safe and legitimate" 92
      (mkFeatures "2 years" true false true 0)
      (mkShap 35 28 (-5) 15 7);
    mkScanResponse "suspicious"
      "This URL shows some suspicious characteristics" 65
      (mkFeatures "3 days" false true true 2)
      (mkShap (-32) (-25) 18 10 12);
    mkScanResponse "dangerous"
      "This URL is potentially dangerous and likely a phishing attempt" 98
      (mkFeatures "1 day" false true false 4)
      (mkShap (-45) (-32) 38 (-28) 22) ].

(** Lines 247-252. *)
Definition fallback_response (url : string) : ScanResponse :=
  nth (if Str.contains "safe" url then 0
       else if Str.contains "suspicious" url then 1
       else 2)%nat
      mock_responses
      (mkScanResponse EmptyString EmptyString 0
         (mkFeatures EmptyString false false false 0) (mkShap 0 0 0 0 0)).

(** The history entry and the counters of a scan whose status can be
    "dangerous". *)
Definition record_scan (now url : string) (response : ScanResponse)
           (st : AppState) : AppState :=
  count_threat (resp_status response)
    (count_scan
       (append_scan (mkScanEntry url (resp_status response)
                                 (resp_confidence response) now) st)).

(** [scan_url()] on the request body [{"url": url}] (or [{}] for [None])
    at the time [now]. *)
Definition scan_url (w : World) (now : string) (url : option string)
           (st : AppState) : Reply * AppState :=
  let url := match url with Some u => u | None => EmptyString end in
  if Str.is_empty url then (JsonError 400 "No URL provided", st)
  else
    let '(domain, _) := domain_parts w url in
    if is_trusted_domain domain then
      (JsonScan trusted_response,
       count_scan (append_scan (mkScanEntry url "safe" 95 now) st))
    else
      let built :=
        match analyze w url with
        | Ok result => analysis_response result
        | Raise _ => None
        end in
      match built with
      | Some response => (JsonScan response, record_scan now url response st)
      | None =>
          let response := fallback_response url in
          (JsonScan response, record_scan now url response st)
      end.

(** [set_theme()] on the request body [{"theme": theme}]. *)
Definition set_theme (theme : option string) (st : AppState)
  : Reply * AppState :=
  let theme := match theme with Some t => t | None => "light" end in
  (JsonTheme "success" theme,
   mkApp (scan_history st) (history_file st) (session_total_scans st)
         (session_threats_blocked st) (Some theme)).

(** The requests of one client, served one after the other. *)
Inductive Request : Type :=
| PostScan (w : World) (now : string) (url : option string)
| PostClearHistory
| GetStats
| PostTheme (theme : option string).

Definition serve (req : Request) (st : AppState) : Reply * AppState :=
  match req with
  | PostScan w now url => scan_url w now url st
  | PostClearHistory => clear_history st
  | GetStats => (get_stats st, st)
  | PostTheme theme => set_theme theme st
  end.

Definition serve_all (reqs : list Request) (st : AppState) : AppState :=
  fold_left (fun st req => snd (serve req st)) reqs st.

(** The counters of the session say what [get_stats] says, and the file
    holds the history. *)
Definition in_step (st : AppState) : Prop :=
  get_stats st = JsonStats (get0 (session_total_scans st))
                           (get0 (session_threats_blocked st)) /\
  history_file st = Some (scan_history st).

(** The status that the verdict thresholds of [analyze] lead to. *)
Definition status_of_score (score : Z) : string :=
  if 35 <=? score then "dangerous"
  else if 20 <=? score then "suspicious"
  else "safe".

End App.

Import UrlLib Detector.

(** * Facts *)

(** ** The result monad *)

Lemma bind_ok {A B : Type} (m : result A) (k : A -> result B) (b : B) :
  bind m k = Ok b -> exists a, m = Ok a /\ k a = Ok b.
Proof.
  destruct m as [a|e]; simpl; intro H.
  - exists a; split; [reflexivity | exact H].
  - discriminate H.
Qed.

(** ** Ledger bookkeeping *)

Lemma sum_weights_app (l1 l2 : list Entry) :
  sum_weights (l1 ++ l2) = sum_weights l1 + sum_weights l2.
Proof.
  induction l1 as [|e l1 IH]; simpl; [reflexivity|].
  rewrite IH. lia.
Qed.

Lemma picked_app (sg : Signal) (l1 l2 : list Entry) :
  picked sg (l1 ++ l2) = (picked sg l1 ++ picked sg l2)%list.
Proof. apply filter_app. Qed.

Lemma Signal_beq_eq (a b : Signal) : Signal_beq a b = true <-> a = b.
Proof.
  split.
  - apply internal_Signal_dec_bl.
  - apply internal_Signal_dec_lb.
Qed.

Lemma extends_refl (p : Signal -> bool) (st : St) : extends p st st.
Proof.
  exists []. simpl. rewrite !app_nil_r. repeat split; [lia | constructor].
Qed.

Lemma extends_trans (p : Signal -> bool) (st1 st2 st3 : St) :
  extends p st1 st2 -> extends p st2 st3 -> extends p st1 st3.
Proof.
  intros (d1 & L1 & F1 & S1 & P1) (d2 & L2 & F2 & S2 & P2).
  exists (d1 ++ d2)%list. repeat split.
  - rewrite L2, L1. now rewrite app_assoc.
  - rewrite F2, F1, map_app. now rewrite app_assoc.
  - rewrite S2, S1, sum_weights_app. lia.
  - apply Forall_app; split; assumption.
Qed.

Lemma extends_weaken (p q : Signal -> bool) (st st' : St) :
  (forall sg, p sg = true -> q sg = true) ->
  extends p st st' -> extends q st st'.
Proof.
  intros Hpq (d & L & F & S & P).
  exists d. repeat split; try assumption.
  eapply Forall_impl; [|exact P]. intros e He. now apply Hpq.
Qed.

Lemma extends_hit (p : Signal -> bool) (sg : Signal) (wt : Z) (f : Finding)
      (st st1 : St) :
  p sg = true -> extends p st st1 -> extends p st (hit sg wt f st1).
Proof.
  intros Hp H. eapply extends_trans; [exact H|].
  exists [mkEntry sg f wt]. simpl. repeat split; [lia|].
  constructor; [exact Hp | constructor].
Qed.

Lemma extends_flag (p : Signal -> bool) (k : WeightKey) (f : Finding)
      (st st1 : St) :
  p (Weighted k) = true -> extends p st st1 -> extends p st (flag k f st1).
Proof. apply extends_hit. Qed.

Lemma extends_flag_if (p : Signal -> bool) (b : bool) (k : WeightKey)
      (f : Finding) (st st1 : St) :
  p (Weighted k) = true -> extends p st st1 -> extends p st (flag_if b k f st1).
Proof.
  intros Hp H. destruct b; simpl; [now apply extends_flag | exact H].
Qed.

Lemma extends_call (p : Signal -> bool) (c : Call) (st st1 : St) :
  extends p st st1 -> extends p st (call c st1).
Proof.
  intros (d & L & F & S & P). exists d. simpl. repeat split; assumption.
Qed.

(** Entries from other sites do not show among the picked ones. *)
Lemma extends_picked_other (p : Signal -> bool) (sg : Signal) (st st' : St) :
  extends p st st' -> p sg = false ->
  picked sg (ledger st') = picked sg (ledger st).
Proof.
  intros (d & L & _ & _ & P) Hsg.
  rewrite L, picked_app.
  assert (E : picked sg d = []).
  { clear L. induction d as [|e d IH]; [reflexivity|].
    inversion P as [|? ? He Hd]; subst. simpl.
    destruct (Signal_beq (e_signal e) sg) eqn:B.
    - apply Signal_beq_eq in B. rewrite B in He. congruence.
    - now apply IH. }
  rewrite E. apply app_nil_r.
Qed.

Lemma picked_hit (sg sg' : Signal) (wt : Z) (f : Finding) (st : St) :
  picked sg (ledger (hit sg' wt f st)) =
  (picked sg (ledger st) ++
   (if Signal_beq sg' sg then [mkEntry sg' f wt] else []))%list.
Proof.
  unfold hit; simpl. rewrite picked_app. simpl.
  now destruct (Signal_beq sg' sg).
Qed.

Lemma picked_flag_if (sg : Signal) (b : bool) (k : WeightKey) (f : Finding)
      (st : St) :
  picked sg (ledger (flag_if b k f st)) =
  (picked sg (ledger st) ++
   (if b && Signal_beq (Weighted k) sg
    then [mkEntry (Weighted k) f (WEIGHTS k)] else []))%list.
Proof.
  destruct b; simpl.
  - apply picked_hit.
  - now rewrite app_nil_r.
Qed.

Lemma picked_call (sg : Signal) (c : Call) (st : St) :
  picked sg (ledger (call c st)) = picked sg (ledger st).
Proof. reflexivity. Qed.

(** ** The stages of [analyze] *)

Ltac step_extends :=
  repeat first
    [ apply extends_flag_if; [reflexivity|]
    | apply extends_flag; [reflexivity|]
    | apply extends_hit; [reflexivity|]
    | apply extends_call ];
  try apply extends_refl.

Lemma url_checks_extends (w : World) (n h d : string) (st st' : St) (t : string) :
  url_checks w n h d st = Ok (st', t) -> extends url_sig st st'.
Proof.
  unfold url_checks. intro H.
  apply bind_ok in H as (ip & _ & H).
  apply bind_ok in H as (rest & _ & H).
  inversion H; subst; clear H.
  destruct (first_keyword n); step_extends.
Qed.

Lemma resolved_hosts_check_extends (w : World) (d : string) (hosts : list string) :
  forall st st', resolved_hosts_check w d hosts st = Ok st' -> extends dns_sig st st'.
Proof.
  induction hosts as [|h hosts IH]; simpl; intros st st' H.
  - inversion H; subst. apply extends_refl.
  - apply bind_ok in H as (ip & _ & H).
    destruct ip; [now apply IH|].
    apply IH in H. eapply extends_trans; [|exact H].
    destruct (negb _); step_extends.
Qed.

Lemma dns_checks_extends (w : World) (h d : string) (st st' : St) dns :
  dns_checks w h d st = Ok (st', dns) -> extends dns_sig st st'.
Proof.
  unfold dns_checks. destruct (get_dns_a w h) as [[[nm al] hosts]|]; intro H.
  - apply bind_ok in H as (st1 & H1 & H). inversion H; subst; clear H.
    apply resolved_hosts_check_extends in H1.
    eapply extends_trans; [|exact H1]. step_extends.
  - inversion H; subst. step_extends.
Qed.

Lemma tls_checks_extends (w : World) (h : string) (b : bool) (st : St) :
  extends tls_sig st (tls_checks w h b st).
Proof.
  unfold tls_checks. destruct (negb b); [step_extends|].
  destruct (get_tls_cert w h) as [[|c cs]|]; try step_extends.
  destruct (parse_cert_dates w (c :: cs)) as [[nb|] [na|]]; step_extends.
Qed.

Lemma whois_checks_extends (w : World) (d : string) (st st' : St) age :
  whois_checks w d st = Ok (st', age) -> extends whois_sig st st'.
Proof.
  unfold whois_checks. intro H.
  apply bind_ok in H as (a & _ & H). inversion H; subst; clear H.
  destruct age; step_extends.
Qed.

Lemma fetch_page_extends (w : World) (n : string) (b : bool) (st st' : St) f :
  fetch_page w n b st = Ok (st', f) -> extends no_sig st st'.
Proof.
  unfold fetch_page. destruct (truthy (fetch w n)); intro H.
  - inversion H; subst. step_extends.
  - apply bind_ok in H as (u & _ & H).
    destruct (negb (u =? n)%string).
    + destruct (truthy (fetch w u)).
      * apply bind_ok in H as (x & _ & H). inversion H; subst. step_extends.
      * inversion H; subst. step_extends.
    + inversion H; subst. step_extends.
Qed.

Lemma fold_extends {X : Type} (p : Signal -> bool) (step : Acc -> X -> Acc)
      (l : list X) :
  (forall a x, extends p (fst a) (fst (step a x))) ->
  forall a, extends p (fst a) (fst (fold_left step l a)).
Proof.
  intro Hstep. induction l as [|x l IH]; simpl; intro a.
  - apply extends_refl.
  - eapply extends_trans; [apply Hstep | apply IH].
Qed.

Lemma title_check_extends (d : string) (soup : Soup) (a : Acc) :
  extends (only brand_title_mismatch) (fst a) (fst (title_check d soup a)).
Proof.
  destruct a as [st src]. unfold title_check.
  destruct (truthy_str _); simpl; [|apply extends_refl].
  destruct (looks_like_brand_mismatch _ _); simpl; step_extends.
Qed.

Lemma favicon_check_extends (w : World) (d : string) (soup : Soup) (a : Acc) :
  extends (only external_favicon) (fst a) (fst (favicon_check w d soup a)).
Proof.
  destruct a as [st src]. unfold favicon_check.
  destruct (find _ _); simpl; [|apply extends_refl].
  destruct (truthy_str _); simpl; [|apply extends_refl].
  destruct (_ && _); simpl; step_extends.
Qed.

Lemma form_step_extends (w : World) (d : string) (a : Acc) (action : string) :
  extends (only external_form_action) (fst a) (fst (form_step w d a action)).
Proof.
  destruct a as [st src]. unfold form_step.
  destruct (external_action w d action); simpl; step_extends.
Qed.

Lemma forms_check_extends (w : World) (d : string) (soup : Soup) (a : Acc) :
  extends (only external_form_action) (fst a) (fst (forms_check w d soup a)).
Proof.
  apply (fold_extends _ (form_step w d) _ (form_step_extends w d)).
Qed.

Lemma mailto_step_extends (a : Acc) (href : string) :
  extends (only mailto_exfil) (fst a) (fst (mailto_step a href)).
Proof.
  destruct a as [st src]. unfold mailto_step.
  destruct (_ && _); simpl; step_extends.
Qed.

Lemma mailto_check_extends (soup : Soup) (a : Acc) :
  extends (only mailto_exfil) (fst a) (fst (mailto_check soup a)).
Proof.
  apply (fold_extends _ mailto_step _ mailto_step_extends).
Qed.

Lemma password_check_extends (b : bool) (soup : Soup) (a : Acc) :
  extends (only password_over_http) (fst a) (fst (password_check b soup a)).
Proof.
  destruct a as [st src]. unfold password_check.
  destruct (negb b); simpl; [|apply extends_refl].
  destruct (filter is_password (soup_inputs soup)); simpl; step_extends.
Qed.

Lemma externals_check_extends (w : World) (d : string) (soup : Soup) (a : Acc) :
  extends (only many_external_scripts) (fst a) (fst (externals_check w d soup a)).
Proof.
  destruct a as [st src]. unfold externals_check. simpl. step_extends.
Qed.

Lemma iframes_check_extends (soup : Soup) (a : Acc) :
  extends (only many_iframes) (fst a) (fst (iframes_check soup a)).
Proof.
  destruct a as [st src]. unfold iframes_check. simpl. step_extends.
Qed.

Lemma script_step_extends (w : World) (a : Acc) (script : ScriptTag) :
  extends script_sig (fst a) (fst (script_step w a script)).
Proof.
  unfold script_step.
  destruct (truthy_str _); [|apply extends_refl].
  destruct (Str.is_empty _); [apply extends_refl|].
  destruct a as [st src].
  destruct (any_hint w OBFUSCATION_HINTS _);
    destruct (any_hint w REDIRECT_HINTS _);
    destruct (any_hint w RIGHTCLICK_BLOCK_HINTS _); simpl; step_extends.
Qed.

Lemma scripts_check_extends (w : World) (soup : Soup) (a : Acc) :
  extends script_sig (fst a) (fst (scripts_check w soup a)).
Proof.
  apply (fold_extends _ (script_step w) _ (script_step_extends w)).
Qed.

(** A stage that stays within [p] stays within every [q] that contains
    [p]; for the concrete sets of this file the inclusion is decided by
    running through the signals. *)
Ltac sig_incl :=
  let sg := fresh "sg" in
  intros sg; destruct sg as [[]|]; cbv; intro; congruence.

Lemma soup_checks_extends (w : World) (d : string) (b : bool) (soup : Soup)
      (a : Acc) :
  extends page_sig (fst a) (fst (soup_checks w d b soup a)).
Proof.
  unfold soup_checks.
  eapply extends_trans;
    [eapply extends_weaken; [|apply (title_check_extends d soup a)]; sig_incl|].
  eapply extends_trans;
    [eapply extends_weaken; [|apply (favicon_check_extends w d soup)]; sig_incl|].
  eapply extends_trans;
    [eapply extends_weaken; [|apply (forms_check_extends w d soup)]; sig_incl|].
  eapply extends_trans;
    [eapply extends_weaken; [|apply (mailto_check_extends soup)]; sig_incl|].
  eapply extends_trans;
    [eapply extends_weaken; [|apply (password_check_extends b soup)]; sig_incl|].
  eapply extends_trans;
    [eapply extends_weaken; [|apply (externals_check_extends w d soup)]; sig_incl|].
  eapply extends_trans;
    [eapply extends_weaken; [|apply (iframes_check_extends soup)]; sig_incl|].
  eapply extends_weaken; [|apply (scripts_check_extends w soup)]; sig_incl.
Qed.

Lemma page_checks_extends (w : World) (d : string) (f : Fetched) (st : St) :
  extends page_sig st (fst (page_checks w d f st)).
Proof.
  unfold page_checks. destruct (page_of w (f_resp f)).
  - apply (soup_checks_extends w d (f_uses_https f) s (st, sources0)).
  - apply extends_refl.
Qed.

(** ** The two paths of a run *)

Lemma analyze_run_inv (w : World) (url : string) (r : Run) :
  analyze_run w url = Ok r -> run_path w url r.
Proof.
  unfold analyze_run. intro H.
  apply bind_ok in H as (n & Hn & H).
  apply bind_ok in H as (parsed & Hp & H).
  destruct (is_trusted_domain (fst (domain_parts w n))) eqn:Ht.
  - inversion H; subst. eapply path_trusted; eauto.
  - apply bind_ok in H as ([st1 tld] & H1 & H).
    apply bind_ok in H as ([st2 dns] & H2 & H).
    apply bind_ok in H as ([st4 age] & H4 & H).
    apply bind_ok in H as ([st5 fetched] & H5 & H).
    inversion H; subst. eapply path_full; eauto.
Qed.

Lemma analyze_run_complete (w : World) (url : string) (r : Run) :
  run_path w url r -> analyze_run w url = Ok r.
Proof.
  intros [n parsed Hn Hp Ht Hr | n parsed st1 st2 st4 st5 tld dns age fetched
                                   Hn Hp Ht H1 H2 H4 H5 Hr];
    unfold analyze_run; rewrite Hn; cbn [bind]; rewrite Hp; cbn [bind];
    rewrite Ht.
  - now subst r.
  - rewrite H1; cbn [bind]. rewrite H2; cbn [bind]. rewrite H4; cbn [bind].
    rewrite H5; cbn [bind]. now subst r.
Qed.

(** On the full path the whole ledger is what the five stages appended, and
    the report's findings and score are the ledger's. *)
Lemma full_path_extends (w : World) (n : string) (parsed : ParseResult)
      (st1 st2 st4 st5 : St) tld dns age fetched :
  url_checks w n (host_of parsed) (fst (domain_parts w n)) st0 = Ok (st1, tld) ->
  dns_checks w (host_of parsed) (fst (domain_parts w n)) st1 = Ok (st2, dns) ->
  whois_checks w (fst (domain_parts w n))
    (tls_checks w (host_of parsed) (uses_https_of parsed) st2) = Ok (st4, age) ->
  fetch_page w n (uses_https_of parsed) st4 = Ok (st5, fetched) ->
  extends any_sig st0 (fst (page_checks w (fst (domain_parts w n)) fetched st5)).
Proof.
  intros H1 H2 H4 H5.
  apply url_checks_extends in H1. apply dns_checks_extends in H2.
  apply whois_checks_extends in H4. apply fetch_page_extends in H5.
  pose proof (tls_checks_extends w (host_of parsed) (uses_https_of parsed) st2) as H3.
  pose proof (page_checks_extends w (fst (domain_parts w n)) fetched st5) as H6.
  assert (W : forall p sg, p sg = true -> any_sig sg = true) by reflexivity.
  eapply extends_trans; [exact (extends_weaken _ _ _ _ (W _) H1)|].
  eapply extends_trans; [exact (extends_weaken _ _ _ _ (W _) H2)|].
  eapply extends_trans; [exact (extends_weaken _ _ _ _ (W _) H3)|].
  eapply extends_trans; [exact (extends_weaken _ _ _ _ (W _) H4)|].
  eapply extends_trans; [exact (extends_weaken _ _ _ _ (W _) H5)|].
  exact (extends_weaken _ _ _ _ (W _) H6).
Qed.

(** Before the page is looked at, nothing comes from a page site. *)
Lemma before_page_extends (w : World) (n : string) (parsed : ParseResult)
      (st1 st2 st4 st5 : St) tld dns age fetched :
  url_checks w n (host_of parsed) (fst (domain_parts w n)) st0 = Ok (st1, tld) ->
  dns_checks w (host_of parsed) (fst (domain_parts w n)) st1 = Ok (st2, dns) ->
  whois_checks w (fst (domain_parts w n))
    (tls_checks w (host_of parsed) (uses_https_of parsed) st2) = Ok (st4, age) ->
  fetch_page w n (uses_https_of parsed) st4 = Ok (st5, fetched) ->
  extends (not_sig page_sig) st0 st5.
Proof.
  intros H1 H2 H4 H5.
  apply url_checks_extends in H1. apply dns_checks_extends in H2.
  apply whois_checks_extends in H4. apply fetch_page_extends in H5.
  pose proof (tls_checks_extends w (host_of parsed) (uses_https_of parsed) st2) as H3.
  eapply extends_trans; [eapply extends_weaken; [|exact H1]; sig_incl|].
  eapply extends_trans; [eapply extends_weaken; [|exact H2]; sig_incl|].
  eapply extends_trans; [eapply extends_weaken; [|exact H3]; sig_incl|].
  eapply extends_trans; [eapply extends_weaken; [|exact H4]; sig_incl|].
  eapply extends_weaken; [|exact H5]; sig_incl.
Qed.

(** After the resolver stage, nothing comes from a resolver site. *)
Lemma after_dns_extends (w : World) (n : string) (parsed : ParseResult)
      (st2 st4 st5 : St) age fetched :
  whois_checks w (fst (domain_parts w n))
    (tls_checks w (host_of parsed) (uses_https_of parsed) st2) = Ok (st4, age) ->
  fetch_page w n (uses_https_of parsed) st4 = Ok (st5, fetched) ->
  extends (not_sig dns_sig) st2
          (fst (page_checks w (fst (domain_parts w n)) fetched st5)).
Proof.
  intros H4 H5.
  apply whois_checks_extends in H4. apply fetch_page_extends in H5.
  pose proof (tls_checks_extends w (host_of parsed) (uses_https_of parsed) st2) as H3.
  pose proof (page_checks_extends w (fst (domain_parts w n)) fetched st5) as H6.
  eapply extends_trans; [eapply extends_weaken; [|exact H3]; sig_incl|].
  eapply extends_trans; [eapply extends_weaken; [|exact H4]; sig_incl|].
  eapply extends_trans; [eapply extends_weaken; [|exact H5]; sig_incl|].
  eapply extends_weaken; [|exact H6]; sig_incl.
Qed.

(** After the checks on the URL text, nothing comes from their sites. *)
Lemma after_url_extends (w : World) (n : string) (parsed : ParseResult)
      (st1 st2 st4 st5 : St) dns age fetched :
  dns_checks w (host_of parsed) (fst (domain_parts w n)) st1 = Ok (st2, dns) ->
  whois_checks w (fst (domain_parts w n))
    (tls_checks w (host_of parsed) (uses_https_of parsed) st2) = Ok (st4, age) ->
  fetch_page w n (uses_https_of parsed) st4 = Ok (st5, fetched) ->
  extends (not_sig url_sig) st1
          (fst (page_checks w (fst (domain_parts w n)) fetched st5)).
Proof.
  intros H2 H4 H5.
  apply dns_checks_extends in H2.
  apply whois_checks_extends in H4. apply fetch_page_extends in H5.
  pose proof (tls_checks_extends w (host_of parsed) (uses_https_of parsed) st2) as H3.
  pose proof (page_checks_extends w (fst (domain_parts w n)) fetched st5) as H6.
  eapply extends_trans; [eapply extends_weaken; [|exact H2]; sig_incl|].
  eapply extends_trans; [eapply extends_weaken; [|exact H3]; sig_incl|].
  eapply extends_trans; [eapply extends_weaken; [|exact H4]; sig_incl|].
  eapply extends_trans; [eapply extends_weaken; [|exact H5]; sig_incl|].
  eapply extends_weaken; [|exact H6]; sig_incl.
Qed.

(** * The claims of the specification *)

(** ** The trusted branch and the verdict *)

Import Scenarios.

(** C1.  The specification asks that [analyze] never raises and that
    [normalize] never fails.  On the input that consists of one opening
    bracket the program prepends the default scheme, [urlparse] rejects the
    unbalanced bracket in the network location with a [ValueError], nothing
    in [normalize_url] or [analyze] catches it, and so the exception leaves
    [analyze], whatever the network and the libraries answer. *)
Theorem analyze_raises_on_open_bracket (w : World) :
  normalize_url w "[" = Raise ValueError /\
  analyze_run w "[" = Raise ValueError /\
  analyze w "[" = Raise ValueError.
Proof. repeat split; reflexivity. Qed.

(** C2.  When the registrable domain of the normalized URL is trusted,
    [analyze] returns a report with score 0, verdict "Likely safe", the
    trusted flag set and no findings; the run performs no network operation
    and records no detection, whatever the world would have answered. *)
Theorem trusted_domain_short_circuit (w : World) (url normalized : string)
        (parsed : ParseResult) :
  normalize_url w url = Ok normalized ->
  urlparse (ip_address w) normalized = Ok parsed ->
  is_trusted_domain (fst (domain_parts w normalized)) = true ->
  exists r,
    analyze_run w url = Ok r /\
    analyze w url = Ok (report r) /\
    risk_score (report r) = 0 /\
    verdict (report r) = "Likely safe" /\
    trusted_domain (context (report r)) = true /\
    threats (report r) = [] /\
    sources (report r) = None /\
    run_calls r = [] /\
    run_ledger r = [] /\
    run_page r = None.
Proof.
  intros Hn Hp Ht.
  assert (R : analyze_run w url =
              Ok (mkRun (trusted_report url normalized parsed
                           (fst (domain_parts w normalized))) [] [] None)).
  { apply analyze_run_complete. eapply path_trusted; eauto. }
  eexists. split; [exact R|].
  unfold analyze. rewrite R. simpl. repeat split; reflexivity.
Qed.

Lemma trusted_domain_short_circuit_witness :
  exists r,
    analyze_run trusted_offline "https://www.google.com/" = Ok r /\
    analyze trusted_offline "https://www.google.com/" = Ok (report r) /\
    risk_score (report r) = 0 /\
    verdict (report r) = "Likely safe" /\
    trusted_domain (context (report r)) = true /\
    threats (report r) = [] /\
    sources (report r) = None /\
    run_calls r = [] /\
    run_ledger r = [] /\
    run_page r = None.
Proof.
  apply (trusted_domain_short_circuit trusted_offline
           "https://www.google.com/" "https://www.google.com/"
           (mkParse "https" "www.google.com" "/" EmptyString EmptyString
                    EmptyString));
    reflexivity.
Defined.

(** The trusted flag of a report tells which path the run took. *)
Lemma trusted_flag_path (w : World) (url : string) (r : Run) :
  analyze_run w url = Ok r ->
  trusted_domain (context (report r)) = true ->
  exists normalized parsed,
    normalize_url w url = Ok normalized /\
    urlparse (ip_address w) normalized = Ok parsed /\
    is_trusted_domain (fst (domain_parts w normalized)) = true /\
    r = mkRun (trusted_report url normalized parsed
                 (fst (domain_parts w normalized))) [] [] None.
Proof.
  intros H Hf. apply analyze_run_inv in H.
  destruct H as [n parsed Hn Hp Ht Hr | n parsed st1 st2 st4 st5 tld dns age
                                         fetched Hn Hp Ht H1 H2 H4 H5 Hr].
  - exists n, parsed. auto.
  - subst r. simpl in Hf. unfold final_report in Hf.
    destruct (page_checks _ _ _ _) in Hf. simpl in Hf. discriminate.
Qed.

(** C9.  A report with the trusted flag set states that name resolution
    succeeded and that the age of the domain is unknown, although the run
    asked neither the resolver nor the registry (it performed no network
    operation at all). *)
Theorem trusted_report_context (w : World) (url : string) (r : Run) :
  analyze_run w url = Ok r ->
  trusted_domain (context (report r)) = true ->
  dns_resolve (context (report r)) = true /\
  domain_age_days_ctx (context (report r)) = None /\
  (forall h, ~ In (CallDns h) (run_calls r)) /\
  (forall d, ~ In (CallWhois d) (run_calls r)).
Proof.
  intros H Hf.
  destruct (trusted_flag_path w url r H Hf) as (n & parsed & _ & _ & _ & Hr).
  subst r. simpl. repeat split; intros ? [].
Qed.

Lemma trusted_report_context_witness :
  let r := mkRun (trusted_report "https://www.google.com/"
                    "https://www.google.com/"
                    (mkParse "https" "www.google.com" "/" EmptyString
                             EmptyString EmptyString)
                    "google.com") [] [] None in
  dns_resolve (context (report r)) = true /\
  domain_age_days_ctx (context (report r)) = None /\
  (forall h, ~ In (CallDns h) (run_calls r)) /\
  (forall d, ~ In (CallWhois d) (run_calls r)).
Proof.
  intro r.
  apply (trusted_report_context trusted_offline "https://www.google.com/" r);
    reflexivity.
Defined.

(** In every report the findings and the score are those of the ledger:
    the score is the plain sum of the weights added at the detection sites. *)
Lemma run_ledger_sound (w : World) (url : string) (r : Run) :
  analyze_run w url = Ok r ->
  threats (report r) = map e_finding (run_ledger r) /\
  risk_score (report r) = sum_weights (run_ledger r).
Proof.
  intro H. apply analyze_run_inv in H.
  destruct H as [n parsed Hn Hp Ht Hr | n parsed st1 st2 st4 st5 tld dns age
                                         fetched Hn Hp Ht H1 H2 H4 H5 Hr].
  - subst r. split; reflexivity.
  - pose proof (full_path_extends _ _ _ _ _ _ _ _ _ _ _ H1 H2 H4 H5)
      as (d & L & F & S & _).
    subst r. simpl. unfold final_report.
    destruct (page_checks _ _ _ _) as [st src]. simpl in *.
    rewrite L, F, S. simpl. split; [reflexivity | lia].
Qed.

(** ** The weight, the severity and the site of a finding *)

Lemma sum_weights_cons (e : Entry) (l : list Entry) :
  sum_weights (e :: l) = e_weight e + sum_weights l.
Proof. reflexivity. Qed.

Lemma ledger_ok_hit (sg : Signal) (wt : Z) (f : Finding) (st : St) :
  wt = signal_weight sg -> severity_of f = signal_severity sg ->
  ledger_ok st -> ledger_ok (hit sg wt f st).
Proof.
  intros Hw Hs H. unfold ledger_ok, hit. cbn [ledger].
  apply Forall_app. split; [exact H|].
  constructor; [|constructor]. split; assumption.
Qed.

Lemma ledger_ok_flag (k : WeightKey) (f : Finding) (st : St) :
  severity_of f = signal_severity (Weighted k) ->
  ledger_ok st -> ledger_ok (flag k f st).
Proof. intros Hs H. now apply ledger_ok_hit. Qed.

Lemma ledger_ok_flag_if (b : bool) (k : WeightKey) (f : Finding) (st : St) :
  severity_of f = signal_severity (Weighted k) ->
  ledger_ok st -> ledger_ok (flag_if b k f st).
Proof. intros Hs H. destruct b; [now apply ledger_ok_flag | exact H]. Qed.

Lemma ledger_ok_call (c : Call) (st : St) :
  ledger_ok st -> ledger_ok (call c st).
Proof. intro H. exact H. Qed.

Ltac step_ok :=
  repeat first
    [ apply ledger_ok_flag_if; [reflexivity|]
    | apply ledger_ok_flag; [reflexivity|]
    | apply ledger_ok_hit; [reflexivity|reflexivity|]
    | apply ledger_ok_call ];
  try assumption.

Lemma url_checks_ok (w : World) (n h d : string) (st st' : St) (t : string) :
  url_checks w n h d st = Ok (st', t) -> ledger_ok st -> ledger_ok st'.
Proof.
  unfold url_checks. intros H K.
  apply bind_ok in H as (ip & _ & H).
  apply bind_ok in H as (rest & _ & H).
  inversion H; subst; clear H.
  destruct (first_keyword n); step_ok.
Qed.

Lemma resolved_hosts_check_ok (w : World) (d : string) (hosts : list string) :
  forall st st', resolved_hosts_check w d hosts st = Ok st' ->
                 ledger_ok st -> ledger_ok st'.
Proof.
  induction hosts as [|h hosts IH]; simpl; intros st st' H K.
  - inversion H; subst. exact K.
  - apply bind_ok in H as (ip & _ & H).
    destruct ip; [now apply (IH _ _ H)|].
    apply (IH _ _ H). destruct (negb _); step_ok.
Qed.

Lemma dns_checks_ok (w : World) (h d : string) (st st' : St) dns :
  dns_checks w h d st = Ok (st', dns) -> ledger_ok st -> ledger_ok st'.
Proof.
  unfold dns_checks. destruct (get_dns_a w h) as [[[nm al] hosts]|]; intros H K.
  - apply bind_ok in H as (st1 & H1 & H). inversion H; subst; clear H.
    apply (resolved_hosts_check_ok _ _ _ _ _ H1). step_ok.
  - inversion H; subst. step_ok.
Qed.

Lemma tls_checks_ok (w : World) (h : string) (b : bool) (st : St) :
  ledger_ok st -> ledger_ok (tls_checks w h b st).
Proof.
  intro K. unfold tls_checks. destruct (negb b); [step_ok|].
  destruct (get_tls_cert w h) as [[|c cs]|]; try step_ok.
  destruct (parse_cert_dates w (c :: cs)) as [[nb|] [na|]]; step_ok.
Qed.

Lemma whois_checks_ok (w : World) (d : string) (st st' : St) age :
  whois_checks w d st = Ok (st', age) -> ledger_ok st -> ledger_ok st'.
Proof.
  unfold whois_checks. intros H K.
  apply bind_ok in H as (a & _ & H). inversion H; subst; clear H.
  destruct age; step_ok.
Qed.

Lemma fetch_page_ledger (w : World) (n : string) (b : bool) (st st' : St) f :
  fetch_page w n b st = Ok (st', f) -> ledger st' = ledger st.
Proof.
  intro H. apply fetch_page_extends in H. destruct H as (d & L & _ & _ & P).
  destruct d as [|e d]; [now rewrite L, app_nil_r|].
  inversion P as [|? ? He _]. discriminate He.
Qed.

Lemma fold_ok {X : Type} (step : Acc -> X -> Acc) (l : list X) :
  (forall a x, ledger_ok (fst a) -> ledger_ok (fst (step a x))) ->
  forall a, ledger_ok (fst a) -> ledger_ok (fst (fold_left step l a)).
Proof.
  intro Hstep. induction l as [|x l IH]; simpl; intros a K; [exact K|].
  apply IH, Hstep, K.
Qed.

Lemma script_step_ok (w : World) (a : Acc) (script : ScriptTag) :
  ledger_ok (fst a) -> ledger_ok (fst (script_step w a script)).
Proof.
  intro K. unfold script_step.
  destruct (truthy_str _); [|exact K].
  destruct (Str.is_empty _); [exact K|].
  destruct a as [st src]. cbn [fst] in K.
  destruct (any_hint w OBFUSCATION_HINTS _);
    destruct (any_hint w REDIRECT_HINTS _);
    destruct (any_hint w RIGHTCLICK_BLOCK_HINTS _); simpl; step_ok.
Qed.

Lemma soup_checks_ok (w : World) (d : string) (b : bool) (soup : Soup)
      (a : Acc) :
  ledger_ok (fst a) -> ledger_ok (fst (soup_checks w d b soup a)).
Proof.
  intro K. unfold soup_checks.
  apply (fold_ok (script_step w) _ (script_step_ok w)).
  match goal with |- ledger_ok (fst (iframes_check _ ?x)) =>
    assert (K6 : ledger_ok (fst x)); [|destruct x as [st6 src6];
      unfold iframes_check; simpl; step_ok] end.
  match goal with |- ledger_ok (fst (externals_check _ _ _ ?x)) =>
    assert (K5 : ledger_ok (fst x)); [|destruct x as [st5 src5];
      unfold externals_check; simpl; step_ok] end.
  match goal with |- ledger_ok (fst (password_check _ _ ?x)) =>
    assert (K4 : ledger_ok (fst x)); [|destruct x as [st4 src4];
      unfold password_check; destruct (negb b); simpl; [|exact K4];
      destruct (filter is_password (soup_inputs soup)); simpl; step_ok] end.
  apply (fold_ok mailto_step).
  { intros [st src] x Kx. unfold mailto_step.
    destruct (_ && _); simpl; step_ok. }
  apply (fold_ok (form_step w d)).
  { intros [st src] x Kx. unfold form_step.
    destruct (external_action w d x); simpl; step_ok. }
  match goal with |- ledger_ok (fst (favicon_check _ _ _ ?x)) =>
    assert (K1 : ledger_ok (fst x)); [|destruct x as [st1 src1];
      unfold favicon_check;
      destruct (find _ _); simpl; [|exact K1];
      destruct (truthy_str _); simpl; [|exact K1];
      destruct (_ && _); simpl; step_ok] end.
  destruct a as [st src]. unfold title_check.
  destruct (truthy_str _); simpl; [|exact K].
  destruct (looks_like_brand_mismatch _ _); simpl; step_ok.
Qed.

Lemma page_checks_ok (w : World) (d : string) (f : Fetched) (st : St) :
  ledger_ok st -> ledger_ok (fst (page_checks w d f st)).
Proof.
  intro K. unfold page_checks. destruct (page_of w (f_resp f)).
  - now apply (soup_checks_ok w d (f_uses_https f) s (st, sources0)).
  - exact K.
Qed.

(** Every detection of a run carries the weight and the severity of its
    site. *)
Lemma run_ledger_ok (w : World) (url : string) (r : Run) :
  analyze_run w url = Ok r -> Forall entry_ok (run_ledger r).
Proof.
  intro H. apply analyze_run_inv in H.
  destruct H as [n parsed Hn Hp Ht Hr | n parsed st1 st2 st4 st5 tld dns age
                                         fetched Hn Hp Ht H1 H2 H4 H5 Hr];
    subst r; cbn [run_ledger]; [constructor|].
  apply page_checks_ok. unfold ledger_ok.
  rewrite (fetch_page_ledger _ _ _ _ _ _ H5).
  apply (whois_checks_ok _ _ _ _ _ H4), tls_checks_ok,
    (dns_checks_ok _ _ _ _ _ _ H2), (url_checks_ok _ _ _ _ _ _ _ H1).
  constructor.
Qed.

(** *** The site of a finding *)

Lemma ledger_sited_hit (sg : Signal) (wt : Z) (f : Finding) (st : St) :
  site_of f = Some sg -> ledger_sited st -> ledger_sited (hit sg wt f st).
Proof.
  intros Hs H. unfold ledger_sited, hit. cbn [ledger].
  apply Forall_app. split; [exact H|].
  constructor; [exact Hs | constructor].
Qed.

Lemma ledger_sited_flag (k : WeightKey) (f : Finding) (st : St) :
  site_of f = Some (Weighted k) -> ledger_sited st -> ledger_sited (flag k f st).
Proof. apply ledger_sited_hit. Qed.

Lemma ledger_sited_flag_if (b : bool) (k : WeightKey) (f : Finding) (st : St) :
  site_of f = Some (Weighted k) ->
  ledger_sited st -> ledger_sited (flag_if b k f st).
Proof. intros Hs H. destruct b; [now apply ledger_sited_flag | exact H]. Qed.

Lemma ledger_sited_call (c : Call) (st : St) :
  ledger_sited st -> ledger_sited (call c st).
Proof. intro H. exact H. Qed.

Ltac step_sited :=
  repeat first
    [ apply ledger_sited_flag_if; [reflexivity|]
    | apply ledger_sited_flag; [reflexivity|]
    | apply ledger_sited_hit; [reflexivity|]
    | apply ledger_sited_call ];
  try assumption.

Lemma url_checks_sited (w : World) (n h d : string) (st st' : St) (t : string) :
  url_checks w n h d st = Ok (st', t) -> ledger_sited st -> ledger_sited st'.
Proof.
  unfold url_checks. intros H K.
  apply bind_ok in H as (ip & _ & H).
  apply bind_ok in H as (rest & _ & H).
  inversion H; subst; clear H.
  destruct (first_keyword n); step_sited.
Qed.

Lemma resolved_hosts_check_sited (w : World) (d : string) (hosts : list string) :
  forall st st', resolved_hosts_check w d hosts st = Ok st' ->
                 ledger_sited st -> ledger_sited st'.
Proof.
  induction hosts as [|h hosts IH]; simpl; intros st st' H K.
  - inversion H; subst. exact K.
  - apply bind_ok in H as (ip & _ & H).
    destruct ip; [now apply (IH _ _ H)|].
    apply (IH _ _ H). destruct (negb _); step_sited.
Qed.

Lemma dns_checks_sited (w : World) (h d : string) (st st' : St) dns :
  dns_checks w h d st = Ok (st', dns) -> ledger_sited st -> ledger_sited st'.
Proof.
  unfold dns_checks. destruct (get_dns_a w h) as [[[nm al] hosts]|]; intros H K.
  - apply bind_ok in H as (st1 & H1 & H). inversion H; subst; clear H.
    apply (resolved_hosts_check_sited _ _ _ _ _ H1). step_sited.
  - inversion H; subst. step_sited.
Qed.

Lemma tls_checks_sited (w : World) (h : string) (b : bool) (st : St) :
  ledger_sited st -> ledger_sited (tls_checks w h b st).
Proof.
  intro K. unfold tls_checks. destruct (negb b); [step_sited|].
  destruct (get_tls_cert w h) as [[|c cs]|]; try step_sited.
  destruct (parse_cert_dates w (c :: cs)) as [[nb|] [na|]]; step_sited.
Qed.

Lemma whois_checks_sited (w : World) (d : string) (st st' : St) age :
  whois_checks w d st = Ok (st', age) -> ledger_sited st -> ledger_sited st'.
Proof.
  unfold whois_checks. intros H K.
  apply bind_ok in H as (a & _ & H). inversion H; subst; clear H.
  destruct age; step_sited.
Qed.

Lemma fold_sited {X : Type} (step : Acc -> X -> Acc) (l : list X) :
  (forall a x, ledger_sited (fst a) -> ledger_sited (fst (step a x))) ->
  forall a, ledger_sited (fst a) -> ledger_sited (fst (fold_left step l a)).
Proof.
  intro Hstep. induction l as [|x l IH]; simpl; intros a K; [exact K|].
  apply IH, Hstep, K.
Qed.

Lemma script_step_sited (w : World) (a : Acc) (script : ScriptTag) :
  ledger_sited (fst a) -> ledger_sited (fst (script_step w a script)).
Proof.
  intro K. unfold script_step.
  destruct (truthy_str _); [|exact K].
  destruct (Str.is_empty _); [exact K|].
  destruct a as [st src]. cbn [fst] in K.
  destruct (any_hint w OBFUSCATION_HINTS _);
    destruct (any_hint w REDIRECT_HINTS _);
    destruct (any_hint w RIGHTCLICK_BLOCK_HINTS _); simpl; step_sited.
Qed.

Lemma soup_checks_sited (w : World) (d : string) (b : bool) (soup : Soup)
      (a : Acc) :
  ledger_sited (fst a) -> ledger_sited (fst (soup_checks w d b soup a)).
Proof.
  intro K. unfold soup_checks.
  apply (fold_sited (script_step w) _ (script_step_sited w)).
  match goal with |- ledger_sited (fst (iframes_check _ ?x)) =>
    assert (K6 : ledger_sited (fst x)); [|destruct x as [st6 src6];
      unfold iframes_check; simpl; step_sited] end.
  match goal with |- ledger_sited (fst (externals_check _ _ _ ?x)) =>
    assert (K5 : ledger_sited (fst x)); [|destruct x as [st5 src5];
      unfold externals_check; simpl; step_sited] end.
  match goal with |- ledger_sited (fst (password_check _ _ ?x)) =>
    assert (K4 : ledger_sited (fst x)); [|destruct x as [st4 src4];
      unfold password_check; destruct (negb b); simpl; [|exact K4];
      destruct (filter is_password (soup_inputs soup)); simpl; step_sited] end.
  apply (fold_sited mailto_step).
  { intros [st src] x Kx. unfold mailto_step.
    destruct (_ && _); simpl; step_sited. }
  apply (fold_sited (form_step w d)).
  { intros [st src] x Kx. unfold form_step.
    destruct (external_action w d x); simpl; step_sited. }
  match goal with |- ledger_sited (fst (favicon_check _ _ _ ?x)) =>
    assert (K1 : ledger_sited (fst x)); [|destruct x as [st1 src1];
      unfold favicon_check;
      destruct (find _ _); simpl; [|exact K1];
      destruct (truthy_str _); simpl; [|exact K1];
      destruct (_ && _); simpl; step_sited] end.
  destruct a as [st src]. unfold title_check.
  destruct (truthy_str _); simpl; [|exact K].
  destruct (looks_like_brand_mismatch _ _); simpl; step_sited.
Qed.

Lemma page_checks_sited (w : World) (d : string) (f : Fetched) (st : St) :
  ledger_sited st -> ledger_sited (fst (page_checks w d f st)).
Proof.
  intro K. unfold page_checks. destruct (page_of w (f_resp f)).
  - now apply (soup_checks_sited w d (f_uses_https f) s (st, sources0)).
  - exact K.
Qed.

(** The message of every finding of a run begins with the text of the
    site that recorded it. *)
Lemma run_ledger_sited (w : World) (url : string) (r : Run) :
  analyze_run w url = Ok r -> Forall entry_sited (run_ledger r).
Proof.
  intro H. apply analyze_run_inv in H.
  destruct H as [n parsed Hn Hp Ht Hr | n parsed st1 st2 st4 st5 tld dns age
                                         fetched Hn Hp Ht H1 H2 H4 H5 Hr];
    subst r; cbn [run_ledger]; [constructor|].
  apply page_checks_sited. unfold ledger_sited.
  rewrite (fetch_page_ledger _ _ _ _ _ _ H5).
  apply (whois_checks_sited _ _ _ _ _ H4), tls_checks_sited,
    (dns_checks_sited _ _ _ _ _ _ H2), (url_checks_sited _ _ _ _ _ _ _ H1).
  constructor.
Qed.

(** The findings of one site among the findings of a ledger are the
    findings of the entries of that site. *)
Lemma findings_of_ledger (sg : Signal) (l : list Entry) :
  Forall entry_sited l ->
  findings_of sg (map e_finding l) = map e_finding (picked sg l).
Proof.
  induction 1 as [|e l He _ IH]; [reflexivity|].
  unfold findings_of, picked in *. cbn [map List.filter].
  unfold from_site at 1. rewrite He, IH.
  destruct (Signal_beq (e_signal e) sg); reflexivity.
Qed.

Lemma other_findings_ledger (sg : Signal) (l : list Entry) :
  Forall entry_sited l ->
  other_findings sg (map e_finding l) =
  map e_finding (List.filter (fun e => negb (Signal_beq (e_signal e) sg)) l).
Proof.
  induction 1 as [|e l He _ IH]; [reflexivity|].
  unfold other_findings in *. cbn [map List.filter].
  unfold from_site at 1. rewrite He, IH.
  destruct (Signal_beq (e_signal e) sg); reflexivity.
Qed.

Lemma total_weight_cons (f : Finding) (l : list Finding) :
  total_weight (f :: l) = weight_of f + total_weight l.
Proof. reflexivity. Qed.

Lemma total_weight_ledger (l : list Entry) :
  Forall entry_ok l -> Forall entry_sited l ->
  total_weight (map e_finding l) = sum_weights l.
Proof.
  induction l as [|e l IH]; intros Hok Hs; [reflexivity|].
  inversion Hok as [|? ? [Hw _] Hok']; subst.
  inversion Hs as [|? ? He Hs']; subst.
  cbn [map]. rewrite total_weight_cons, sum_weights_cons, (IH Hok' Hs').
  unfold weight_of. now rewrite He, Hw.
Qed.

Lemma total_weight_split (sg : Signal) (l : list Finding) :
  total_weight l =
  total_weight (findings_of sg l) + total_weight (other_findings sg l).
Proof.
  induction l as [|f l IH]; [reflexivity|].
  unfold findings_of, other_findings in *. cbn [List.filter].
  rewrite total_weight_cons, IH.
  destruct (from_site sg f); cbn [negb]; rewrite total_weight_cons; lia.
Qed.

(** The score of a report is the sum of the weights that came with its
    findings. *)
Lemma report_score_law (w : World) (url : string) (r : Run) :
  analyze_run w url = Ok r ->
  risk_score (report r) = total_weight (threats (report r)).
Proof.
  intro H. destruct (run_ledger_sound w url r H) as [T S].
  rewrite T, S. symmetry.
  apply total_weight_ledger; [exact (run_ledger_ok w url r H)
                             | exact (run_ledger_sited w url r H)].
Qed.

Lemma verdict_of_cases (s : Z) :
  (35 <= s -> verdict_of s = "Phishing") /\
  (20 <= s < 35 -> verdict_of s = "Suspicious") /\
  (s < 20 -> verdict_of s = "Likely safe").
Proof.
  unfold verdict_of. repeat split; intro H.
  - destruct (35 <=? s) eqn:E; [reflexivity | lia].
  - destruct (35 <=? s) eqn:E; [lia|].
    destruct (20 <=? s) eqn:E2; [reflexivity | lia].
  - destruct (35 <=? s) eqn:E; [lia|].
    destruct (20 <=? s) eqn:E2; [lia | reflexivity].
Qed.

(** C3.  In a report that does not come from the trusted branch the verdict
    is a function of the score alone: "Phishing" from 35 on, "Suspicious"
    from 20 to 34, "Likely safe" below 20, and nothing else; the score is
    the sum of the weights of the recorded detections, with no upper
    bound applied to it. *)
Theorem verdict_determined_by_score (w : World) (url : string) (r : Run) :
  analyze_run w url = Ok r ->
  trusted_domain (context (report r)) = false ->
  risk_score (report r) = sum_weights (run_ledger r) /\
  verdict (report r) = verdict_of (risk_score (report r)) /\
  (35 <= risk_score (report r) -> verdict (report r) = "Phishing") /\
  (20 <= risk_score (report r) < 35 -> verdict (report r) = "Suspicious") /\
  (risk_score (report r) < 20 -> verdict (report r) = "Likely safe") /\
  (verdict (report r) = "Phishing" \/ verdict (report r) = "Suspicious" \/
   verdict (report r) = "Likely safe").
Proof.
  intros H Hf.
  destruct (run_ledger_sound w url r H) as [_ Hs].
  split; [exact Hs|].
  assert (V : verdict (report r) = verdict_of (risk_score (report r))).
  { apply analyze_run_inv in H.
    destruct H as [n parsed Hn Hp Ht Hr | n parsed st1 st2 st4 st5 tld dns age
                                           fetched Hn Hp Ht H1 H2 H4 H5 Hr].
    - subst r. simpl in Hf. discriminate.
    - subst r. simpl. unfold final_report.
      destruct (page_checks _ _ _ _) as [st src]. reflexivity. }
  split; [exact V|].
  rewrite V.
  destruct (verdict_of_cases (risk_score (report r))) as (A & B & C).
  repeat split; try assumption.
  unfold verdict_of.
  destruct (35 <=? _); [now left|].
  destruct (20 <=? _); [right; now left | right; now right].
Qed.

(** The score is not held within 100: thirteen external forms on a site
    that does not resolve give 13 * 8 + 6. *)
Lemma score_exceeds_100 :
  exists r,
    analyze_run thirteen_external_forms "http://shop.example.com/" = Ok r /\
    risk_score (report r) = 110 /\
    verdict (report r) = "Phishing".
Proof.
  eexists. split; [vm_compute; reflexivity|].
  split; vm_compute; reflexivity.
Qed.

Lemma verdict_determined_by_score_witness :
  exists r,
    analyze_run six_labels "http://a.b.c.d.example.com" = Ok r /\
    risk_score (report r) = 6 /\
    verdict (report r) = "Likely safe".
Proof.
  eexists. split; [vm_compute; reflexivity|].
  pose proof (verdict_determined_by_score six_labels
                "http://a.b.c.d.example.com" _
                ltac:(vm_compute; reflexivity) ltac:(vm_compute; reflexivity))
    as (_ & _ & _ & _ & Hlow & _).
  split; [vm_compute; reflexivity|]. apply Hlow. vm_compute. reflexivity.
Defined.

(** ** Network operations of a run *)

Lemma calls_hit (sg : Signal) (wt : Z) (f : Finding) (st : St) :
  calls (hit sg wt f st) = calls st.
Proof. reflexivity. Qed.

Lemma calls_flag (k : WeightKey) (f : Finding) (st : St) :
  calls (flag k f st) = calls st.
Proof. reflexivity. Qed.

Lemma calls_flag_if (b : bool) (k : WeightKey) (f : Finding) (st : St) :
  calls (flag_if b k f st) = calls st.
Proof. destruct b; reflexivity. Qed.

Ltac step_calls :=
  repeat first [ rewrite calls_flag_if | rewrite calls_flag | rewrite calls_hit ];
  try reflexivity.

Lemma url_checks_calls (w : World) (n h d : string) (st st' : St) (t : string) :
  url_checks w n h d st = Ok (st', t) -> calls st' = calls st.
Proof.
  unfold url_checks. intro H.
  apply bind_ok in H as (ip & _ & H).
  apply bind_ok in H as (rest & _ & H).
  inversion H; subst; clear H.
  destruct (first_keyword n); step_calls.
Qed.

Lemma resolved_hosts_check_calls (w : World) (d : string) (hosts : list string) :
  forall st st', resolved_hosts_check w d hosts st = Ok st' -> calls st' = calls st.
Proof.
  induction hosts as [|h hosts IH]; simpl; intros st st' H.
  - now inversion H.
  - apply bind_ok in H as (ip & _ & H).
    destruct ip; [now apply IH|].
    apply IH in H. rewrite H. destruct (negb _); step_calls.
Qed.

Lemma dns_checks_calls (w : World) (h d : string) (st st' : St) dns :
  dns_checks w h d st = Ok (st', dns) ->
  calls st' = (calls st ++ [CallDns h])%list.
Proof.
  unfold dns_checks. destruct (get_dns_a w h) as [[[nm al] hosts]|]; intro H.
  - apply bind_ok in H as (st1 & H1 & H). inversion H; subst; clear H.
    apply resolved_hosts_check_calls in H1. now rewrite H1.
  - inversion H; subst. step_calls.
Qed.

Lemma tls_checks_calls (w : World) (h : string) (b : bool) (st : St) :
  calls (tls_checks w h b st) = (calls st ++ [CallTls h])%list.
Proof.
  unfold tls_checks. destruct (negb b); [step_calls|].
  destruct (get_tls_cert w h) as [[|c cs]|]; try step_calls.
  destruct (parse_cert_dates w (c :: cs)) as [[nb|] [na|]]; step_calls.
Qed.

Lemma whois_checks_calls (w : World) (d : string) (st st' : St) age :
  whois_checks w d st = Ok (st', age) ->
  calls st' = (calls st ++ [CallWhois d])%list.
Proof.
  unfold whois_checks. intro H.
  apply bind_ok in H as (a & _ & H). inversion H; subst; clear H.
  destruct age; step_calls.
Qed.

(** The page is asked for once, or twice when the first answer is not
    usable and the upgrade changes the URL. *)
Lemma fetch_page_calls (w : World) (n : string) (b : bool) (st st' : St) f :
  fetch_page w n b st = Ok (st', f) ->
  calls st' = (calls st ++ [CallFetch n])%list \/
  exists u, try_https_upgrade w n = Ok u /\ u <> n /\
            truthy (fetch w n) = false /\
            calls st' = (calls st ++ [CallFetch n; CallFetch u])%list.
Proof.
  unfold fetch_page. destruct (truthy (fetch w n)) eqn:T; intro H.
  - inversion H; subst. now left.
  - apply bind_ok in H as (u & Hu & H).
    destruct (String.eqb u n) eqn:E; simpl in H.
    + inversion H; subst. now left.
    + right. exists u. apply String.eqb_neq in E.
      assert (C : calls st' = (calls st ++ [CallFetch n; CallFetch u])%list).
      { destruct (truthy (fetch w u)).
        - apply bind_ok in H as (x & _ & H). inversion H; subst. simpl.
          now rewrite <- app_assoc.
        - inversion H; subst. simpl. now rewrite <- app_assoc. }
      auto.
Qed.

Lemma fold_calls {X : Type} (step : Acc -> X -> Acc) (l : list X) :
  (forall a x, calls (fst (step a x)) = calls (fst a)) ->
  forall a, calls (fst (fold_left step l a)) = calls (fst a).
Proof.
  intro Hstep. induction l as [|x l IH]; simpl; intro a; [reflexivity|].
  now rewrite IH, Hstep.
Qed.

Lemma soup_checks_calls (w : World) (d : string) (b : bool) (soup : Soup)
      (a : Acc) :
  calls (fst (soup_checks w d b soup a)) = calls (fst a).
Proof.
  unfold soup_checks, scripts_check, mailto_check, forms_check.
  rewrite fold_calls.
  2:{ intros [st src] x. unfold script_step.
      destruct (truthy_str _); [|reflexivity].
      destruct (Str.is_empty _); [reflexivity|].
      destruct (any_hint w OBFUSCATION_HINTS _);
        destruct (any_hint w REDIRECT_HINTS _);
        destruct (any_hint w RIGHTCLICK_BLOCK_HINTS _); reflexivity. }
  unfold iframes_check, externals_check.
  match goal with |- context [password_check b soup ?x] =>
    remember x as a3 eqn:E3 end.
  assert (P : calls (fst (password_check b soup a3)) = calls (fst a3)).
  { destruct a3 as [st src]. unfold password_check.
    destruct (negb b); [|reflexivity].
    destruct (filter is_password (soup_inputs soup)); reflexivity. }
  destruct (password_check b soup a3) as [st4 src4]. simpl in *.
  rewrite calls_flag_if. simpl. rewrite calls_flag_if. rewrite P. subst a3.
  rewrite fold_calls.
  2:{ intros [st src] x. unfold mailto_step. destruct (_ && _); reflexivity. }
  rewrite fold_calls.
  2:{ intros [st src] x. unfold form_step.
      destruct (external_action w d x); reflexivity. }
  destruct a as [st src]. unfold favicon_check, title_check.
  destruct (truthy_str _); [destruct (looks_like_brand_mismatch _ _)|];
    (destruct (find _ _); [|reflexivity]);
    (destruct (truthy_str _); [|reflexivity]);
    destruct (_ && _); reflexivity.
Qed.

Lemma page_checks_calls (w : World) (d : string) (f : Fetched) (st : St) :
  calls (fst (page_checks w d f st)) = calls st.
Proof.
  unfold page_checks. destruct (page_of w (f_resp f)); [|reflexivity].
  apply soup_checks_calls.
Qed.

(** ** The fields of the final report *)

Lemma final_report_fields url h d t dns age f (a : Acc) :
  let rp := final_report url h d t dns age f a in
  input_url rp = url /\ normalized_url rp = f_normalized f /\ host rp = h /\
  domain rp = d /\ tld rp = t /\
  verdict rp = verdict_of (score (fst a)) /\
  risk_score rp = score (fst a) /\ threats rp = findings (fst a) /\
  context rp = mkContext (is_some dns) age (f_uses_https f) false /\
  sources rp = Some (snd a).
Proof. destruct a as [st src]. simpl. repeat split. Qed.

(** ** The resolver stage *)

Lemma resolved_hosts_check_picked (w : World) (d : string) (hosts : list string) :
  forall st st',
    resolved_hosts_check w d hosts st = Ok st' ->
    picked ResolvedHostMismatch (ledger st') =
    (picked ResolvedHostMismatch (ledger st) ++
     map (mismatch_entry d) (List.filter (mismatching w d) hosts))%list.
Proof.
  induction hosts as [|h hosts IH]; intros st st' H;
    cbn [resolved_hosts_check List.filter] in *.
  - inversion H; subst. cbn [map]. now rewrite app_nil_r.
  - apply bind_ok in H as (ip & Hip & H).
    unfold mismatching at 1. rewrite Hip.
    destruct ip.
    + now apply IH.
    + apply IH in H. rewrite H.
      destruct (negb (fst (domain_parts w h) =? d)%string).
      * rewrite picked_hit. cbn [Signal_beq map]. now rewrite <- app_assoc.
      * reflexivity.
Qed.


Lemma dns_checks_resolved (w : World) (h d : string) (st st' : St) dns nm al hosts :
  dns_checks w h d st = Ok (st', dns) ->
  get_dns_a w h = Some (nm, al, hosts) ->
  dns = Some (nm, al, hosts) /\
  resolved_hosts_check w d hosts (call (CallDns h) st) = Ok st'.
Proof.
  unfold dns_checks. intros H Hs. rewrite Hs in H.
  apply bind_ok in H as (st1 & H1 & H). inversion H; subst. auto.
Qed.




Lemma sum_weights_mismatch (d : string) (l : list string) :
  sum_weights (map (mismatch_entry d) l) = 3 * Z.of_nat (List.length l).
Proof.
  induction l as [|h l IH]; [reflexivity|].
  cbn [map sum_weights fold_right List.length].
  unfold sum_weights in IH. rewrite IH. cbn [mismatch_entry e_weight]. lia.
Qed.

(** The loop of lines 434-440 on the list it is given: for each element
    that is not an address and whose registrable domain differs from the
    domain of the request it records one detection, a MEDIUM finding with
    the literal penalty 3, and for the others none. *)
Lemma resolved_hosts_loop_entries (w : World) (url : string) (r : Run)
        (name : string) (aliases resolved_hosts : list string) :
  analyze_run w url = Ok r ->
  trusted_domain (context (report r)) = false ->
  get_dns_a w (host (report r)) = Some (name, aliases, resolved_hosts) ->
  picked ResolvedHostMismatch (run_ledger r) =
    map (mismatch_entry (domain (report r)))
        (List.filter (mismatching w (domain (report r))) resolved_hosts) /\
  (forall e, In e (picked ResolvedHostMismatch (run_ledger r)) ->
             e_weight e = 3 /\ fst (fst (e_finding e)) = MEDIUM) /\
  sum_weights (picked ResolvedHostMismatch (run_ledger r)) =
    3 * Z.of_nat (List.length
                    (List.filter (mismatching w (domain (report r)))
                                 resolved_hosts)).
Proof.
  intros H Hf Hd.
  apply analyze_run_inv in H.
  destruct H as [n parsed Hn Hp Ht Hr | n parsed st1 st2 st4 st5 tld dns age
                                         fetched Hn Hp Ht H1 H2 H4 H5 Hr].
  { subst r. simpl in Hf. discriminate. }
  pose proof (final_report_fields url (host_of parsed) (fst (domain_parts w n))
                tld dns age fetched
                (page_checks w (fst (domain_parts w n)) fetched st5))
    as (_ & _ & Fh & Fd & _).
  pose proof (after_dns_extends _ _ _ _ _ _ _ _ H4 H5) as Hafter.
  pose proof (url_checks_extends _ _ _ _ _ _ _ H1) as Hbefore.
  assert (Hh : host (report r) = host_of parsed) by (subst r; exact Fh).
  assert (Hdm : domain (report r) = fst (domain_parts w n)) by (subst r; exact Fd).
  rewrite Hh in Hd. rewrite Hdm.
  destruct (dns_checks_resolved _ _ _ _ _ _ _ _ _ H2 Hd) as [_ Hloop].
  assert (P : picked ResolvedHostMismatch (run_ledger r) =
              map (mismatch_entry (fst (domain_parts w n)))
                  (List.filter (mismatching w (fst (domain_parts w n)))
                               resolved_hosts)).
  { subst r. cbn [run_ledger].
    rewrite (extends_picked_other _ ResolvedHostMismatch _ _ Hafter eq_refl).
    rewrite (resolved_hosts_check_picked _ _ _ _ _ Hloop), picked_call.
    rewrite (extends_picked_other _ ResolvedHostMismatch _ _ Hbefore eq_refl).
    reflexivity. }
  rewrite P. split; [reflexivity|]. split.
  - intros e He. apply in_map_iff in He as (h & <- & _). split; reflexivity.
  - apply sum_weights_mismatch.
Qed.

Lemma mismatching_address (w : World) (d : string) (l : list string) :
  (forall a, In a l -> is_ip w a = Ok true) ->
  List.filter (mismatching w d) l = [].
Proof.
  induction l as [|a l IH]; intro H; [reflexivity|].
  cbn [List.filter]. unfold mismatching at 1.
  rewrite (H a (or_introl eq_refl)). apply IH.
  intros b Hb. apply H. now right.
Qed.

(** C4.  The specification has the canonical host names of the resolver's
    answer compared with the domain of the request.  The program goes
    through the list at index 2 of the answer instead, which for
    [socket.gethostbyname_ex] is the list of addresses: when every element
    of that list is an address, as the library has it, the loop skips them
    all and compares nothing, whatever the canonical name and the aliases
    are.  The run records no detection for a mismatch, the report has no
    finding "Resolved host ... doesn't match domain ...", and the penalty 3
    is in no score. *)
Theorem resolved_names_are_never_compared (w : World) (url : string) (r : Run)
        (name : string) (aliases addresses : list string) :
  analyze_run w url = Ok r ->
  trusted_domain (context (report r)) = false ->
  get_dns_a w (host (report r)) = Some (name, aliases, addresses) ->
  (forall a, In a addresses -> is_ip w a = Ok true) ->
  picked ResolvedHostMismatch (run_ledger r) = [] /\
  findings_of ResolvedHostMismatch (threats (report r)) = [] /\
  (forall h d, ~ In (mismatch_finding h d) (threats (report r))) /\
  risk_score (report r) =
    total_weight (other_findings ResolvedHostMismatch (threats (report r))).
Proof.
  intros H Hf Hd Ha.
  destruct (resolved_hosts_loop_entries w url r name aliases addresses H Hf Hd)
    as (P & _ & _).
  rewrite (mismatching_address w _ addresses Ha) in P. cbn [map] in P.
  destruct (run_ledger_sound w url r H) as [T _].
  assert (F : findings_of ResolvedHostMismatch (threats (report r)) = []).
  { rewrite T, (findings_of_ledger _ _ (run_ledger_sited w url r H)), P.
    reflexivity. }
  split; [exact P|]. split; [exact F|]. split.
  - intros h d I.
    assert (I' : In (mismatch_finding h d)
                    (findings_of ResolvedHostMismatch (threats (report r)))).
    { unfold findings_of. apply filter_In. split; [exact I | reflexivity]. }
    rewrite F in I'. exact I'.
  - rewrite (report_score_law w url r H),
      (total_weight_split ResolvedHostMismatch), F. reflexivity.
Qed.

Lemma resolved_names_are_never_compared_witness :
  exists r,
    analyze_run canonical_elsewhere "http://shop.example.com/" = Ok r /\
    get_dns_a canonical_elsewhere (host (report r)) =
      Some ("cdn.other.net", ["shop.example.com"], ["203.0.113.5"]) /\
    mismatching canonical_elsewhere (domain (report r)) "cdn.other.net" = true /\
    threats (report r) = [(HIGH, "No HTTPS (plain HTTP).", [])] /\
    risk_score (report r) = 0 /\
    picked ResolvedHostMismatch (run_ledger r) = [] /\
    findings_of ResolvedHostMismatch (threats (report r)) = [] /\
    (forall h d, ~ In (mismatch_finding h d) (threats (report r))) /\
    risk_score (report r) =
      total_weight (other_findings ResolvedHostMismatch (threats (report r))).
Proof.
  eexists. split; [vm_compute; reflexivity|].
  split; [vm_compute; reflexivity|].
  split; [vm_compute; reflexivity|].
  split; [vm_compute; reflexivity|].
  split; [vm_compute; reflexivity|].
  apply (resolved_names_are_never_compared canonical_elsewhere
           "http://shop.example.com/" _ "cdn.other.net" ["shop.example.com"]
           ["203.0.113.5"]).
  - vm_compute. reflexivity.
  - vm_compute. reflexivity.
  - vm_compute. reflexivity.
  - intros a [<- | []]. vm_compute. reflexivity.
Defined.

(** ** The many-subdomains rule *)

Lemma url_checks_picked_subdomains (w : World) (n h d : string) (st st' : St)
      (t : string) :
  url_checks w n h d st = Ok (st', t) ->
  picked (Weighted too_many_subdomains) (ledger st') =
  (picked (Weighted too_many_subdomains) (ledger st) ++
   (if 6 <=? sub_count h d
    then [mkEntry (Weighted too_many_subdomains)
                  (many_subdomains_finding h (sub_count h d)) 2]
    else []))%list.
Proof.
  unfold url_checks. intro H.
  apply bind_ok in H as (ip & _ & H).
  apply bind_ok in H as (rest & _ & H).
  inversion H; subst; clear H.
  assert (K : forall st1,
             picked (Weighted too_many_subdomains)
               (ledger
                  match first_keyword n with
                  | Some kw =>
                      flag suspicious_keywords
                        (LOW, "Suspicious keyword in URL: '" ++ kw ++ "'.",
                         [("keyword", VStr kw)]) st1
                  | None => st1
                  end) =
             picked (Weighted too_many_subdomains) (ledger st1)).
  { intro st1. destruct (first_keyword n); [|reflexivity].
    unfold flag. rewrite picked_hit. cbn. apply app_nil_r. }
  rewrite K. rewrite !picked_flag_if.
  cbn [Signal_beq WeightKey_beq WEIGHTS].
  rewrite !andb_false_r, !andb_true_r, !app_nil_r. reflexivity.
Qed.

(** C5, as amended.  On a full analysis the many-subdomains rule (LOW,
    weight 2) fires exactly when [sub_count] is at least 6, where
    [sub_count] is the number of non-empty labels of the host less two when
    the registrable domain occurs in the host, and the number of dots of the
    host otherwise: the rule needs eight non-empty labels in the first
    case and six dots in the second. *)
Theorem many_subdomains_iff_sub_count (w : World) (url : string) (r : Run) :
  analyze_run w url = Ok r ->
  trusted_domain (context (report r)) = false ->
  let h := host (report r) in
  let d := domain (report r) in
  picked (Weighted too_many_subdomains) (run_ledger r) =
    (if 6 <=? sub_count h d
     then [mkEntry (Weighted too_many_subdomains)
                   (many_subdomains_finding h (sub_count h d)) 2]
     else []) /\
  (triggered too_many_subdomains r = true <-> 6 <= sub_count h d) /\
  (Str.contains d h = true ->
   (triggered too_many_subdomains r = true <-> 8 <= nonempty_labels h)) /\
  (Str.contains d h = false ->
   (triggered too_many_subdomains r = true <-> 6 <= Str.count "." h)).
Proof.
  intros H Hf h d.
  apply analyze_run_inv in H.
  destruct H as [n parsed Hn Hp Ht Hr | n parsed st1 st2 st4 st5 tld dns age
                                         fetched Hn Hp Ht H1 H2 H4 H5 Hr].
  { subst r. simpl in Hf. discriminate. }
  pose proof (final_report_fields url (host_of parsed) (fst (domain_parts w n))
                tld dns age fetched
                (page_checks w (fst (domain_parts w n)) fetched st5))
    as (_ & _ & Fh & Fd & _).
  pose proof (after_url_extends _ _ _ _ _ _ _ _ _ _ H2 H4 H5) as Hafter.
  assert (Hh : h = host_of parsed) by (subst h r; exact Fh).
  assert (Hd : d = fst (domain_parts w n)) by (subst d r; exact Fd).
  assert (P : picked (Weighted too_many_subdomains) (run_ledger r) =
              (if 6 <=? sub_count h d
               then [mkEntry (Weighted too_many_subdomains)
                             (many_subdomains_finding h (sub_count h d)) 2]
               else [])).
  { rewrite Hh, Hd. subst r. cbn [run_ledger].
    rewrite (extends_picked_other _ (Weighted too_many_subdomains) _ _ Hafter
               eq_refl).
    rewrite (url_checks_picked_subdomains _ _ _ _ _ _ _ H1). reflexivity. }
  assert (T : triggered too_many_subdomains r = true <-> 6 <= sub_count h d).
  { unfold triggered. rewrite P.
    destruct (6 <=? sub_count h d) eqn:E; cbn.
    - split; [intros _; lia | reflexivity].
    - split; [discriminate | intro; lia]. }
  split; [exact P|]. split; [exact T|]. split; intro C; rewrite T;
    unfold sub_count, nonempty_labels; rewrite C; lia.
Qed.

Lemma many_subdomains_iff_sub_count_witness :
  exists r,
    analyze_run eight_labels "http://a.b.c.d.e.f.example.com" = Ok r /\
    triggered too_many_subdomains r = true /\
    8 <= nonempty_labels (host (report r)).
Proof.
  eexists. split; [vm_compute; reflexivity|].
  pose proof (many_subdomains_iff_sub_count eight_labels
                "http://a.b.c.d.e.f.example.com" _
                ltac:(vm_compute; reflexivity) ltac:(vm_compute; reflexivity))
    as (_ & _ & T & _).
  split; [vm_compute; reflexivity|].
  apply (T ltac:(vm_compute; reflexivity)). vm_compute. reflexivity.
Defined.

(** C5, as the specification words it, fails: a host of six labels under a
    two-label registrable domain has four subdomains, and the rule stays
    silent. *)
Lemma six_labels_do_not_fire :
  ~ fires_from_six_labels six_labels "http://a.b.c.d.example.com".
Proof.
  intro C.
  specialize (C _ ltac:(vm_compute; reflexivity) ltac:(vm_compute; reflexivity)).
  destruct C as [_ C].
  revert C. vm_compute. intro C.
  specialize (C ltac:(discriminate)). discriminate C.
Qed.

(** ** The forms of the page *)

Lemma forms_fold_picked (w : World) (d : string) (l : list string) :
  forall a : Acc,
    picked (Weighted external_form_action)
           (ledger (fst (fold_left (form_step w d) l a))) =
    (picked (Weighted external_form_action) (ledger (fst a)) ++
     map (form_entry w) (List.filter (external_action w d) l))%list.
Proof.
  induction l as [|x l IH]; intro a; cbn [fold_left List.filter].
  - cbn [map]. now rewrite app_nil_r.
  - rewrite IH. destruct a as [st src]. unfold form_step.
    destruct (external_action w d x); cbn [fst map].
    + unfold flag. rewrite picked_hit. cbn [Signal_beq WeightKey_beq].
      now rewrite <- app_assoc.
    + reflexivity.
Qed.

Lemma soup_checks_picked_forms (w : World) (d : string) (b : bool) (soup : Soup)
      (a : Acc) :
  picked (Weighted external_form_action)
         (ledger (fst (soup_checks w d b soup a))) =
  (picked (Weighted external_form_action) (ledger (fst a)) ++
   map (form_entry w)
       (List.filter (external_action w d) (somes (soup_forms soup))))%list.
Proof.
  unfold soup_checks.
  rewrite (extends_picked_other _ (Weighted external_form_action) _ _
             (scripts_check_extends w soup _) eq_refl).
  rewrite (extends_picked_other _ (Weighted external_form_action) _ _
             (iframes_check_extends soup _) eq_refl).
  rewrite (extends_picked_other _ (Weighted external_form_action) _ _
             (externals_check_extends w d soup _) eq_refl).
  rewrite (extends_picked_other _ (Weighted external_form_action) _ _
             (password_check_extends b soup _) eq_refl).
  rewrite (extends_picked_other _ (Weighted external_form_action) _ _
             (mailto_check_extends soup _) eq_refl).
  unfold forms_check. rewrite forms_fold_picked.
  rewrite (extends_picked_other _ (Weighted external_form_action) _ _
             (favicon_check_extends w d soup _) eq_refl).
  rewrite (extends_picked_other _ (Weighted external_form_action) _ _
             (title_check_extends d soup _) eq_refl).
  reflexivity.
Qed.

Lemma sum_weights_forms (w : World) (l : list string) :
  sum_weights (map (form_entry w) l) = 8 * Z.of_nat (List.length l).
Proof.
  induction l as [|x l IH]; [reflexivity|].
  cbn [map sum_weights fold_right List.length].
  unfold sum_weights in IH. rewrite IH. cbn [form_entry e_weight]. lia.
Qed.

(** The detections that the forms loop leaves in the ledger of a run. *)
Lemma external_forms_entries (w : World) (url : string) (r : Run)
        (soup : Soup) :
  analyze_run w url = Ok r ->
  run_page r = Some soup ->
  let external :=
    List.filter (external_action w (domain (report r))) (somes (soup_forms soup)) in
  picked (Weighted external_form_action) (run_ledger r) =
    map (form_entry w) external /\
  (forall e, In e (picked (Weighted external_form_action) (run_ledger r)) ->
             e_weight e = 8 /\ fst (fst (e_finding e)) = HIGH) /\
  sum_weights (picked (Weighted external_form_action) (run_ledger r)) =
    8 * Z.of_nat (List.length external) /\
  (List.length external = 2%nat ->
   sum_weights (picked (Weighted external_form_action) (run_ledger r)) = 16).
Proof.
  intros H Hpage external.
  apply analyze_run_inv in H.
  destruct H as [n parsed Hn Hp Ht Hr | n parsed st1 st2 st4 st5 tld dns age
                                         fetched Hn Hp Ht H1 H2 H4 H5 Hr].
  { subst r. discriminate Hpage. }
  pose proof (final_report_fields url (host_of parsed) (fst (domain_parts w n))
                tld dns age fetched
                (page_checks w (fst (domain_parts w n)) fetched st5))
    as (_ & _ & _ & Fd & _).
  pose proof (before_page_extends _ _ _ _ _ _ _ _ _ _ _ H1 H2 H4 H5) as Hbefore.
  assert (Hd : domain (report r) = fst (domain_parts w n)) by (subst r; exact Fd).
  assert (Hpg : page_of w (f_resp fetched) = Some soup) by (subst r; exact Hpage).
  assert (P : picked (Weighted external_form_action) (run_ledger r) =
              map (form_entry w) external).
  { subst external. rewrite Hd. subst r. cbn [run_ledger].
    unfold page_checks. rewrite Hpg.
    rewrite soup_checks_picked_forms. cbn [fst].
    rewrite (extends_picked_other _ (Weighted external_form_action) _ _ Hbefore
               eq_refl).
    reflexivity. }
  rewrite P. split; [reflexivity|]. split; [|split].
  - intros e He. apply in_map_iff in He as (x & <- & _). split; reflexivity.
  - apply sum_weights_forms.
  - intro L. rewrite sum_weights_forms, L. reflexivity.
Qed.

Lemma total_weight_forms (w : World) (l : list string) :
  total_weight (map (form_finding w) l) = 8 * Z.of_nat (List.length l).
Proof.
  induction l as [|x l IH]; [reflexivity|].
  cbn [map List.length]. rewrite total_weight_cons, IH.
  change (weight_of (form_finding w x)) with 8. lia.
Qed.

(** C7.  When a run inspects a page, every form of the page whose action
    leads to a registrable domain other than the page's adds its own finding
    to the findings of the report, HIGH and with weight 8, in document order
    and without merging; the score of the report is 8 times their number
    plus the weights of the other findings, so two of them contribute 16. *)
Theorem external_forms_counted_separately (w : World) (url : string) (r : Run)
        (soup : Soup) :
  analyze_run w url = Ok r ->
  run_page r = Some soup ->
  let external :=
    List.filter (external_action w (domain (report r))) (somes (soup_forms soup)) in
  picked (Weighted external_form_action) (run_ledger r) =
    map (form_entry w) external /\
  (forall e, In e (picked (Weighted external_form_action) (run_ledger r)) ->
             e_weight e = 8 /\ fst (fst (e_finding e)) = HIGH) /\
  sum_weights (picked (Weighted external_form_action) (run_ledger r)) =
    8 * Z.of_nat (List.length external) /\
  (List.length external = 2%nat ->
   sum_weights (picked (Weighted external_form_action) (run_ledger r)) = 16) /\
  findings_of (Weighted external_form_action) (threats (report r)) =
    map (form_finding w) external /\
  (forall f, In f (findings_of (Weighted external_form_action)
                               (threats (report r))) ->
             severity_of f = HIGH /\ weight_of f = 8) /\
  risk_score (report r) =
    8 * Z.of_nat (List.length external) +
    total_weight (other_findings (Weighted external_form_action)
                                 (threats (report r))) /\
  (List.length external = 2%nat ->
   risk_score (report r) =
     16 + total_weight (other_findings (Weighted external_form_action)
                                       (threats (report r)))).
Proof.
  intros H Hpage external.
  destruct (external_forms_entries w url r soup H Hpage)
    as (P & E & S & S2).
  fold external in P, S, S2.
  destruct (run_ledger_sound w url r H) as [T _].
  assert (F : findings_of (Weighted external_form_action) (threats (report r)) =
              map (form_finding w) external).
  { rewrite T, (findings_of_ledger _ _ (run_ledger_sited w url r H)), P, map_map.
    reflexivity. }
  assert (R : risk_score (report r) =
              8 * Z.of_nat (List.length external) +
              total_weight (other_findings (Weighted external_form_action)
                                           (threats (report r)))).
  { rewrite (report_score_law w url r H) at 1.
    rewrite (total_weight_split (Weighted external_form_action)), F.
    now rewrite total_weight_forms. }
  split; [exact P|]. split; [exact E|]. split; [exact S|]. split; [exact S2|].
  split; [exact F|]. split; [|split; [exact R|]].
  - intros f I. rewrite F in I. apply in_map_iff in I as (a & <- & _).
    split; reflexivity.
  - intro L. rewrite R, L. reflexivity.
Qed.

Lemma external_forms_counted_separately_witness :
  exists r,
    analyze_run two_external_forms "http://shop.example.com/" = Ok r /\
    run_page r = Some two_forms_page /\
    picked (Weighted external_form_action) (run_ledger r) =
      [form_entry two_external_forms "https://collect.evil.net/a";
       form_entry two_external_forms "https://drop.bad.io/b"] /\
    sum_weights (picked (Weighted external_form_action) (run_ledger r)) = 16 /\
    findings_of (Weighted external_form_action) (threats (report r)) =
      [form_finding two_external_forms "https://collect.evil.net/a";
       form_finding two_external_forms "https://drop.bad.io/b"] /\
    risk_score (report r) =
      16 + total_weight (other_findings (Weighted external_form_action)
                                        (threats (report r))).
Proof.
  eexists. split; [vm_compute; reflexivity|].
  split; [vm_compute; reflexivity|].
  pose proof (external_forms_counted_separately two_external_forms
                "http://shop.example.com/" _ two_forms_page
                ltac:(vm_compute; reflexivity) ltac:(vm_compute; reflexivity))
    as (P & _ & _ & S & F & _ & _ & R).
  split; [exact P|].
  split; [exact (S ltac:(vm_compute; reflexivity))|].
  split; [exact F | exact (R ltac:(vm_compute; reflexivity))].
Defined.

(** * The normalizer and the upgraded fetch *)


(** ** Strings *)

Lemma append_nil_r (s : string) : s ++ EmptyString = s.
Proof. induction s as [|c s IH]; simpl; [reflexivity | now rewrite IH]. Qed.

Lemma append_assoc (a b c : string) : (a ++ b) ++ c = a ++ (b ++ c).
Proof. induction a as [|x a IH]; simpl; [reflexivity | now rewrite IH]. Qed.

Lemma forallb_app (p : ascii -> bool) (a b : string) :
  Str.forallb p (a ++ b) = Str.forallb p a && Str.forallb p b.
Proof.
  induction a as [|x a IH]; simpl; [reflexivity|].
  now rewrite IH, andb_assoc.
Qed.

Lemma existsb_app (p : ascii -> bool) (a b : string) :
  Str.existsb p (a ++ b) = Str.existsb p a || Str.existsb p b.
Proof.
  induction a as [|x a IH]; simpl; [reflexivity|].
  now rewrite IH, orb_assoc.
Qed.

Lemma mem_app (c : ascii) (a b : string) :
  Str.mem c (a ++ b) = Str.mem c a || Str.mem c b.
Proof. apply existsb_app. Qed.

Lemma filter_id (p : ascii -> bool) (s : string) :
  Str.forallb p s = true -> Str.filter p s = s.
Proof.
  induction s as [|x s IH]; simpl; [reflexivity|].
  intro H. apply andb_prop in H as [Hx Hs]. rewrite Hx. now rewrite IH.
Qed.

Lemma forallb_filter (p : ascii -> bool) (s : string) :
  Str.forallb p (Str.filter p s) = true.
Proof.
  induction s as [|x s IH]; simpl; [reflexivity|].
  destruct (p x) eqn:E; simpl; [now rewrite E|exact IH].
Qed.

Lemma partition_some (c : ascii) (s a b : string) :
  Str.partition c s = Some (a, b) ->
  s = a ++ String c b /\ Str.mem c a = false.
Proof.
  revert a b. induction s as [|d s IH]; simpl; intros a b H; [discriminate|].
  destruct (Ascii.eqb d c) eqn:E.
  - inversion H; subst. apply Ascii.eqb_eq in E. subst. split; reflexivity.
  - destruct (Str.partition c s) as [[a' b']|]; [|discriminate].
    inversion H; subst. destruct (IH a' b eq_refl) as [-> M].
    split; [reflexivity|]. unfold Str.mem in *. simpl.
    rewrite Ascii.eqb_sym, E. exact M.
Qed.

Lemma partition_none (c : ascii) (s : string) :
  Str.partition c s = None -> Str.mem c s = false.
Proof.
  induction s as [|d s IH]; simpl; intro H; [reflexivity|].
  destruct (Ascii.eqb d c) eqn:E; [discriminate|].
  destruct (Str.partition c s) as [[a' b']|]; [discriminate|].
  unfold Str.mem in *. simpl. rewrite Ascii.eqb_sym, E. now apply IH.
Qed.

Lemma partition_app (c : ascii) (a b : string) :
  Str.mem c a = false -> Str.partition c (a ++ String c b) = Some (a, b).
Proof.
  induction a as [|d a IH]; simpl; intro H.
  - now rewrite Ascii.eqb_refl.
  - unfold Str.mem in H. simpl in H. apply orb_false_elim in H as [Hd Ha].
    rewrite Ascii.eqb_sym, Hd. now rewrite (IH Ha).
Qed.

Lemma partition_absent (c : ascii) (s : string) :
  Str.mem c s = false -> Str.partition c s = None.
Proof.
  induction s as [|d s IH]; simpl; intro H; [reflexivity|].
  unfold Str.mem in H. simpl in H. apply orb_false_elim in H as [Hd Hs].
  rewrite Ascii.eqb_sym, Hd. now rewrite (IH Hs).
Qed.

Lemma rpartition_some (c : ascii) (s a b : string) :
  Str.rpartition c s = Some (a, b) ->
  s = a ++ String c b /\ Str.mem c b = false.
Proof.
  revert a b. induction s as [|d s IH]; simpl; intros a b H; [discriminate|].
  destruct (Str.rpartition c s) as [[a' b']|] eqn:R.
  - inversion H; subst. destruct (IH a' b eq_refl) as [-> M]. now split.
  - destruct (Ascii.eqb d c) eqn:E; [|discriminate].
    inversion H; subst. apply Ascii.eqb_eq in E. subst. split; [reflexivity|].
    clear IH H. revert R. induction b as [|x b IHb]; simpl; [reflexivity|].
    destruct (Str.rpartition c b) as [[? ?]|]; [discriminate|].
    destruct (Ascii.eqb x c) eqn:E; [discriminate|]. intros _.
    unfold Str.mem. simpl. rewrite Ascii.eqb_sym, E. now apply IHb.
Qed.

Lemma rpartition_absent (c : ascii) (s : string) :
  Str.mem c s = false -> Str.rpartition c s = None.
Proof.
  induction s as [|d s IH]; simpl; intro H; [reflexivity|].
  unfold Str.mem in H. simpl in H. apply orb_false_elim in H as [Hd Hs].
  rewrite (IH Hs). now rewrite Ascii.eqb_sym, Hd.
Qed.

Lemma rpartition_none (c : ascii) (s : string) :
  Str.rpartition c s = None -> Str.mem c s = false.
Proof.
  induction s as [|d s IH]; simpl; intro H; [reflexivity|].
  destruct (Str.rpartition c s) as [[? ?]|]; [discriminate|].
  destruct (Ascii.eqb d c) eqn:E; [discriminate|].
  unfold Str.mem. simpl. rewrite Ascii.eqb_sym, E. now apply IH.
Qed.

Lemma rpartition_app (c : ascii) (a b : string) :
  Str.mem c b = false -> Str.rpartition c (a ++ String c b) = Some (a, b).
Proof.
  intro H. induction a as [|d a IH]; simpl.
  - rewrite (rpartition_absent c b H). now rewrite Ascii.eqb_refl.
  - now rewrite IH.
Qed.

Lemma span_spec (p : ascii -> bool) (s a b : string) :
  Str.span p s = (a, b) ->
  s = a ++ b /\ Str.forallb p a = true /\
  match b with EmptyString => True | String c _ => p c = false end.
Proof.
  revert a b. induction s as [|x s IH]; simpl; intros a b H.
  - inversion H; subst. auto.
  - destruct (p x) eqn:E.
    + destruct (Str.span p s) as [a' b'] eqn:S. inversion H; subst.
      destruct (IH a' b eq_refl) as (-> & F & T). simpl. rewrite E. auto.
    + inversion H; subst. simpl. auto.
Qed.

Lemma span_app (p : ascii -> bool) (a b : string) :
  Str.forallb p a = true ->
  match b with EmptyString => True | String c _ => p c = false end ->
  Str.span p (a ++ b) = (a, b).
Proof.
  intros Ha Hb. induction a as [|x a IH]; simpl.
  - destruct b as [|c b]; simpl; [reflexivity|]. now rewrite Hb.
  - simpl in Ha. apply andb_prop in Ha as [Hx Ha]. rewrite Hx.
    now rewrite (IH Ha).
Qed.


(** ** Path parameters *)

Lemma is_empty_true (s : string) : Str.is_empty s = true -> s = EmptyString.
Proof. destruct s; [reflexivity | discriminate]. Qed.

Lemma partition_found (c : ascii) (s : string) :
  Str.mem c s = true -> exists a b, Str.partition c s = Some (a, b).
Proof.
  intro H. destruct (Str.partition c s) as [[a b]|] eqn:E; [eauto|].
  apply partition_none in E. congruence.
Qed.

(** What [split_if] returns, by the shape of its argument. *)
Lemma split_if_cases (x : string) :
  (split_if x = (x, EmptyString) /\
   (Str.mem ";" x = false \/
    exists dir last, x = dir ++ String "/" last /\ Str.mem "/" last = false /\
                     Str.mem ";" last = false)) \/
  (exists a b, split_if x = (a, b) /\ x = a ++ String ";" b /\
               Str.mem ";" a = false /\ Str.mem "/" a = false /\
               Str.mem "/" b = false /\ Str.mem "/" x = false) \/
  (exists dir a b, split_if x = (dir ++ String "/" a, b) /\
                   x = dir ++ String "/" (a ++ String ";" b) /\
                   Str.mem ";" a = false /\ Str.mem "/" a = false /\
                   Str.mem "/" b = false).
Proof.
  unfold split_if. destruct (Str.mem ";" x) eqn:M; [|left; auto].
  unfold _splitparams.
  destruct (Str.rpartition "/" x) as [[dir last]|] eqn:R.
  - apply rpartition_some in R as [-> Hl].
    destruct (Str.partition ";" last) as [[a b]|] eqn:P.
    + apply partition_some in P as [-> Ha].
      rewrite mem_app in Hl. apply orb_false_elim in Hl as [Hla Hlb].
      right; right. exists dir, a, b. repeat split; auto.
    + apply partition_none in P. left. split; [reflexivity|].
      right. exists dir, last. auto.
  - apply rpartition_none in R.
    destruct (partition_found _ _ M) as (a & b & P). rewrite P.
    apply partition_some in P as [-> Ha].
    right; left. exists a, b.
    pose proof R as R'. rewrite mem_app in R'.
    apply orb_false_elim in R' as [Ra Rb].
    unfold Str.mem in Rb. simpl in Rb.
    repeat split; auto.
Qed.


Lemma rejoin_pair_nil (a : string) : rejoin_pair (a, EmptyString) = a.
Proof. reflexivity. Qed.

Lemma rejoin_pair_cons (a : string) (c : ascii) (b : string) :
  rejoin_pair (a, String c b) = a ++ String ";" (String c b).
Proof. reflexivity. Qed.

(** Splitting what was rejoined gives it back. *)
Lemma split_if_stable (x : string) :
  rejoin_pair (split_if (rejoin_pair (split_if x))) = rejoin_pair (split_if x).
Proof.
  destruct (split_if_cases x)
    as [[E _] | [(a & b & E & Hx & Ha & Hsa & Hsb & Hsx)
                | (dir & a & b & E & Hx & Ha & Hsa & Hsb)]].
  - rewrite E, rejoin_pair_nil, E. reflexivity.
  - rewrite E. destruct b as [|c b].
    + rewrite rejoin_pair_nil. unfold split_if. now rewrite Ha.
    + rewrite rejoin_pair_cons, <- Hx, E, rejoin_pair_cons. now symmetry.
  - rewrite E. destruct b as [|c b].
    + rewrite rejoin_pair_nil. unfold split_if.
      destruct (Str.mem ";" (dir ++ String "/" a)) eqn:M; [|reflexivity].
      unfold _splitparams. rewrite (rpartition_app _ dir a Hsa).
      now rewrite (partition_absent _ _ Ha).
    + assert (X : rejoin_pair (dir ++ String "/" a, String c b) = x).
      { rewrite rejoin_pair_cons, Hx, append_assoc. reflexivity. }
      rewrite X, E. exact X.
Qed.

(** The rejoined path is the path, up to a final semicolon. *)
Lemma rejoin_split_if (x : string) :
  x = rejoin_pair (split_if x) \/
  x = rejoin_pair (split_if x) ++ ";".
Proof.
  destruct (split_if_cases x)
    as [[E _] | [(a & b & E & Hx & _) | (dir & a & b & E & Hx & _)]];
    rewrite E; unfold rejoin_pair, rejoin; simpl.
  - now left.
  - destruct b; simpl; [right | left]; exact Hx.
  - destruct b; simpl.
    + right. rewrite Hx, append_assoc. reflexivity.
    + left. rewrite Hx, append_assoc. reflexivity.
Qed.

Lemma startswith_slashes_semicolon (a b : string) :
  Str.startswith "//" (a ++ String ";" b) = Str.startswith "//" a.
Proof.
  destruct a as [|c1 [|c2 a]]; reflexivity.
Qed.

(** The path of the parse starts with two slashes exactly when the rejoined
    path does. *)
Lemma startswith_slashes_rejoin (x : string) :
  Str.startswith "//" (rejoin_pair (split_if x)) =
  Str.startswith "//" (fst (split_if x)).
Proof.
  unfold rejoin_pair, rejoin. destruct (split_if x) as [a b]. simpl.
  destruct b; simpl; [reflexivity|]. apply startswith_slashes_semicolon.
Qed.


(** ** The steps of [urlsplit] *)

Lemma cut_spec (c : ascii) (s a b : string) :
  cut c s = (a, b) ->
  Str.mem c a = false /\ ((s = a /\ b = EmptyString) \/ s = a ++ String c b).
Proof.
  unfold cut. destruct (Str.partition c s) as [[a' b']|] eqn:P; intro H;
    inversion H; subst.
  - apply partition_some in P as [-> M]. auto.
  - apply partition_none in P. auto.
Qed.


Lemma is_delim_cases (c : ascii) :
  is_delim c = true -> c = "/"%char \/ c = "?"%char \/ c = "#"%char.
Proof.
  unfold is_delim, Str.mem. simpl. rewrite orb_false_r.
  intro H. apply orb_prop in H as [H | H]; [|apply orb_prop in H as [H | H]];
    apply Ascii.eqb_eq in H; auto.
Qed.

Lemma cut_head (c : ascii) (s a b : string) :
  cut c s = (a, b) ->
  match s with
  | EmptyString => a = EmptyString
  | String x _ =>
      if Ascii.eqb x c then a = EmptyString else exists a', a = String x a'
  end.
Proof.
  unfold cut. destruct s as [|x s]; simpl.
  - intro H. now inversion H.
  - destruct (Ascii.eqb x c).
    + intro H. now inversion H.
    + destruct (Str.partition c s) as [[a' b']|]; intro H; inversion H; eauto.
Qed.

(** After the network location, once fragment and query are cut off, the
    path is empty or starts with a slash. *)
Lemma path_rooted (tail t1 frag pth qry : string) :
  match tail with EmptyString => True | String c _ => not_delim c = false end ->
  cut "#" tail = (t1, frag) -> cut "?" t1 = (pth, qry) -> rooted pth.
Proof.
  intros Hd C1 C2. apply cut_head in C1. apply cut_head in C2.
  destruct tail as [|c tail].
  - subst t1. subst pth. exact I.
  - unfold not_delim in Hd. apply negb_false_iff in Hd.
    apply is_delim_cases in Hd as [-> | [-> | ->]]; simpl in C1.
    + destruct C1 as [a' ->]. simpl in C2. destruct C2 as [p' ->]. reflexivity.
    + destruct C1 as [a' ->]. simpl in C2. subst pth. exact I.
    + subst t1. subst pth. exact I.
Qed.

Lemma rooted_prefix (x y : string) :
  rooted x -> (x = y \/ x = y ++ ";") -> rooted y.
Proof.
  intros R [-> | ->]; [exact R|].
  destruct y as [|c y]; [exact I | exact R].
Qed.

Lemma rooted_not_relative (s : string) :
  rooted s -> negb (Str.is_empty s) && negb (Str.startswith "/" s) = false.
Proof.
  destruct s as [|c s]; simpl; [reflexivity|]. intros ->. reflexivity.
Qed.

Lemma mem_prefix (c : ascii) (x y : string) :
  Str.mem c x = false -> (x = y \/ x = y ++ ";") -> Str.mem c y = false.
Proof.
  intros M [-> | ->]; [exact M|].
  rewrite mem_app in M. now apply orb_false_elim in M.
Qed.

Lemma forallb_prefix (p : ascii -> bool) (x y : string) :
  Str.forallb p x = true -> (x = y \/ x = y ++ ";") -> Str.forallb p y = true.
Proof.
  intros M [-> | ->]; [exact M|].
  rewrite forallb_app in M. now apply andb_prop in M.
Qed.



Section Roundtrip.

Variable ip : string -> option ip_version.

Lemma split_rest_inv (sch R : string) (sp : ParseResult) :
  split_rest ip sch ("//" ++ R) = Ok sp ->
  exists nl tail t1 frag pth qry,
    Str.span not_delim R = (nl, tail) /\ netloc_ok ip nl = Ok tt /\
    cut "#" tail = (t1, frag) /\ cut "?" t1 = (pth, qry) /\
    sp = mkParse sch nl pth EmptyString qry frag.
Proof.
  unfold split_rest, split_authority, _splitnetloc2.
  change (Str.startswith "//" ("//" ++ R)) with true.
  change (Str.drop 2 ("//" ++ R)) with R. cbv iota.
  destruct (Str.span not_delim R) as [nl tail] eqn:S.
  destruct (netloc_ok ip nl) as [[]|e] eqn:N; [|discriminate]. cbn [bind].
  destruct (cut "#" tail) as [t1 frag] eqn:C1.
  destruct (cut "?" t1) as [pth qry] eqn:C2.
  intro H. inversion H; subst. exists nl, tail, t1, frag, pth, qry. auto.
Qed.

Lemma split_rest_canonical (sch R : string) (sp : ParseResult) :
  split_rest ip sch ("//" ++ R) = Ok sp ->
  (Str.forallb keep_url_byte R = true ->
   Str.forallb keep_url_byte (canonical_rest sp) = true) /\
  rooted (rejoin_pair (split_if (path sp))) /\
  split_rest ip sch ("//" ++ canonical_rest sp) =
    Ok (mkParse sch (netloc sp) (rejoin_pair (split_if (path sp))) EmptyString
                (query sp) EmptyString).
Proof.
  intro H.
  destruct (split_rest_inv _ _ _ H)
    as (nl & tail & t1 & frag & pth & qry & S & N & C1 & C2 & ->).
  unfold canonical_rest. cbn [netloc path query].
  apply span_spec in S as (HR & Fnl & Hd).
  pose proof (path_rooted _ _ _ _ _ Hd C1 C2) as Rp.
  apply cut_spec in C1 as [M1 E1]. apply cut_spec in C2 as [M2 E2].
  set (P := rejoin_pair (split_if pth)).
  pose proof (rejoin_split_if pth) as HP. fold P in HP.
  assert (RP : rooted P) by exact (rooted_prefix pth P Rp HP).
  (* no fragment mark in path and query *)
  assert (M1p : Str.mem "#" pth = false /\ Str.mem "#" qry = false).
  { destruct E2 as [[-> ->] | ->]; [auto|].
    rewrite mem_app in M1. apply orb_false_elim in M1 as [A B].
    unfold Str.mem in B. simpl in B. auto. }
  destruct M1p as [M1p M1q].
  assert (MP : Str.mem "#" P = false) by exact (mem_prefix _ pth P M1p HP).
  assert (MQ : Str.mem "?" P = false) by exact (mem_prefix _ pth P M2 HP).
  split; [|split; [exact RP|]].
  - (* the characters *)
    intro F. subst R. rewrite forallb_app in F. apply andb_prop in F as [F1 F2].
    assert (Ft1 : Str.forallb keep_url_byte t1 = true).
    { destruct E1 as [[-> _] | ->]; [exact F2|].
      rewrite forallb_app in F2. now apply andb_prop in F2. }
    assert (Fp : Str.forallb keep_url_byte pth = true /\
                 Str.forallb keep_url_byte (query_suffix qry) = true).
    { destruct E2 as [[-> ->] | ->]; [auto|].
      rewrite forallb_app in Ft1. apply andb_prop in Ft1 as [A B].
      split; [exact A|]. unfold query_suffix. destruct qry; [reflexivity|].
      exact B. }
    destruct Fp as [Fp Fq].
    rewrite !forallb_app, F1, Fq, (forallb_prefix _ _ _ Fp HP). reflexivity.
  - (* the second split *)
    unfold split_rest, split_authority, _splitnetloc2.
    change (Str.startswith "//" ("//" ++ nl ++ P ++ query_suffix qry)) with true.
    change (Str.drop 2 ("//" ++ nl ++ P ++ query_suffix qry))
      with (nl ++ P ++ query_suffix qry).
    cbv iota.
    rewrite (span_app not_delim nl (P ++ query_suffix qry) Fnl).
    2:{ destruct P as [|c P']; simpl.
        - unfold query_suffix. destruct qry; simpl; [exact I | reflexivity].
        - simpl in RP. subst c. reflexivity. }
    rewrite N. cbn [bind].
    assert (C1' : cut "#" (P ++ query_suffix qry) = (P ++ query_suffix qry, EmptyString)).
    { unfold cut. rewrite partition_absent; [reflexivity|].
      rewrite mem_app, MP. unfold query_suffix. destruct qry; [reflexivity|].
      exact M1q. }
    rewrite C1'.
    assert (C2' : cut "?" (P ++ query_suffix qry) = (P, qry)).
    { unfold cut, query_suffix. destruct qry as [|c q]; simpl.
      - rewrite append_nil_r, partition_absent; [reflexivity | exact MQ].
      - now rewrite partition_app. }
    rewrite C2'. reflexivity.
Qed.

End Roundtrip.


(** ** The scheme step on a URL that has an http scheme *)


(** A character that lower-cases to an ASCII letter is an ASCII letter, and
    the scheme step of [urlsplit] keeps it. *)
Lemma lower_letter_facts (c : ascii) :
  lower_letter (Str.lower_char c) = true ->
  is_ascii_alpha c = true /\ scheme_char c = true /\
  Ascii.eqb c ":" = false /\ keep_url_byte c = true /\
  c0_control_or_space c = false.
Proof.
  destruct c as [[] [] [] [] [] [] [] []]; vm_compute; intuition congruence.
Qed.

Lemma lower_char_colon (c : ascii) : Str.lower_char c = ":"%char -> c = ":"%char.
Proof.
  destruct c as [[] [] [] [] [] [] [] []]; vm_compute; congruence.
Qed.

Lemma lower_char_slash (c : ascii) : Str.lower_char c = "/"%char -> c = "/"%char.
Proof.
  destruct c as [[] [] [] [] [] [] [] []]; vm_compute; congruence.
Qed.

Lemma startswith_ci_cons (a : ascii) (lit : string) (s : string) :
  startswith_ci (String a lit) s = true ->
  exists b s', s = String b s' /\ Str.lower_char b = Str.lower_char a /\
               startswith_ci lit s' = true.
Proof.
  destruct s as [|b s']; simpl; [discriminate|].
  intro H. apply andb_prop in H as [E H]. apply Ascii.eqb_eq in E.
  exists b, s'. auto.
Qed.

Ltac letter_facts c H :=
  let A := fresh "A" in
  assert (A : lower_letter (Str.lower_char c) = true) by (rewrite H; reflexivity);
  apply lower_letter_facts in A;
  let a1 := fresh "Halpha" in let a2 := fresh "Hsch" in
  let a3 := fresh "Hcol" in let a4 := fresh "Hkeep" in let a5 := fresh "Hc0" in
  destruct A as (a1 & a2 & a3 & a4 & a5).

Section SchemeStep.

Variable ip : string -> option ip_version.

Lemma urlsplit_http (s : string) :
  startswith_ci "http://" s = true ->
  urlsplit ip s =
  split_rest ip "http" ("//" ++ Str.filter keep_url_byte (Str.drop 7 s)).
Proof.
  intro H.
  apply startswith_ci_cons in H as (c1 & s1 & -> & L1 & H).
  apply startswith_ci_cons in H as (c2 & s2 & -> & L2 & H).
  apply startswith_ci_cons in H as (c3 & s3 & -> & L3 & H).
  apply startswith_ci_cons in H as (c4 & s4 & -> & L4 & H).
  apply startswith_ci_cons in H as (c5 & s5 & -> & L5 & H).
  apply startswith_ci_cons in H as (c6 & s6 & -> & L6 & H).
  apply startswith_ci_cons in H as (c7 & s7 & -> & L7 & _).
  change (Str.lower_char "h") with "h"%char in L1.
  change (Str.lower_char "t") with "t"%char in L2, L3.
  change (Str.lower_char "p") with "p"%char in L4.
  apply lower_char_colon in L5. apply lower_char_slash in L6.
  apply lower_char_slash in L7. subst c5 c6 c7.
  letter_facts c1 L1. letter_facts c2 L2. letter_facts c3 L3. letter_facts c4 L4.
  unfold urlsplit.
  cbn [Str.lstrip_by]. rewrite Hc0.
  cbn [Str.filter Str.drop]. rewrite Hkeep, Hkeep0, Hkeep1, Hkeep2.
  change (keep_url_byte ":") with true. change (keep_url_byte "/") with true.
  cbv iota.
  unfold split_scheme. cbn [Str.partition].
  rewrite Hcol, Hcol0, Hcol1, Hcol2. change (Ascii.eqb ":" ":") with true.
  cbv iota. cbn [Str.forallb]. rewrite Halpha, Hsch, Hsch0, Hsch1, Hsch2.
  cbn [andb Str.lower]. rewrite L1, L2, L3, L4. reflexivity.
Qed.

Lemma urlsplit_https (s : string) :
  startswith_ci "https://" s = true ->
  urlsplit ip s =
  split_rest ip "https" ("//" ++ Str.filter keep_url_byte (Str.drop 8 s)).
Proof.
  intro H.
  apply startswith_ci_cons in H as (c1 & s1 & -> & L1 & H).
  apply startswith_ci_cons in H as (c2 & s2 & -> & L2 & H).
  apply startswith_ci_cons in H as (c3 & s3 & -> & L3 & H).
  apply startswith_ci_cons in H as (c4 & s4 & -> & L4 & H).
  apply startswith_ci_cons in H as (c4' & s4' & -> & L4' & H).
  apply startswith_ci_cons in H as (c5 & s5 & -> & L5 & H).
  apply startswith_ci_cons in H as (c6 & s6 & -> & L6 & H).
  apply startswith_ci_cons in H as (c7 & s7 & -> & L7 & _).
  change (Str.lower_char "h") with "h"%char in L1.
  change (Str.lower_char "t") with "t"%char in L2, L3.
  change (Str.lower_char "p") with "p"%char in L4.
  change (Str.lower_char "s") with "s"%char in L4'.
  apply lower_char_colon in L5. apply lower_char_slash in L6.
  apply lower_char_slash in L7. subst c5 c6 c7.
  letter_facts c1 L1. letter_facts c2 L2. letter_facts c3 L3. letter_facts c4 L4.
  letter_facts c4' L4'.
  unfold urlsplit.
  cbn [Str.lstrip_by]. rewrite Hc0.
  cbn [Str.filter Str.drop]. rewrite Hkeep, Hkeep0, Hkeep1, Hkeep2, Hkeep3.
  change (keep_url_byte ":") with true. change (keep_url_byte "/") with true.
  cbv iota.
  unfold split_scheme. cbn [Str.partition].
  rewrite Hcol, Hcol0, Hcol1, Hcol2, Hcol3. change (Ascii.eqb ":" ":") with true.
  cbv iota. cbn [Str.forallb].
  rewrite Halpha, Hsch, Hsch0, Hsch1, Hsch2, Hsch3.
  cbn [andb Str.lower]. rewrite L1, L2, L3, L4, L4'. reflexivity.
Qed.

(** On a URL with an http scheme [urlsplit] is [split_rest] on the lower-case
    scheme and on what follows it, freed of the unsafe characters. *)
Lemma urlsplit_of_http (s : string) :
  has_http_scheme s = true ->
  exists sch R,
    (sch = "http" \/ sch = "https") /\
    Str.forallb keep_url_byte R = true /\
    urlsplit ip s = split_rest ip sch ("//" ++ R).
Proof.
  unfold has_http_scheme. intro H. apply orb_prop in H as [H | H].
  - exists "http", (Str.filter keep_url_byte (Str.drop 7 s)).
    split; [now left|]. split; [apply forallb_filter | now apply urlsplit_http].
  - exists "https", (Str.filter keep_url_byte (Str.drop 8 s)).
    split; [now right|]. split; [apply forallb_filter | now apply urlsplit_https].
Qed.

Lemma urlsplit_canonical (sch R : string) :
  sch = "http" \/ sch = "https" ->
  Str.forallb keep_url_byte R = true ->
  has_http_scheme (sch ++ "://" ++ R) = true /\
  urlsplit ip (sch ++ "://" ++ R) = split_rest ip sch ("//" ++ R).
Proof.
  intros [-> | ->] F.
  - split; [reflexivity|].
    rewrite urlsplit_http by reflexivity.
    change (Str.drop 7 ("http" ++ "://" ++ R)) with R. now rewrite filter_id.
  - split; [reflexivity|].
    rewrite urlsplit_https by reflexivity.
    change (Str.drop 8 ("https" ++ "://" ++ R)) with R. now rewrite filter_id.
Qed.

End SchemeStep.

(** ** Putting the URL together again *)

Lemma urlunsplit_http (sch nl P qry : string) :
  sch = "http" \/ sch = "https" ->
  rooted P ->
  nl <> EmptyString \/ Str.startswith "//" P = false ->
  urlunsplit sch nl P qry EmptyString =
  sch ++ "://" ++ nl ++ P ++ query_suffix qry.
Proof.
  intros Hs RP Hc. unfold urlunsplit.
  assert (C : negb (Str.is_empty nl) ||
              (negb (Str.is_empty sch) && in_list sch uses_netloc &&
               negb (Str.startswith "//" P)) = true).
  { destruct Hc as [Hn | Hp].
    - destruct nl; [congruence | reflexivity].
    - rewrite Hp. destruct Hs as [-> | ->]; simpl; apply orb_true_r. }
  rewrite C, (rooted_not_relative P RP).
  unfold query_suffix.
  destruct Hs as [-> | ->]; destruct qry as [|c q]; simpl;
    rewrite ?append_nil_r, ?append_assoc; reflexivity.
Qed.

Lemma with_params_http (sch : string) (sp : ParseResult) :
  sch = "http" \/ sch = "https" ->
  scheme sp = sch ->
  params sp = EmptyString ->
  with_params sp =
  mkParse sch (netloc sp) (fst (split_if (path sp))) (snd (split_if (path sp)))
          (query sp) (fragment sp).
Proof.
  intros Hs E Ep. unfold with_params, split_if. rewrite E.
  assert (U : in_list sch uses_params = true) by (destruct Hs as [-> | ->]; reflexivity).
  rewrite U. cbn [andb].
  destruct (Str.mem ";" (path sp)).
  - destruct (_splitparams (path sp)); reflexivity.
  - destruct sp; simpl in *. now subst.
Qed.

Lemma geturl_with_params (sch : string) (sp : ParseResult) :
  sch = "http" \/ sch = "https" ->
  scheme sp = sch ->
  params sp = EmptyString ->
  geturl (replace_fragment EmptyString (with_params sp)) =
  urlunsplit sch (netloc sp) (rejoin_pair (split_if (path sp))) (query sp)
             EmptyString.
Proof.
  intros Hs E Ep. rewrite (with_params_http sch sp Hs E Ep). reflexivity.
Qed.

Lemma with_default_scheme_has (s : string) :
  has_http_scheme (with_default_scheme s) = true.
Proof.
  unfold with_default_scheme. destruct (has_http_scheme s) eqn:E; simpl.
  - exact E.
  - reflexivity.
Qed.

(** ** Normalizing what is normalized *)

Lemma normalize_url_fixpoint (w : World) (u r : string) (q : ParseResult) :
  urlparse (ip_address w) (with_default_scheme (Str.strip u)) = Ok q ->
  normalize_url w u = Ok r ->
  netloc q <> EmptyString \/ Str.startswith "//" (path q) = false ->
  Str.strip r = r ->
  normalize_url w r = Ok r.
Proof.
  intros Hq Hr Hc Hstrip.
  unfold normalize_url in Hr. cbv zeta in Hr. rewrite Hq in Hr. cbn [bind] in Hr.
  assert (Er : geturl (replace_fragment EmptyString q) = r) by congruence.
  clear Hr.
  unfold urlparse in Hq. apply bind_ok in Hq as (sp & Hsp & Hq).
  assert (Eq : with_params sp = q) by congruence.
  clear Hq.
  destruct (urlsplit_of_http (ip_address w) _
              (with_default_scheme_has (Str.strip u)))
    as (sch & R & Hs & FR & Hsplit).
  rewrite Hsplit in Hsp.
  destruct (split_rest_inv _ _ _ _ Hsp)
    as (nl & tail & t1 & frag & pth & qry & _ & _ & _ & _ & Esp).
  assert (Esch : scheme sp = sch) by (subst sp; reflexivity).
  assert (Eprm : params sp = EmptyString) by (subst sp; reflexivity).
  destruct (split_rest_canonical _ _ _ _ Hsp) as (FR' & RP & Hsplit').
  specialize (FR' FR).
  set (P := rejoin_pair (split_if (path sp))) in *.
  assert (Hc' : netloc sp <> EmptyString \/ Str.startswith "//" P = false).
  { rewrite <- Eq in Hc. rewrite (with_params_http sch sp Hs Esch Eprm) in Hc.
    cbn [netloc path] in Hc. destruct Hc as [Hc | Hc]; [now left | right].
    subst P. now rewrite startswith_slashes_rejoin. }
  assert (Er' : r = sch ++ "://" ++ canonical_rest sp).
  { rewrite <- Er, <- Eq, (geturl_with_params sch sp Hs Esch Eprm).
    fold P. rewrite (urlunsplit_http sch (netloc sp) P (query sp) Hs RP Hc').
    reflexivity. }
  destruct (urlsplit_canonical (ip_address w) sch (canonical_rest sp) Hs FR')
    as [Hhas Hsplit2].
  assert (W : with_default_scheme r = r).
  { unfold with_default_scheme. rewrite Er', Hhas. reflexivity. }
  assert (U : urlsplit (ip_address w) r =
              Ok (mkParse sch (netloc sp) P EmptyString (query sp) EmptyString)).
  { rewrite Er', Hsplit2. exact Hsplit'. }
  unfold normalize_url. cbv zeta. rewrite Hstrip, W.
  unfold urlparse. rewrite U. cbn [bind].
  rewrite (geturl_with_params sch
             (mkParse sch (netloc sp) P EmptyString (query sp) EmptyString)
             Hs eq_refl eq_refl).
  cbn [netloc path query].
  unfold P at 1. rewrite split_if_stable. fold P.
  rewrite <- Er, <- Eq, (geturl_with_params sch sp Hs Esch Eprm). reflexivity.
Qed.

(** ** Idempotence of the normalizer *)

(** C8, as amended.  When [normalize_url] accepts [u], the normalized URL
    [r] is a fixed point of [normalize_url], and so normalizing twice is
    normalizing once, provided that [r] does not end in white space and that
    the URL has a network location or a path that does not begin with two
    slashes. *)
Theorem normalize_idempotent_when_clean (w : World) (u r : string)
        (q : ParseResult) :
  urlparse (ip_address w) (with_default_scheme (Str.strip u)) = Ok q ->
  normalize_url w u = Ok r ->
  netloc q <> EmptyString \/ Str.startswith "//" (path q) = false ->
  Str.strip r = r ->
  normalize_url w r = Ok r /\ normalize_idempotent_at w u.
Proof.
  intros Hq Hr Hc Hs.
  pose proof (normalize_url_fixpoint w u r q Hq Hr Hc Hs) as F.
  split; [exact F|].
  unfold normalize_idempotent_at. rewrite Hr. exact F.
Qed.

Lemma normalize_idempotent_when_clean_witness :
  normalize_url offline "https://Example.COM/a;b?q" =
    Ok "https://Example.COM/a;b?q" /\
  normalize_idempotent_at offline "  HTTPS://Example.COM/a;b?q#frag ".
Proof.
  apply (normalize_idempotent_when_clean offline
           "  HTTPS://Example.COM/a;b?q#frag " "https://Example.COM/a;b?q"
           (mkParse "https" "Example.COM" "/a" "b" "q" "frag")).
  - vm_compute. reflexivity.
  - vm_compute. reflexivity.
  - right. reflexivity.
  - vm_compute. reflexivity.
Defined.

(** C8, as the specification words it, fails: dropping the fragment can
    leave white space at the end of the URL, which the next normalization
    trims. *)
Lemma normalize_not_idempotent :
  ~ normalize_idempotent_at offline "http://x/a #f".
Proof.
  unfold normalize_idempotent_at. vm_compute. discriminate.
Qed.

(** Without a network location a path of four slashes loses two of them at
    each normalization (CPython 3.11 puts a path that starts with two
    slashes directly after the scheme). *)
Lemma normalize_not_idempotent_without_netloc :
  normalize_url offline "http://////a" = Ok "http:////a" /\
  normalize_url offline "http:////a" = Ok "http://a".
Proof. split; vm_compute; reflexivity. Qed.

(** ** The upgraded retry of the fetch *)

Lemma startswith_app (pre s : string) :
  Str.startswith pre s = true -> s = pre ++ Str.drop (String.length pre) s.
Proof.
  revert s. induction pre as [|a pre IH]; intros s H; [reflexivity|].
  destruct s as [|b s]; [discriminate|]. simpl in H.
  apply andb_prop in H as [E H]. apply Ascii.eqb_eq in E. subst b.
  simpl. now rewrite <- (IH s H).
Qed.

Lemma with_params_scheme (sp : ParseResult) :
  scheme (with_params sp) = scheme sp.
Proof.
  unfold with_params. destruct (_ && _); [|reflexivity].
  destruct (_splitparams (path sp)). reflexivity.
Qed.

(** A URL that starts with "http://" parses with the scheme "http". *)
Lemma urlparse_http_scheme (ip : string -> option ip_version) (rest : string)
      (p : ParseResult) :
  urlparse ip ("http://" ++ rest) = Ok p -> scheme p = "http".
Proof.
  unfold urlparse. intro H. apply bind_ok in H as (sp & Hsp & H).
  assert (E : with_params sp = p) by congruence. subst p.
  rewrite with_params_scheme.
  rewrite urlsplit_http in Hsp by reflexivity.
  apply split_rest_inv in Hsp as (nl & tail & t1 & frag & pth & qry & _ & _ & _
                                   & _ & ->).
  reflexivity.
Qed.

Lemma try_https_upgrade_http (w : World) (rest : string) (p : ParseResult) :
  urlparse (ip_address w) ("http://" ++ rest) = Ok p ->
  try_https_upgrade w ("http://" ++ rest) = Ok ("https://" ++ rest).
Proof.
  intro H. unfold try_https_upgrade. rewrite H. cbn [bind].
  rewrite (urlparse_http_scheme _ _ _ H). reflexivity.
Qed.

(** The first answer is unusable, the upgraded URL answers: the run goes on
    with the upgraded URL and with the HTTPS flag set. *)
Lemma fetch_page_upgraded (w : World) (rest : string) (p : ParseResult)
      (b : bool) (st st' : St) (f : Fetched) :
  urlparse (ip_address w) ("http://" ++ rest) = Ok p ->
  truthy (fetch w ("http://" ++ rest)) = false ->
  truthy (fetch w ("https://" ++ rest)) = true ->
  fetch_page w ("http://" ++ rest) b st = Ok (st', f) ->
  f = mkFetched (fetch w ("https://" ++ rest)) ("https://" ++ rest) true.
Proof.
  intros Hp H1 H2. unfold fetch_page.
  rewrite H1, (try_https_upgrade_http w rest p Hp). cbn [bind].
  change (negb ("https://" ++ rest =? "http://" ++ rest)%string) with true.
  cbv iota. rewrite H2. intro H.
  apply bind_ok in H as (x & _ & H). congruence.
Qed.

Lemma soup_checks_picked_password (w : World) (d : string) (soup : Soup)
      (a : Acc) :
  picked (Weighted password_over_http)
         (ledger (fst (soup_checks w d true soup a))) =
  picked (Weighted password_over_http) (ledger (fst a)).
Proof.
  unfold soup_checks.
  rewrite (extends_picked_other _ (Weighted password_over_http) _ _
             (scripts_check_extends w soup _) eq_refl).
  rewrite (extends_picked_other _ (Weighted password_over_http) _ _
             (iframes_check_extends soup _) eq_refl).
  rewrite (extends_picked_other _ (Weighted password_over_http) _ _
             (externals_check_extends w d soup _) eq_refl).
  assert (P : forall x : Acc, password_check true soup x = x)
    by (intros [st src]; reflexivity).
  rewrite P.
  rewrite (extends_picked_other _ (Weighted password_over_http) _ _
             (mailto_check_extends soup _) eq_refl).
  rewrite (extends_picked_other _ (Weighted password_over_http) _ _
             (forms_check_extends w d soup _) eq_refl).
  rewrite (extends_picked_other _ (Weighted password_over_http) _ _
             (favicon_check_extends w d soup _) eq_refl).
  rewrite (extends_picked_other _ (Weighted password_over_http) _ _
             (title_check_extends d soup _) eq_refl).
  reflexivity.
Qed.

(** C10.  When the first fetch of a plain-HTTP URL gives nothing usable and
    the fetch of the upgraded URL does, the report carries the upgraded
    "https://" URL as its normalized URL and says that HTTPS is used; the
    password check then runs under that flag and records nothing, whatever
    the page contains. *)
Theorem https_upgrade_disarms_password_check (w : World) (url n : string)
        (r : Run) :
  analyze_run w url = Ok r ->
  trusted_domain (context (report r)) = false ->
  normalize_url w url = Ok n ->
  Str.startswith "http://" n = true ->
  truthy (fetch w n) = false ->
  truthy (fetch w ("https://" ++ Str.drop 7 n)) = true ->
  normalized_url (report r) = "https://" ++ Str.drop 7 n /\
  uses_https (context (report r)) = true /\
  picked (Weighted password_over_http) (run_ledger r) = [] /\
  triggered password_over_http r = false.
Proof.
  intros H Hf Hn Hs Hfail Hok.
  apply analyze_run_inv in H.
  destruct H as [n' parsed Hn' Hp Ht Hr | n' parsed st1 st2 st4 st5 tld dns age
                                           fetched Hn' Hp Ht H1 H2 H4 H5 Hr].
  { subst r. simpl in Hf. discriminate. }
  assert (n' = n) by congruence. subst n'.
  pose proof (startswith_app _ _ Hs) as En.
  change (String.length "http://") with 7%nat in En.
  set (rest := Str.drop 7 n) in *.
  rewrite En in Hp, H5, Hfail.
  pose proof (fetch_page_upgraded w rest parsed _ _ _ _ Hp Hfail Hok H5) as Ef.
  rewrite <- En in Hp, H5.
  pose proof (final_report_fields url (host_of parsed) (fst (domain_parts w n))
                tld dns age fetched
                (page_checks w (fst (domain_parts w n)) fetched st5))
    as (_ & Fn & _ & _ & _ & _ & _ & _ & Fc & _).
  pose proof (before_page_extends _ _ _ _ _ _ _ _ _ _ _ H1 H2 H4 H5) as Hbefore.
  assert (P : picked (Weighted password_over_http) (run_ledger r) = []).
  { subst r. cbn [run_ledger]. unfold page_checks.
    destruct (page_of w (f_resp fetched)) as [soup|].
    - rewrite Ef. cbn [f_uses_https].
      rewrite soup_checks_picked_password. cbn [fst].
      now rewrite (extends_picked_other _ (Weighted password_over_http) _ _
                     Hbefore eq_refl).
    - cbn [fst].
      now rewrite (extends_picked_other _ (Weighted password_over_http) _ _
                     Hbefore eq_refl). }
  split; [|split; [|split]].
  - subst r. cbn [report]. rewrite Fn, Ef. reflexivity.
  - subst r. cbn [report]. rewrite Fc, Ef. reflexivity.
  - exact P.
  - unfold triggered. now rewrite P.
Qed.

Lemma https_upgrade_disarms_password_check_witness :
  exists r,
    analyze_run https_only "http://login.example.com/" = Ok r /\
    run_page r = Some login_page /\
    normalized_url (report r) = "https://login.example.com/" /\
    uses_https (context (report r)) = true /\
    picked (Weighted password_over_http) (run_ledger r) = [] /\
    triggered password_over_http r = false.
Proof.
  eexists. split; [vm_compute; reflexivity|].
  split; [vm_compute; reflexivity|].
  apply (https_upgrade_disarms_password_check https_only
           "http://login.example.com/" "http://login.example.com/");
    vm_compute; reflexivity.
Defined.

(** The same page served over plain HTTP does set the password check off. *)
Lemma password_check_fires_over_http :
  exists r,
    analyze_run http_login "http://login.example.com/" = Ok r /\
    uses_https (context (report r)) = false /\
    triggered password_over_http r = true.
Proof.
  eexists. split; [vm_compute; reflexivity|].
  split; vm_compute; reflexivity.
Qed.

(** * Further facts about the program *)

(** ** The shape of a normalized URL *)

Lemma not_delim_no_hash (s : string) :
  Str.forallb not_delim s = true -> Str.mem "#" s = false.
Proof.
  induction s as [|c s IH]; [reflexivity|]. cbn [Str.forallb].
  intro H. apply andb_prop in H as [Hc Hs].
  unfold Str.mem. cbn [Str.existsb]. fold (Str.mem "#" s). rewrite (IH Hs).
  destruct (Ascii.eqb "#" c) eqn:E; [|reflexivity].
  apply Ascii.eqb_eq in E. subst c. discriminate Hc.
Qed.

Lemma split_rest_no_fragment_mark (ip : string -> option ip_version)
      (sch R : string) (sp : ParseResult) :
  split_rest ip sch ("//" ++ R) = Ok sp ->
  Str.mem "#" (canonical_rest sp) = false.
Proof.
  intro H.
  destruct (split_rest_inv _ _ _ _ H)
    as (nl & tail & t1 & frag & pth & qry & S & N & C1 & C2 & ->).
  unfold canonical_rest. cbn [netloc path query].
  apply span_spec in S as (HR & Fnl & Hd).
  apply cut_spec in C1 as [M1 E1]. apply cut_spec in C2 as [M2 E2].
  pose proof (rejoin_split_if pth) as HP.
  assert (Mq : Str.mem "#" pth = false /\ Str.mem "#" (query_suffix qry) = false).
  { destruct E2 as [[-> ->] | ->]; [auto|].
    rewrite mem_app in M1. apply orb_false_elim in M1 as [A B].
    split; [exact A|]. unfold query_suffix. destruct qry; [reflexivity|].
    exact B. }
  destruct Mq as [Mp Mq].
  rewrite !mem_app, (not_delim_no_hash nl Fnl), Mq,
    (mem_prefix _ pth _ Mp HP). reflexivity.
Qed.

(** [urlunsplit] on an http or https parse without fragment: the network
    location follows two slashes, unless it is empty and the path brings
    its own two slashes. *)
Lemma urlunsplit_http_cases (sch nl P qry : string) :
  sch = "http" \/ sch = "https" ->
  rooted P ->
  urlunsplit sch nl P qry EmptyString =
    sch ++ "://" ++ nl ++ P ++ query_suffix qry \/
  (nl = EmptyString /\ Str.startswith "//" P = true /\
   urlunsplit sch nl P qry EmptyString = sch ++ ":" ++ P ++ query_suffix qry).
Proof.
  intros Hs RP.
  destruct nl as [|c nl].
  - destruct (Str.startswith "//" P) eqn:E.
    + right. split; [reflexivity|]. split; [reflexivity|].
      unfold urlunsplit, query_suffix. rewrite E.
      destruct Hs as [-> | ->]; destruct qry as [|x q]; simpl;
        rewrite ?append_nil_r, ?append_assoc; reflexivity.
    + left. apply urlunsplit_http; auto.
  - left. apply urlunsplit_http; auto. left. discriminate.
Qed.

Lemma normalize_url_facts (w : World) (u r : string) :
  normalize_url w u = Ok r ->
  (Str.startswith "http://" r = true \/ Str.startswith "https://" r = true) /\
  Str.mem "#" r = false /\
  Str.forallb keep_url_byte r = true.
Proof.
  unfold normalize_url. cbv zeta. intro H.
  apply bind_ok in H as (q & Hq & Hr).
  assert (Er : geturl (replace_fragment EmptyString q) = r) by congruence.
  clear Hr. unfold urlparse in Hq. apply bind_ok in Hq as (sp & Hsp & Hq).
  assert (Eq : with_params sp = q) by congruence. clear Hq.
  destruct (urlsplit_of_http (ip_address w) _
              (with_default_scheme_has (Str.strip u)))
    as (sch & R & Hs & FR & Hsplit).
  rewrite Hsplit in Hsp.
  destruct (split_rest_inv _ _ _ _ Hsp)
    as (nl & tail & t1 & frag & pth & qry & _ & _ & _ & _ & Esp).
  assert (Esch : scheme sp = sch) by (subst sp; reflexivity).
  assert (Eprm : params sp = EmptyString) by (subst sp; reflexivity).
  destruct (split_rest_canonical _ _ _ _ Hsp) as (FR' & RP & _).
  specialize (FR' FR).
  pose proof (split_rest_no_fragment_mark _ _ _ _ Hsp) as MH.
  rewrite <- Er, <- Eq, (geturl_with_params sch sp Hs Esch Eprm).
  unfold canonical_rest in FR', MH.
  set (P := rejoin_pair (split_if (path sp))) in *.
  destruct (urlunsplit_http_cases sch (netloc sp) P (query sp) Hs RP)
    as [E | (En & EP & E)]; rewrite E.
  - split; [|split].
    + destruct Hs as [-> | ->]; [left | right]; reflexivity.
    + destruct Hs as [-> | ->]; cbn; exact MH.
    + destruct Hs as [-> | ->]; cbn; exact FR'.
  - rewrite En in FR', MH. cbn [append] in FR', MH.
    split; [|split].
    + rewrite (startswith_app _ _ EP).
      destruct Hs as [-> | ->]; [left | right]; reflexivity.
    + destruct Hs as [-> | ->]; cbn; exact MH.
    + destruct Hs as [-> | ->]; cbn; exact FR'.
Qed.

(** X1.  On an input whose code points are all below 256 (the strings of
    this embedding), a URL that [normalize_url] returns starts with
    "http://" or "https://" in lower case, has no fragment mark left in it,
    and has no tab, carriage return or line feed.  The bound matters: matched
    without regard to case, the pattern of line 155 also takes U+017F for
    its "s", and such an input comes back with the scheme it was given. *)
Theorem normalize_url_shape (w : World) (u r : string) :
  normalize_url w u = Ok r ->
  (Str.startswith "http://" r = true \/ Str.startswith "https://" r = true) /\
  Str.mem "#" r = false /\
  Str.forallb keep_url_byte r = true.
Proof. exact (normalize_url_facts w u r). Qed.

Lemma normalize_url_shape_witness :
  (Str.startswith "http://" "http://Example.com/a b?x=1" = true \/
   Str.startswith "https://" "http://Example.com/a b?x=1" = true) /\
  Str.mem "#" "http://Example.com/a b?x=1" = false /\
  Str.forallb keep_url_byte "http://Example.com/a b?x=1" = true.
Proof.
  apply (normalize_url_shape offline "  Example.com/a b?x=1#top ").
  vm_compute. reflexivity.
Defined.

(** ** When [analyze] returns *)

Lemma after_first_scheme (r : string) :
  Str.startswith "http://" r = true \/ Str.startswith "https://" r = true ->
  exists rest, Str.after_first "://" r = Some rest.
Proof.
  intros [H | H]; apply startswith_app in H; rewrite H; eexists; reflexivity.
Qed.

Lemma resolved_hosts_check_total (w : World) (d : string) :
  (forall h, exists b, is_ip w h = Ok b) ->
  forall hosts st, exists st', resolved_hosts_check w d hosts st = Ok st'.
Proof.
  intros Hip hosts. induction hosts as [|h hosts IH]; intro st;
    cbn [resolved_hosts_check].
  - eexists; reflexivity.
  - destruct (Hip h) as [b Hb]. rewrite Hb. cbn [bind].
    destruct b; apply IH.
Qed.

Lemma split_rest_other_scheme (ip : string -> option ip_version)
      (s1 s2 x : string) (sp : ParseResult) :
  split_rest ip s1 x = Ok sp ->
  split_rest ip s2 x =
  Ok (mkParse s2 (netloc sp) (path sp) (params sp) (query sp) (fragment sp)).
Proof.
  unfold split_rest. destruct (split_authority ip x) as [[nl rest]|e];
    [|discriminate].
  cbn [bind]. destruct (cut "#" rest) as [t1 frag].
  destruct (cut "?" t1) as [pth qry]. intro H.
  assert (E : sp = mkParse s1 nl pth EmptyString qry frag) by congruence.
  subst sp. reflexivity.
Qed.

Lemma urlparse_https_scheme (ip : string -> option ip_version) (rest : string)
      (p : ParseResult) :
  urlparse ip ("https://" ++ rest) = Ok p -> scheme p = "https".
Proof.
  unfold urlparse. intro H. apply bind_ok in H as (sp & Hsp & H).
  assert (E : with_params sp = p) by congruence. subst p.
  rewrite with_params_scheme.
  rewrite urlsplit_https in Hsp by reflexivity.
  apply split_rest_inv in Hsp as (nl & tail & t1 & frag & pth & qry & _ & _ & _
                                   & _ & ->).
  reflexivity.
Qed.

(** The upgraded URL parses whenever the plain one does. *)
Lemma urlparse_upgrade_ok (ip : string -> option ip_version) (rest : string)
      (p : ParseResult) :
  urlparse ip ("http://" ++ rest) = Ok p ->
  exists p', urlparse ip ("https://" ++ rest) = Ok p'.
Proof.
  unfold urlparse. intro H. apply bind_ok in H as (sp & Hsp & _).
  rewrite urlsplit_http in Hsp by reflexivity.
  rewrite urlsplit_https by reflexivity.
  change (Str.drop 7 ("http://" ++ rest)) with rest in Hsp.
  change (Str.drop 8 ("https://" ++ rest)) with rest.
  rewrite (split_rest_other_scheme ip "http" "https" _ sp Hsp). cbn [bind].
  eexists; reflexivity.
Qed.

Lemma fetch_page_total (w : World) (n : string) (parsed : ParseResult)
      (b : bool) (st : St) :
  Str.startswith "http://" n = true \/ Str.startswith "https://" n = true ->
  urlparse (ip_address w) n = Ok parsed ->
  exists st' f, fetch_page w n b st = Ok (st', f).
Proof.
  intros Hshape Hp. unfold fetch_page.
  destruct (truthy (fetch w n)); [eexists; eexists; reflexivity|].
  unfold try_https_upgrade. rewrite Hp. cbn [bind].
  destruct (String.eqb (scheme parsed) "http") eqn:E; cbn [bind].
  - destruct Hshape as [H | H]; apply startswith_app in H;
      cbn [String.length] in H.
    + rewrite H in Hp |- *.
      change (Str.replace_first "http://" "https://"
                ("http://" ++ Str.drop 7 n))
        with ("https://" ++ Str.drop 7 n).
      change (negb ("https://" ++ Str.drop 7 n =? "http://" ++ Str.drop 7 n)%string)
        with true.
      cbv iota.
      destruct (urlparse_upgrade_ok _ _ _ Hp) as [p' Hp'].
      destruct (truthy (fetch w ("https://" ++ Str.drop 7 n)));
        [rewrite Hp'; cbn [bind]|]; eexists; eexists; reflexivity.
    + rewrite H in Hp. apply urlparse_https_scheme in Hp.
      rewrite Hp in E. discriminate E.
  - rewrite String.eqb_refl. cbn [negb]. eexists; eexists; reflexivity.
Qed.

(** X2.  The exceptions that can leave [analyze] are those of the two URL
    parses, of the socket address parsers (anything but [OSError]) and of
    the indexing of an empty creation-date list: when the URL normalizes
    and parses, the address parsers answer on every string and the age of
    every registration record can be computed, [analyze] returns a report. *)
Theorem analyze_returns_report (w : World) (url n : string)
        (parsed : ParseResult) :
  normalize_url w url = Ok n ->
  urlparse (ip_address w) n = Ok parsed ->
  (forall h, exists b, is_ip w h = Ok b) ->
  (forall d, exists a, domain_age_days w (get_whois w d) = Ok a) ->
  exists r, analyze_run w url = Ok r /\ analyze w url = Ok (report r).
Proof.
  intros Hn Hp Hip Hage.
  assert (A : exists r, analyze_run w url = Ok r).
  { destruct (normalize_url_facts w url n Hn) as (Hshape & _ & _).
    unfold analyze_run. rewrite Hn. cbn [bind]. rewrite Hp. cbn [bind].
    destruct (is_trusted_domain (fst (domain_parts w n)));
      [eexists; reflexivity|].
    set (h := host_of parsed). set (d := fst (domain_parts w n)).
    assert (U : exists st1 tld, url_checks w n h d st0 = Ok (st1, tld)).
    { unfold url_checks. destruct (Hip h) as [b Hb]. rewrite Hb. cbn [bind].
      destruct (after_first_scheme n Hshape) as [rest Hrest]. rewrite Hrest.
      cbn [bind]. eexists; eexists; reflexivity. }
    destruct U as (st1 & tld & U). rewrite U. cbn [bind].
    assert (D : exists st2 dns, dns_checks w h d st1 = Ok (st2, dns)).
    { unfold dns_checks. destruct (get_dns_a w h) as [[[nm al] hosts]|].
      - destruct (resolved_hosts_check_total w d Hip hosts
                    (call (CallDns h) st1)) as [st2 H2].
        rewrite H2. cbn [bind]. eexists; eexists; reflexivity.
      - eexists; eexists; reflexivity. }
    destruct D as (st2 & dns & D). rewrite D. cbn [bind].
    assert (W : exists st4 age,
               whois_checks w d (tls_checks w h (uses_https_of parsed) st2)
               = Ok (st4, age)).
    { unfold whois_checks. destruct (Hage d) as [a Ha]. rewrite Ha. cbn [bind].
      eexists; eexists; reflexivity. }
    destruct W as (st4 & age & W). rewrite W. cbn [bind].
    destruct (fetch_page_total w n parsed (uses_https_of parsed) st4 Hshape Hp)
      as (st5 & f & F).
    rewrite F. cbn [bind]. eexists; reflexivity. }
  destruct A as [r A]. exists r. split; [exact A|].
  unfold analyze. rewrite A. reflexivity.
Qed.

Lemma analyze_returns_report_witness :
  exists r,
    analyze_run six_labels "http://a.b.c.d.example.com" = Ok r /\
    analyze six_labels "http://a.b.c.d.example.com" = Ok (report r).
Proof.
  apply (analyze_returns_report six_labels "http://a.b.c.d.example.com"
           "http://a.b.c.d.example.com"
           (mkParse "http" "a.b.c.d.example.com" EmptyString EmptyString
                    EmptyString EmptyString)).
  - vm_compute. reflexivity.
  - vm_compute. reflexivity.
  - intro h. eexists. reflexivity.
  - intro d. eexists. reflexivity.
Defined.

(** ** The network operations of a full analysis *)

Lemma try_https_upgrade_cases (w : World) (u n r : string) :
  normalize_url w u = Ok n ->
  try_https_upgrade w n = Ok r ->
  (Str.startswith "http://" n = true /\ r = "https://" ++ Str.drop 7 n) \/
  (Str.startswith "https://" n = true /\ r = n).
Proof.
  intros Hn Hr. destruct (normalize_url_facts w u n Hn) as ([S | S] & _ & _).
  - left. split; [exact S|].
    pose proof (startswith_app _ _ S) as E. cbn [String.length] in E.
    unfold try_https_upgrade in Hr. apply bind_ok in Hr as (p & Hp & Hr).
    rewrite E in Hp. rewrite (urlparse_http_scheme _ _ _ Hp) in Hr.
    cbn in Hr. rewrite E in Hr.
    change (Str.replace_first "http://" "https://" ("http://" ++ Str.drop 7 n))
      with ("https://" ++ Str.drop 7 n) in Hr.
    congruence.
  - right. split; [exact S|].
    pose proof (startswith_app _ _ S) as E. cbn [String.length] in E.
    unfold try_https_upgrade in Hr. apply bind_ok in Hr as (p & Hp & Hr).
    rewrite E in Hp. rewrite (urlparse_https_scheme _ _ _ Hp) in Hr.
    cbn in Hr. congruence.
Qed.

(** An https URL is fetched once, whatever the answer. *)
Lemma fetch_page_https (w : World) (u n : string) (b : bool) (st st' : St)
      (f : Fetched) :
  normalize_url w u = Ok n ->
  Str.startswith "https://" n = true ->
  fetch_page w n b st = Ok (st', f) ->
  st' = call (CallFetch n) st /\ f = mkFetched (fetch w n) n b.
Proof.
  intros Hn S. unfold fetch_page.
  destruct (truthy (fetch w n)); intro H.
  - split; congruence.
  - apply bind_ok in H as (r & Hr & H).
    destruct (try_https_upgrade_cases w u n r Hn Hr) as [[S' _] | [_ ->]].
    + pose proof (startswith_app _ _ S) as E.
      pose proof (startswith_app _ _ S') as E'.
      cbn [String.length] in E, E'. rewrite E in E'. discriminate E'.
    + rewrite String.eqb_refl in H. cbn [negb] in H. split; congruence.
Qed.

(** X3.  A full analysis asks the resolver, the TLS port (also for a plain
    HTTP URL) and WHOIS once each, in this order, and then fetches the page;
    a second fetch happens only for an "http://" URL whose first answer was
    unusable, and it goes to the same URL with the scheme "https". *)
Theorem network_calls_in_order (w : World) (url n : string) (r : Run) :
  analyze_run w url = Ok r ->
  trusted_domain (context (report r)) = false ->
  normalize_url w url = Ok n ->
  exists fetches,
    run_calls r =
      ([CallDns (host (report r)); CallTls (host (report r));
        CallWhois (domain (report r))] ++ fetches)%list /\
    (fetches = [CallFetch n] \/
     (Str.startswith "http://" n = true /\ truthy (fetch w n) = false /\
      fetches = [CallFetch n; CallFetch ("https://" ++ Str.drop 7 n)])).
Proof.
  intros H Hf Hn. apply analyze_run_inv in H.
  destruct H as [n' parsed Hn' Hp Ht Hr | n' parsed st1 st2 st4 st5 tld dns age
                                           fetched Hn' Hp Ht H1 H2 H4 H5 Hr].
  { subst r. discriminate Hf. }
  assert (n' = n) by congruence. subst n'.
  pose proof (final_report_fields url (host_of parsed) (fst (domain_parts w n))
                tld dns age fetched
                (page_checks w (fst (domain_parts w n)) fetched st5))
    as (_ & _ & Fh & Fd & _).
  subst r. cbn [report run_calls]. rewrite Fh, Fd, page_checks_calls.
  apply url_checks_calls in H1. apply dns_checks_calls in H2.
  apply whois_checks_calls in H4.
  rewrite tls_checks_calls, H2, H1 in H4. cbn in H4.
  destruct (fetch_page_calls _ _ _ _ _ _ H5)
    as [C | (u & Hu & Hne & Hfail & C)]; rewrite C, H4.
  - exists [CallFetch n]. split; [reflexivity | now left].
  - destruct (try_https_upgrade_cases w url n u Hn Hu) as [[S ->] | [_ E]];
      [|contradiction].
    exists [CallFetch n; CallFetch ("https://" ++ Str.drop 7 n)].
    split; [reflexivity|]. right. auto.
Qed.

Lemma network_calls_in_order_witness :
  exists r,
    analyze_run https_only "http://login.example.com/" = Ok r /\
    exists fetches,
      run_calls r =
        ([CallDns (host (report r)); CallTls (host (report r));
          CallWhois (domain (report r))] ++ fetches)%list /\
      (fetches = [CallFetch "http://login.example.com/"] \/
       (Str.startswith "http://" "http://login.example.com/" = true /\
        truthy (fetch https_only "http://login.example.com/") = false /\
        fetches = [CallFetch "http://login.example.com/";
                   CallFetch ("https://" ++
                              Str.drop 7 "http://login.example.com/")])).
Proof.
  eexists. split; [vm_compute; reflexivity|].
  apply (network_calls_in_order https_only "http://login.example.com/"
           "http://login.example.com/"); vm_compute; reflexivity.
Defined.

(** X4.  An "https://" URL is never retried: the page is fetched once, and
    the report keeps the normalized URL and says that HTTPS is used. *)
Theorem https_url_fetched_once (w : World) (url n : string) (r : Run) :
  analyze_run w url = Ok r ->
  trusted_domain (context (report r)) = false ->
  normalize_url w url = Ok n ->
  Str.startswith "https://" n = true ->
  run_calls r =
    [CallDns (host (report r)); CallTls (host (report r));
     CallWhois (domain (report r)); CallFetch n] /\
  normalized_url (report r) = n /\
  uses_https (context (report r)) = true.
Proof.
  intros H Hf Hn S. apply analyze_run_inv in H.
  destruct H as [n' parsed Hn' Hp Ht Hr | n' parsed st1 st2 st4 st5 tld dns age
                                           fetched Hn' Hp Ht H1 H2 H4 H5 Hr].
  { subst r. discriminate Hf. }
  assert (n' = n) by congruence. subst n'.
  pose proof (final_report_fields url (host_of parsed) (fst (domain_parts w n))
                tld dns age fetched
                (page_checks w (fst (domain_parts w n)) fetched st5))
    as (_ & Fn & Fh & Fd & _ & _ & _ & _ & Fc & _).
  destruct (fetch_page_https w url n _ _ _ _ Hn S H5) as [E5 Ef].
  subst r. cbn [report run_calls]. rewrite Fh, Fd, Fn, Fc, page_checks_calls.
  apply url_checks_calls in H1. apply dns_checks_calls in H2.
  apply whois_checks_calls in H4.
  rewrite tls_checks_calls, H2, H1 in H4. cbn in H4.
  rewrite E5, Ef. cbn [calls call f_normalized f_uses_https uses_https].
  rewrite H4. split; [reflexivity|]. split; [reflexivity|].
  pose proof (startswith_app _ _ S) as E. cbn [String.length] in E.
  rewrite E in Hp. unfold uses_https_of.
  rewrite (urlparse_https_scheme _ _ _ Hp). reflexivity.
Qed.

Lemma https_url_fetched_once_witness :
  exists r,
    analyze_run trusted_offline "https://unknown.example/" = Ok r /\
    run_calls r =
      [CallDns (host (report r)); CallTls (host (report r));
       CallWhois (domain (report r)); CallFetch "https://unknown.example/"] /\
    normalized_url (report r) = "https://unknown.example/" /\
    uses_https (context (report r)) = true.
Proof.
  eexists. split; [vm_compute; reflexivity|].
  apply (https_url_fetched_once trusted_offline "https://unknown.example/"
           "https://unknown.example/"); vm_compute; reflexivity.
Defined.

(** ** The TLS stage *)

Import Registry.

(** Nothing before the TLS stage comes from its sites, and nothing after it
    does. *)
Lemma tls_stage_picked (w : World) (n : string) (parsed : ParseResult)
      (st1 st2 st4 st5 : St) tld dns age fetched (sg : Signal) :
  url_checks w n (host_of parsed) (fst (domain_parts w n)) st0 = Ok (st1, tld) ->
  dns_checks w (host_of parsed) (fst (domain_parts w n)) st1 = Ok (st2, dns) ->
  whois_checks w (fst (domain_parts w n))
    (tls_checks w (host_of parsed) (uses_https_of parsed) st2) = Ok (st4, age) ->
  fetch_page w n (uses_https_of parsed) st4 = Ok (st5, fetched) ->
  tls_sig sg = true ->
  picked sg (ledger st2) = [] /\
  picked sg (ledger (fst (page_checks w (fst (domain_parts w n)) fetched st5))) =
  picked sg (ledger (tls_checks w (host_of parsed) (uses_https_of parsed) st2)).
Proof.
  intros H1 H2 H4 H5 Hsg.
  apply url_checks_extends in H1. apply dns_checks_extends in H2.
  apply whois_checks_extends in H4. apply fetch_page_extends in H5.
  pose proof (page_checks_extends w (fst (domain_parts w n)) fetched st5) as H6.
  assert (N : forall p, (forall s, p s = true -> not_sig tls_sig s = true) ->
                        forall a b, extends p a b ->
                                    picked sg (ledger b) = picked sg (ledger a)).
  { intros p Hp a b Hab.
    apply (extends_picked_other (not_sig tls_sig) sg a b).
    - exact (extends_weaken _ _ _ _ Hp Hab).
    - unfold not_sig. now rewrite Hsg. }
  split.
  - rewrite (N dns_sig ltac:(sig_incl) _ _ H2).
    rewrite (N url_sig ltac:(sig_incl) _ _ H1). reflexivity.
  - rewrite (N page_sig ltac:(sig_incl) _ _ H6).
    rewrite (N no_sig ltac:(sig_incl) _ _ H5).
    rewrite (N whois_sig ltac:(sig_incl) _ _ H4). reflexivity.
Qed.

(** X5.  A URL that normalizes to "http://..." always gets the HIGH finding
    "No HTTPS (plain HTTP)", once and with weight 0; this is decided before
    the page is fetched, so the finding stays in the report when the fetch
    was upgraded and the report says that HTTPS is used. *)
Theorem plain_http_always_reported (w : World) (url n : string) (r : Run) :
  analyze_run w url = Ok r ->
  trusted_domain (context (report r)) = false ->
  normalize_url w url = Ok n ->
  Str.startswith "http://" n = true ->
  picked (Weighted no_https) (run_ledger r) = [no_https_entry] /\
  In (HIGH, "No HTTPS (plain HTTP).", []) (threats (report r)).
Proof.
  intros H Hf Hn S.
  pose proof (run_ledger_sound w url r H) as [T _].
  apply analyze_run_inv in H.
  destruct H as [n' parsed Hn' Hp Ht Hr | n' parsed st1 st2 st4 st5 tld dns age
                                           fetched Hn' Hp Ht H1 H2 H4 H5 Hr].
  { subst r. discriminate Hf. }
  assert (n' = n) by congruence. subst n'.
  destruct (tls_stage_picked _ _ _ _ _ _ _ _ _ _ _ (Weighted no_https)
              H1 H2 H4 H5 eq_refl) as [B A].
  assert (P : picked (Weighted no_https) (run_ledger r) = [no_https_entry]).
  { subst r. cbn [run_ledger]. rewrite A.
    pose proof (startswith_app _ _ S) as E. cbn [String.length] in E.
    rewrite E in Hp. unfold uses_https_of.
    rewrite (urlparse_http_scheme _ _ _ Hp). unfold tls_checks.
    change (negb (Str.lower "http" =? "https")%string) with true. cbv iota.
    unfold flag. rewrite picked_hit, picked_call, B. reflexivity. }
  split; [exact P|].
  rewrite T.
  change (HIGH, "No HTTPS (plain HTTP).", @nil (string * PyVal))
    with (e_finding no_https_entry).
  apply in_map.
  assert (I : In no_https_entry (picked (Weighted no_https) (run_ledger r)))
    by (rewrite P; now left).
  unfold picked in I. apply filter_In in I. tauto.
Qed.

Lemma plain_http_always_reported_witness :
  exists r,
    analyze_run https_only "http://login.example.com/" = Ok r /\
    uses_https (context (report r)) = true /\
    picked (Weighted no_https) (run_ledger r) = [no_https_entry] /\
    In (HIGH, "No HTTPS (plain HTTP).", []) (threats (report r)).
Proof.
  eexists. split; [vm_compute; reflexivity|].
  split; [vm_compute; reflexivity|].
  apply (plain_http_always_reported https_only "http://login.example.com/"
           "http://login.example.com/"); vm_compute; reflexivity.
Defined.

(** ** Weights and severities *)

Lemma signal_weight_bounds (sg : Signal) :
  0 <= signal_weight sg <= severity_cap (signal_severity sg).
Proof. destruct sg as [[]|]; cbn; lia. Qed.

Lemma severity_cap_le (s : Severity) : 0 <= severity_cap s <= 10.
Proof. destruct s; cbn; lia. Qed.

Lemma ledger_weight_bounds (l : list Entry) :
  Forall entry_ok l ->
  0 <= sum_weights l <= caps (map e_finding l) /\
  caps (map e_finding l) <= 10 * Z.of_nat (List.length l).
Proof.
  induction 1 as [|e l [Hw Hs] _ IH].
  - cbn. lia.
  - cbn [sum_weights caps map fold_right List.length].
    fold (sum_weights l). fold (caps (map e_finding l)).
    pose proof (signal_weight_bounds (e_signal e)) as B.
    pose proof (severity_cap_le (severity_of (e_finding e))) as C.
    rewrite Hw, Hs in *. lia.
Qed.

(** X6.  The score of a report is never negative, and it is bounded by its
    findings: a HIGH finding accounts for at most 10 points, a MEDIUM one
    for at most 8 and a LOW one for at most 5.  So a "Phishing" verdict
    rests on at least four findings and a "Suspicious" one on at least
    two. *)
Theorem risk_score_bounded_by_findings (w : World) (url : string) (r : Run) :
  analyze_run w url = Ok r ->
  0 <= risk_score (report r) <= caps (threats (report r)) /\
  caps (threats (report r)) <= 10 * Z.of_nat (List.length (threats (report r))) /\
  (verdict (report r) = "Phishing" ->
   (4 <= List.length (threats (report r)))%nat) /\
  (verdict (report r) = "Suspicious" ->
   (2 <= List.length (threats (report r)))%nat).
Proof.
  intro H.
  pose proof (run_ledger_sound w url r H) as [T S].
  pose proof (ledger_weight_bounds _ (run_ledger_ok w url r H)) as [B C].
  assert (V : verdict (report r) = verdict_of (risk_score (report r)) \/
              (verdict (report r) = "Likely safe")).
  { apply analyze_run_inv in H.
    destruct H as [n parsed Hn Hp Ht Hr | n parsed st1 st2 st4 st5 tld dns age
                                           fetched Hn Hp Ht H1 H2 H4 H5 Hr];
      subst r; cbn [report]; [now right|left].
    pose proof (final_report_fields url (host_of parsed)
                  (fst (domain_parts w n)) tld dns age fetched
                  (page_checks w (fst (domain_parts w n)) fetched st5))
      as (_ & _ & _ & _ & _ & Fv & Fs & _).
    now rewrite Fv, Fs. }
  rewrite S in V |- *. rewrite T, length_map.
  split; [exact B|]. split; [exact C|].
  split; intro E.
  - destruct V as [V | V]; [|rewrite V in E; discriminate E].
    rewrite V in E. unfold verdict_of in E.
    destruct (35 <=? sum_weights (run_ledger r)) eqn:L35.
    + apply Z.leb_le in L35. lia.
    + destruct (20 <=? sum_weights (run_ledger r)); discriminate E.
  - destruct V as [V | V]; [|rewrite V in E; discriminate E].
    rewrite V in E. unfold verdict_of in E.
    destruct (35 <=? sum_weights (run_ledger r)); [discriminate E|].
    destruct (20 <=? sum_weights (run_ledger r)) eqn:L20; [|discriminate E].
    apply Z.leb_le in L20. lia.
Qed.

Lemma risk_score_bounded_by_findings_witness :
  exists r,
    analyze_run thirteen_external_forms "http://shop.example.com/" = Ok r /\
    0 <= risk_score (report r) <= caps (threats (report r)) /\
    caps (threats (report r)) <= 10 * Z.of_nat (List.length (threats (report r))) /\
    (verdict (report r) = "Phishing" ->
     (4 <= List.length (threats (report r)))%nat) /\
    (verdict (report r) = "Suspicious" ->
     (2 <= List.length (threats (report r)))%nat).
Proof.
  eexists. split; [vm_compute; reflexivity|].
  apply (risk_score_bounded_by_findings thirteen_external_forms
           "http://shop.example.com/"). vm_compute. reflexivity.
Defined.

Lemma sum_weights_without_tls (l : list Entry) :
  Forall entry_ok l ->
  sum_weights l =
  sum_weights (List.filter (fun e => negb (tls_sig (e_signal e))) l).
Proof.
  induction 1 as [|e l [Hw _] _ IH]; [reflexivity|].
  cbn [List.filter]. rewrite sum_weights_cons.
  destruct (tls_sig (e_signal e)) eqn:T; cbn [negb].
  - assert (Z0 : signal_weight (e_signal e) = 0)
      by (destruct (e_signal e) as [[]|]; try discriminate T; reflexivity).
    rewrite Hw, Z0, <- IH. lia.
  - rewrite sum_weights_cons, <- IH. reflexivity.
Qed.

(** X7.  The findings of the TLS stage (no HTTPS, certificate invalid,
    short validity, expiring soon) never change the score: the score of a
    report is the sum of the weights of the other detections. *)
Theorem tls_findings_weigh_nothing (w : World) (url : string) (r : Run) :
  analyze_run w url = Ok r ->
  risk_score (report r) =
    sum_weights (List.filter (fun e => negb (tls_sig (e_signal e)))
                             (run_ledger r)) /\
  Forall (fun e => tls_sig (e_signal e) = true -> e_weight e = 0)
         (run_ledger r).
Proof.
  intro H.
  pose proof (run_ledger_sound w url r H) as [_ S].
  pose proof (run_ledger_ok w url r H) as K.
  split.
  - rewrite S. now apply sum_weights_without_tls.
  - eapply Forall_impl; [|exact K]. intros e [Hw _] T. rewrite Hw.
    destruct (e_signal e) as [[]|]; try discriminate T; reflexivity.
Qed.

Lemma tls_findings_weigh_nothing_witness :
  exists r,
    analyze_run https_only "http://login.example.com/" = Ok r /\
    risk_score (report r) =
      sum_weights (List.filter (fun e => negb (tls_sig (e_signal e)))
                               (run_ledger r)) /\
    Forall (fun e => tls_sig (e_signal e) = true -> e_weight e = 0)
           (run_ledger r).
Proof.
  eexists. split; [vm_compute; reflexivity|].
  apply (tls_findings_weigh_nothing https_only "http://login.example.com/").
  vm_compute. reflexivity.
Defined.

(** ** The WHOIS stage *)

Lemma whois_stage_picked (w : World) (n : string) (parsed : ParseResult)
      (st1 st2 st4 st5 : St) tld dns age fetched (sg : Signal) :
  url_checks w n (host_of parsed) (fst (domain_parts w n)) st0 = Ok (st1, tld) ->
  dns_checks w (host_of parsed) (fst (domain_parts w n)) st1 = Ok (st2, dns) ->
  whois_checks w (fst (domain_parts w n))
    (tls_checks w (host_of parsed) (uses_https_of parsed) st2) = Ok (st4, age) ->
  fetch_page w n (uses_https_of parsed) st4 = Ok (st5, fetched) ->
  whois_sig sg = true ->
  picked sg (ledger (tls_checks w (host_of parsed) (uses_https_of parsed) st2))
    = [] /\
  picked sg (ledger (fst (page_checks w (fst (domain_parts w n)) fetched st5))) =
  picked sg (ledger st4).
Proof.
  intros H1 H2 H4 H5 Hsg.
  apply url_checks_extends in H1. apply dns_checks_extends in H2.
  apply fetch_page_extends in H5.
  pose proof (tls_checks_extends w (host_of parsed) (uses_https_of parsed) st2)
    as H3.
  pose proof (page_checks_extends w (fst (domain_parts w n)) fetched st5) as H6.
  assert (N : forall p, (forall s, p s = true -> not_sig whois_sig s = true) ->
                        forall a b, extends p a b ->
                                    picked sg (ledger b) = picked sg (ledger a)).
  { intros p Hp a b Hab.
    apply (extends_picked_other (not_sig whois_sig) sg a b).
    - exact (extends_weaken _ _ _ _ Hp Hab).
    - unfold not_sig. now rewrite Hsg. }
  split.
  - rewrite (N tls_sig ltac:(sig_incl) _ _ H3).
    rewrite (N dns_sig ltac:(sig_incl) _ _ H2).
    rewrite (N url_sig ltac:(sig_incl) _ _ H1). reflexivity.
  - rewrite (N page_sig ltac:(sig_incl) _ _ H6).
    rewrite (N no_sig ltac:(sig_incl) _ _ H5). reflexivity.
Qed.

Lemma domain_age_days_nonneg (w : World) (wd : option Dict) (a : Z) :
  domain_age_days w wd = Ok (Some a) -> 0 <= a.
Proof.
  unfold domain_age_days. destruct wd as [[|kv d]|]; try discriminate.
  intro H. apply bind_ok in H as (c & _ & H).
  destruct c as [t|]; [|discriminate].
  assert (E : Z.max 0 (days_between (now_whois w) t) = a) by congruence.
  lia.
Qed.

(** X8.  The domain age of a report is unknown or at least 0 (a creation
    date that lies ahead of the clock counts as 0 days), and the run has a
    "Domain is new" detection exactly when the age is known and below 30:
    one MEDIUM finding of weight 4 that carries the age. *)
Theorem domain_age_reported (w : World) (url : string) (r : Run) :
  analyze_run w url = Ok r ->
  match domain_age_days_ctx (context (report r)) with
  | None => picked (Weighted domain_too_new) (run_ledger r) = []
  | Some a =>
      0 <= a /\
      picked (Weighted domain_too_new) (run_ledger r) =
        if a <? 30 then [age_entry a] else []
  end.
Proof.
  intro H. apply analyze_run_inv in H.
  destruct H as [n parsed Hn Hp Ht Hr | n parsed st1 st2 st4 st5 tld dns age
                                         fetched Hn Hp Ht H1 H2 H4 H5 Hr].
  { subst r. reflexivity. }
  destruct (whois_stage_picked _ _ _ _ _ _ _ _ _ _ _ (Weighted domain_too_new)
              H1 H2 H4 H5 eq_refl) as [B A].
  pose proof (final_report_fields url (host_of parsed) (fst (domain_parts w n))
                tld dns age fetched
                (page_checks w (fst (domain_parts w n)) fetched st5))
    as (_ & _ & _ & _ & _ & _ & _ & _ & Fc & _).
  subst r. cbn [report run_ledger]. rewrite Fc, A.
  cbn [domain_age_days_ctx].
  unfold whois_checks in H4. apply bind_ok in H4 as (a & Ha & H4).
  assert (Ea : a = age) by congruence. subst a.
  destruct age as [a|].
  - split; [exact (domain_age_days_nonneg _ _ _ Ha)|].
    assert (E4 : st4 = flag_if (a <? 30) domain_too_new
                   (MEDIUM, "Domain is new (" ++ Str.of_Z a ++ " days old).",
                    [("age_days", VInt a)])
                   (call (CallWhois (fst (domain_parts w n)))
                      (tls_checks w (host_of parsed) (uses_https_of parsed) st2)))
      by congruence.
    rewrite E4, picked_flag_if, picked_call, B.
    destruct (a <? 30); reflexivity.
  - assert (E4 : st4 = call (CallWhois (fst (domain_parts w n)))
                   (tls_checks w (host_of parsed) (uses_https_of parsed) st2))
      by congruence.
    rewrite E4, picked_call. exact B.
Qed.

Lemma domain_age_reported_witness :
  exists r,
    analyze_run clock_behind "http://shop.example.com/" = Ok r /\
    domain_age_days_ctx (context (report r)) = Some 0 /\
    match domain_age_days_ctx (context (report r)) with
    | None => picked (Weighted domain_too_new) (run_ledger r) = []
    | Some a =>
        0 <= a /\
        picked (Weighted domain_too_new) (run_ledger r) =
          if a <? 30 then [age_entry a] else []
    end.
Proof.
  eexists. split; [vm_compute; reflexivity|].
  split; [vm_compute; reflexivity|].
  apply (domain_age_reported clock_behind "http://shop.example.com/").
  vm_compute. reflexivity.
Defined.

(** X9.  [domain_age_days] indexes a list of creation dates without looking
    at its length: when the address parsers answer on every string, the
    site is not trusted and its WHOIS record carries an empty list of
    creation dates, [analyze] ends with an IndexError instead of a report. *)
Theorem empty_creation_dates_raise (w : World) (url n : string)
        (parsed : ParseResult) (record : Dict) :
  normalize_url w url = Ok n ->
  urlparse (ip_address w) n = Ok parsed ->
  is_trusted_domain (fst (domain_parts w n)) = false ->
  (forall h, exists b, is_ip w h = Ok b) ->
  get_whois w (fst (domain_parts w n)) = Some record ->
  lookup "creation_date" record = Some (VList []) ->
  domain_age_days w (Some record) = Raise IndexError /\
  analyze w url = Raise IndexError.
Proof.
  intros Hn Hp Ht Hip Hw Hl.
  assert (A : domain_age_days w (Some record) = Raise IndexError).
  { unfold domain_age_days. destruct record as [|kv record]; [discriminate Hl|].
    rewrite Hl. reflexivity. }
  split; [exact A|].
  destruct (normalize_url_facts w url n Hn) as (Hshape & _ & _).
  unfold analyze, analyze_run. rewrite Hn. cbn [bind]. rewrite Hp. cbn [bind].
  rewrite Ht.
  assert (U : exists st1 tld,
             url_checks w n (host_of parsed) (fst (domain_parts w n)) st0
             = Ok (st1, tld)).
  { unfold url_checks. destruct (Hip (host_of parsed)) as [b Hb]. rewrite Hb.
    cbn [bind].
    destruct (after_first_scheme n Hshape) as [rest Hrest]. rewrite Hrest.
    cbn [bind]. eexists; eexists; reflexivity. }
  destruct U as (st1 & tld & U). rewrite U. cbn [bind].
  assert (D : exists st2 dns,
             dns_checks w (host_of parsed) (fst (domain_parts w n)) st1
             = Ok (st2, dns)).
  { unfold dns_checks.
    destruct (get_dns_a w (host_of parsed)) as [[[nm al] hosts]|].
    - destruct (resolved_hosts_check_total w (fst (domain_parts w n)) Hip hosts
                  (call (CallDns (host_of parsed)) st1)) as [st2 H2].
      rewrite H2. cbn [bind]. eexists; eexists; reflexivity.
    - eexists; eexists; reflexivity. }
  destruct D as (st2 & dns & D). rewrite D. cbn [bind].
  unfold whois_checks. rewrite Hw, A. reflexivity.
Qed.

Lemma empty_creation_dates_raise_witness :
  domain_age_days no_creation_dates (Some [("creation_date", VList [])])
    = Raise IndexError /\
  analyze no_creation_dates "http://shop.example.com/" = Raise IndexError.
Proof.
  apply (empty_creation_dates_raise no_creation_dates
           "http://shop.example.com/" "http://shop.example.com/"
           (mkParse "http" "shop.example.com" "/" EmptyString EmptyString
                    EmptyString)).
  - vm_compute. reflexivity.
  - vm_compute. reflexivity.
  - vm_compute. reflexivity.
  - intro h. unfold is_ip. cbn.
    destruct (h =? "203.0.113.5")%string; eexists; reflexivity.
  - vm_compute. reflexivity.
  - vm_compute. reflexivity.
Defined.

(** ** The keyword rule *)

(** X10.  The keyword rule records at most one detection, however many of
    the listed keywords the URL contains: the one for the keyword that comes
    first in the list, looked for in the lower-cased normalized URL. *)
Theorem keyword_reported_once (w : World) (url n : string) (r : Run) :
  analyze_run w url = Ok r ->
  trusted_domain (context (report r)) = false ->
  normalize_url w url = Ok n ->
  picked (Weighted suspicious_keywords) (run_ledger r) =
    match List.find (fun kw => Str.contains kw (Str.lower n))
                    SUSPICIOUS_KEYWORDS with
    | Some kw => [keyword_entry kw]
    | None => []
    end.
Proof.
  intros H Hf Hn. apply analyze_run_inv in H.
  destruct H as [n' parsed Hn' Hp Ht Hr | n' parsed st1 st2 st4 st5 tld dns age
                                           fetched Hn' Hp Ht H1 H2 H4 H5 Hr].
  { subst r. discriminate Hf. }
  assert (n' = n) by congruence. subst n'.
  pose proof (after_url_extends _ _ _ _ _ _ _ _ _ _ H2 H4 H5) as A.
  subst r. cbn [run_ledger].
  rewrite (extends_picked_other _ (Weighted suspicious_keywords) _ _ A eq_refl).
  unfold url_checks in H1.
  apply bind_ok in H1 as (ip & _ & H1).
  apply bind_ok in H1 as (rest & _ & H1).
  fold (first_keyword n).
  assert (E : st1 =
    (fun st => match first_keyword n with
               | Some kw =>
                   flag suspicious_keywords
                     (LOW, "Suspicious keyword in URL: '" ++ kw ++ "'.",
                      [("keyword", VStr kw)]) st
               | None => st
               end)
      (flag_if (4 <=? Str.count "-" (host_of parsed)) many_hyphens
         (LOW, "Many hyphens in hostname.", [("host", VStr (host_of parsed))])
      (flag_if (Str.contains "//" rest) double_slash
         (LOW, "Double slash in path (can be used for obfuscation).", [])
      (flag_if (Str.mem "@" n) at_symbol
         (MEDIUM, "Contains '@' in URL (userinfo part).", [])
      (flag_if (180 <? Str.len n) url_length
         (LOW, "Long URL (" ++ Str.of_Z (Str.len n) ++ " chars).",
          [("url", VStr (Str.take 100 n ++ "..."))])
      (flag_if (in_list (tld_of w n) SUSPICIOUS_TLDS &&
                negb (is_legitimate_tld (tld_of w n))) suspicious_tld
         (LOW, "Suspicious TLD: ." ++ tld_of w n, [("tld", VStr (tld_of w n))])
      (flag_if (6 <=? sub_count (host_of parsed) (fst (domain_parts w n)))
         too_many_subdomains
         (many_subdomains_finding (host_of parsed)
            (sub_count (host_of parsed) (fst (domain_parts w n))))
      (flag_if (contains_unicode_homoglyphs (host_of parsed)) unicode_homoglyphs
         (LOW, "Non-ASCII characters in hostname; possible IDN homograph attempt.",
          [("host", VStr (host_of parsed))])
      (flag_if (Str.startswith "xn--" (host_of parsed) ||
                Str.contains ".xn--" (host_of parsed)) punycode
         (LOW, "Punycode (IDN) in hostname; potential homograph attack.",
          [("host", VStr (host_of parsed))])
      (flag_if ip ip_in_url
         (MEDIUM, "IP address used in URL (often used to hide identity).",
          [("host", VStr (host_of parsed))]) st0))))))))))
    by congruence.
  rewrite E. cbv beta.
  destruct (first_keyword n) as [kw|].
  - unfold flag. rewrite picked_hit. rewrite !picked_flag_if.
    cbn [Signal_beq WeightKey_beq andb]. rewrite !andb_false_r.
    reflexivity.
  - rewrite !picked_flag_if.
    cbn [Signal_beq WeightKey_beq andb]. rewrite !andb_false_r.
    reflexivity.
Qed.

Lemma keyword_reported_once_witness :
  exists r,
    analyze_run offline "http://pay.test/verify-account/login-secure" = Ok r /\
    picked (Weighted suspicious_keywords) (run_ledger r) =
      [keyword_entry "login-secure"].
Proof.
  eexists. split; [vm_compute; reflexivity|].
  apply (keyword_reported_once offline
           "http://pay.test/verify-account/login-secure"
           "http://pay.test/verify-account/login-secure");
    vm_compute; reflexivity.
Defined.

Import Pages.

(** ** The page and the sources of a report *)

(** X11.  When no page is inspected (no usable answer, a status other than
    200, or no parse tree), a full analysis reports the empty sources and
    has no detection from a page site. *)
Theorem uninspected_page_adds_nothing (w : World) (url : string) (r : Run) :
  analyze_run w url = Ok r ->
  trusted_domain (context (report r)) = false ->
  run_page r = None ->
  sources (report r) = Some sources0 /\
  Forall (fun e => page_sig (e_signal e) = false) (run_ledger r).
Proof.
  intros H Hf Hpage. apply analyze_run_inv in H.
  destruct H as [n parsed Hn Hp Ht Hr | n parsed st1 st2 st4 st5 tld dns age
                                         fetched Hn Hp Ht H1 H2 H4 H5 Hr].
  { subst r. discriminate Hf. }
  pose proof (before_page_extends _ _ _ _ _ _ _ _ _ _ _ H1 H2 H4 H5)
    as (d & L & _ & _ & P).
  subst r. cbn [run_page] in Hpage. cbn [report run_ledger].
  unfold final_report, page_checks. rewrite Hpage. cbn [fst sources].
  split; [reflexivity|].
  rewrite L. cbn [ledger st0 app].
  eapply Forall_impl; [|exact P]. intros e He. unfold not_sig in He.
  now destruct (page_sig (e_signal e)).
Qed.

Lemma uninspected_page_adds_nothing_witness :
  exists r,
    analyze_run six_labels "http://a.b.c.d.example.com" = Ok r /\
    sources (report r) = Some sources0 /\
    Forall (fun e => page_sig (e_signal e) = false) (run_ledger r).
Proof.
  eexists. split; [vm_compute; reflexivity|].
  apply (uninspected_page_adds_nothing six_labels "http://a.b.c.d.example.com");
    vm_compute; reflexivity.
Defined.

(** A check that records nothing at the six sites that [sources] follows,
    and leaves the lists and flags of [sources] alone, keeps the
    agreement. *)
Lemma agree_other (w : World) (p : Signal -> bool) (st st' : St)
      (src src' : Sources) :
  extends p st st' ->
  p (Weighted external_form_action) = false ->
  p (Weighted mailto_exfil) = false ->
  p (Weighted obfuscation) = false ->
  p (Weighted redirect_js) = false ->
  p (Weighted rightclick_block) = false ->
  p (Weighted external_favicon) = false ->
  form_actions src' = form_actions src ->
  mailto_links src' = mailto_links src ->
  obfuscated_scripts src' = obfuscated_scripts src ->
  redirect_scripts src' = redirect_scripts src ->
  rightclick_block_src src' = rightclick_block_src src ->
  favicon_external src' = favicon_external src ->
  sources_agree w (ledger st) src -> sources_agree w (ledger st') src'.
Proof.
  intros E P1 P2 P3 P4 P5 P6 F1 F2 F3 F4 F5 F6 (A1 & A2 & A3 & A4 & A5 & A6).
  unfold sources_agree.
  rewrite (extends_picked_other _ (Weighted external_form_action) _ _ E P1).
  rewrite (extends_picked_other _ (Weighted mailto_exfil) _ _ E P2).
  rewrite (extends_picked_other _ (Weighted obfuscation) _ _ E P3).
  rewrite (extends_picked_other _ (Weighted redirect_js) _ _ E P4).
  rewrite (extends_picked_other _ (Weighted rightclick_block) _ _ E P5).
  rewrite (extends_picked_other _ (Weighted external_favicon) _ _ E P6).
  rewrite F1, F2, F3, F4, F5, F6. repeat split; try assumption;
    try apply A5; try apply A6.
Qed.

Lemma snoc_not_nil {A : Type} (l : list A) (x : A) : (l ++ [x])%list <> [].
Proof. destruct l; discriminate. Qed.

(** After [destruct]ing the conditions of a check: the new state is the
    old one or a [flag] on it, the new sources are written out. *)
Ltac agree_solve H :=
  let A1 := fresh "A" in let A2 := fresh "A" in let A3 := fresh "A" in
  let A4 := fresh "A" in let A5 := fresh "A" in let A6 := fresh "A" in
  destruct H as (A1 & A2 & A3 & A4 & A5 & A6);
  unfold sources_agree, flag;
  cbn [fst snd form_actions mailto_links obfuscated_scripts redirect_scripts
       rightclick_block_src favicon_external];
  rewrite ?picked_hit; cbn [Signal_beq WeightKey_beq];
  rewrite ?app_nil_r, ?map_app, ?length_app, ?A1, ?A2, ?A3, ?A4;
  repeat split; try assumption; try reflexivity;
  try apply A5; try apply A6;
  try (intros _; first [apply snoc_not_nil | reflexivity]).

Lemma title_check_agree (w : World) (d : string) (soup : Soup) (a : Acc) :
  sources_agree w (ledger (fst a)) (snd a) ->
  sources_agree w (ledger (fst (title_check d soup a)))
                (snd (title_check d soup a)).
Proof.
  intro H.
  apply (agree_other w _ _ _ (snd a) (snd (title_check d soup a))
           (title_check_extends d soup a));
    try reflexivity; try exact H;
    destruct a as [st src]; unfold title_check;
    destruct (truthy_str _); try reflexivity;
    destruct (looks_like_brand_mismatch _ _); reflexivity.
Qed.

Lemma favicon_check_agree (w : World) (d : string) (soup : Soup) (a : Acc) :
  sources_agree w (ledger (fst a)) (snd a) ->
  sources_agree w (ledger (fst (favicon_check w d soup a)))
                (snd (favicon_check w d soup a)).
Proof.
  destruct a as [st src]. cbn [fst snd]. intro H. unfold favicon_check.
  destruct (find _ _); [|exact H].
  destruct (truthy_str _); [|exact H].
  destruct (_ && _); [|exact H].
  agree_solve H.
Qed.

Lemma form_step_agree (w : World) (d : string) (a : Acc) (action : string) :
  sources_agree w (ledger (fst a)) (snd a) ->
  sources_agree w (ledger (fst (form_step w d a action)))
                (snd (form_step w d a action)).
Proof.
  destruct a as [st src]. cbn [fst snd]. intro H. unfold form_step.
  destruct (external_action w d action); [|exact H].
  agree_solve H.
Qed.

Lemma mailto_step_agree (w : World) (a : Acc) (href : string) :
  sources_agree w (ledger (fst a)) (snd a) ->
  sources_agree w (ledger (fst (mailto_step a href)))
                (snd (mailto_step a href)).
Proof.
  destruct a as [st src]. cbn [fst snd]. intro H. unfold mailto_step.
  destruct (_ && _); [|exact H].
  agree_solve H.
Qed.

Lemma fold_agree {X : Type} (w : World) (step : Acc -> X -> Acc) (l : list X) :
  (forall a x, sources_agree w (ledger (fst a)) (snd a) ->
               sources_agree w (ledger (fst (step a x))) (snd (step a x))) ->
  forall a, sources_agree w (ledger (fst a)) (snd a) ->
            sources_agree w (ledger (fst (fold_left step l a)))
                          (snd (fold_left step l a)).
Proof.
  intro Hstep. induction l as [|x l IH]; simpl; intros a K; [exact K|].
  apply IH, Hstep, K.
Qed.

Lemma password_check_agree (w : World) (b : bool) (soup : Soup) (a : Acc) :
  sources_agree w (ledger (fst a)) (snd a) ->
  sources_agree w (ledger (fst (password_check b soup a)))
                (snd (password_check b soup a)).
Proof.
  intro H.
  apply (agree_other w _ _ _ (snd a) (snd (password_check b soup a))
           (password_check_extends b soup a));
    try reflexivity; try exact H;
    destruct a as [st src]; unfold password_check;
    destruct (negb b); try reflexivity;
    destruct (filter is_password (soup_inputs soup)); reflexivity.
Qed.

Lemma externals_check_agree (w : World) (d : string) (soup : Soup) (a : Acc) :
  sources_agree w (ledger (fst a)) (snd a) ->
  sources_agree w (ledger (fst (externals_check w d soup a)))
                (snd (externals_check w d soup a)).
Proof.
  intro H.
  apply (agree_other w _ _ _ (snd a) (snd (externals_check w d soup a))
           (externals_check_extends w d soup a));
    try reflexivity; try exact H;
    destruct a as [st src]; reflexivity.
Qed.

Lemma iframes_check_agree (w : World) (soup : Soup) (a : Acc) :
  sources_agree w (ledger (fst a)) (snd a) ->
  sources_agree w (ledger (fst (iframes_check soup a)))
                (snd (iframes_check soup a)).
Proof.
  intro H.
  apply (agree_other w _ _ _ (snd a) (snd (iframes_check soup a))
           (iframes_check_extends soup a));
    try reflexivity; try exact H;
    destruct a as [st src]; reflexivity.
Qed.

Lemma script_step_agree (w : World) (a : Acc) (script : ScriptTag) :
  sources_agree w (ledger (fst a)) (snd a) ->
  sources_agree w (ledger (fst (script_step w a script)))
                (snd (script_step w a script)).
Proof.
  intro H. unfold script_step.
  destruct (truthy_str _); [|exact H].
  destruct (Str.is_empty _); [exact H|].
  destruct a as [st src]. cbn [fst snd] in H.
  destruct (any_hint w OBFUSCATION_HINTS _);
    destruct (any_hint w REDIRECT_HINTS _);
    destruct (any_hint w RIGHTCLICK_BLOCK_HINTS _);
    agree_solve H.
Qed.

Lemma soup_checks_agree (w : World) (d : string) (b : bool) (soup : Soup)
      (a : Acc) :
  sources_agree w (ledger (fst a)) (snd a) ->
  sources_agree w (ledger (fst (soup_checks w d b soup a)))
                (snd (soup_checks w d b soup a)).
Proof.
  intro H. unfold soup_checks.
  apply (fold_agree w (script_step w) _ (script_step_agree w)).
  apply iframes_check_agree, externals_check_agree, password_check_agree.
  apply (fold_agree w mailto_step _ (mailto_step_agree w)).
  apply (fold_agree w (form_step w d) _ (form_step_agree w d)).
  apply favicon_check_agree, title_check_agree, H.
Qed.

(** X12.  The sources of a report agree with its detections: there is one
    recorded form action per external-form detection and one recorded link
    per mailto detection, in the same order; one script excerpt per
    obfuscation detection and per redirect detection; and the right-click
    and favicon flags are set exactly when their site has a detection. *)
Theorem sources_match_detections (w : World) (url : string) (r : Run)
        (src : Sources) :
  analyze_run w url = Ok r ->
  sources (report r) = Some src ->
  sources_agree w (run_ledger r) src.
Proof.
  intros H Hs. apply analyze_run_inv in H.
  destruct H as [n parsed Hn Hp Ht Hr | n parsed st1 st2 st4 st5 tld dns age
                                         fetched Hn Hp Ht H1 H2 H4 H5 Hr].
  { subst r. discriminate Hs. }
  pose proof (before_page_extends _ _ _ _ _ _ _ _ _ _ _ H1 H2 H4 H5) as B.
  pose proof (final_report_fields url (host_of parsed) (fst (domain_parts w n))
                tld dns age fetched
                (page_checks w (fst (domain_parts w n)) fetched st5))
    as (_ & _ & _ & _ & _ & _ & _ & _ & _ & Fs).
  subst r. cbn [report run_ledger] in *. rewrite Fs in Hs.
  assert (E : snd (page_checks w (fst (domain_parts w n)) fetched st5) = src)
    by congruence.
  rewrite <- E.
  assert (K : sources_agree w (ledger st5) sources0).
  { unfold sources_agree. cbn [sources0 form_actions mailto_links
      obfuscated_scripts redirect_scripts rightclick_block_src favicon_external
      map List.length].
    rewrite (extends_picked_other _ (Weighted external_form_action) _ _ B eq_refl).
    rewrite (extends_picked_other _ (Weighted mailto_exfil) _ _ B eq_refl).
    rewrite (extends_picked_other _ (Weighted obfuscation) _ _ B eq_refl).
    rewrite (extends_picked_other _ (Weighted redirect_js) _ _ B eq_refl).
    rewrite (extends_picked_other _ (Weighted rightclick_block) _ _ B eq_refl).
    rewrite (extends_picked_other _ (Weighted external_favicon) _ _ B eq_refl).
    cbn. repeat split; try discriminate; intro X; now contradiction X. }
  unfold page_checks. destruct (page_of w (f_resp fetched)) as [soup|].
  - apply (soup_checks_agree w _ _ soup (st5, sources0)). exact K.
  - exact K.
Qed.

Lemma sources_match_detections_witness :
  exists r,
    analyze_run two_external_forms "http://shop.example.com/" = Ok r /\
    exists src,
      sources (report r) = Some src /\
      form_actions src = ["https://collect.evil.net/a"; "https://drop.bad.io/b"] /\
      sources_agree two_external_forms (run_ledger r) src.
Proof.
  eexists. split; [vm_compute; reflexivity|].
  eexists. split; [vm_compute; reflexivity|].
  split; [vm_compute; reflexivity|].
  apply (sources_match_detections two_external_forms "http://shop.example.com/");
    vm_compute; reflexivity.
Defined.

(** ** Mailto links, password fields and scripts *)

Lemma mailto_fold_picked (l : list string) :
  forall a : Acc,
    picked (Weighted mailto_exfil) (ledger (fst (fold_left mailto_step l a))) =
    (picked (Weighted mailto_exfil) (ledger (fst a)) ++
     map mailto_entry (List.filter mailto_with_parameters l))%list.
Proof.
  induction l as [|x l IH]; intro a; cbn [fold_left List.filter].
  - cbn [map]. now rewrite app_nil_r.
  - rewrite IH. destruct a as [st src]. unfold mailto_step, mailto_with_parameters.
    destruct (Str.startswith "mailto:" x && Str.mem "?" x); cbn [fst map].
    + unfold flag. rewrite picked_hit. cbn [Signal_beq WeightKey_beq].
      now rewrite <- app_assoc.
    + reflexivity.
Qed.

(** What the checks of the page leave at one site: what the check of that
    site leaves, the others adding nothing there. *)
Lemma soup_checks_picked_mailto (w : World) (d : string) (b : bool) (soup : Soup)
      (a : Acc) :
  picked (Weighted mailto_exfil) (ledger (fst (soup_checks w d b soup a))) =
  (picked (Weighted mailto_exfil) (ledger (fst a)) ++
   map mailto_entry
       (List.filter mailto_with_parameters (somes (soup_anchors soup))))%list.
Proof.
  unfold soup_checks.
  rewrite (extends_picked_other _ (Weighted mailto_exfil) _ _
             (scripts_check_extends w soup _) eq_refl).
  rewrite (extends_picked_other _ (Weighted mailto_exfil) _ _
             (iframes_check_extends soup _) eq_refl).
  rewrite (extends_picked_other _ (Weighted mailto_exfil) _ _
             (externals_check_extends w d soup _) eq_refl).
  rewrite (extends_picked_other _ (Weighted mailto_exfil) _ _
             (password_check_extends b soup _) eq_refl).
  unfold mailto_check. rewrite mailto_fold_picked.
  rewrite (extends_picked_other _ (Weighted mailto_exfil) _ _
             (forms_check_extends w d soup _) eq_refl).
  rewrite (extends_picked_other _ (Weighted mailto_exfil) _ _
             (favicon_check_extends w d soup _) eq_refl).
  rewrite (extends_picked_other _ (Weighted mailto_exfil) _ _
             (title_check_extends d soup _) eq_refl).
  reflexivity.
Qed.

Lemma sum_weights_mailto (l : list string) :
  sum_weights (map mailto_entry l) = 5 * Z.of_nat (List.length l).
Proof.
  induction l as [|x l IH]; [reflexivity|].
  cbn [map List.length]. rewrite sum_weights_cons, IH.
  cbn [mailto_entry e_weight]. lia.
Qed.

(** The ledger of a run that inspected a page, at a page site. *)
Lemma inspected_page_picked (w : World) (url : string) (r : Run) (soup : Soup)
      (sg : Signal) :
  analyze_run w url = Ok r ->
  run_page r = Some soup ->
  page_sig sg = true ->
  exists st,
    picked sg (ledger st) = [] /\
    run_ledger r =
      ledger (fst (soup_checks w (domain (report r))
                               (uses_https (context (report r))) soup
                               (st, sources0))).
Proof.
  intros H Hpage Hsg. apply analyze_run_inv in H.
  destruct H as [n parsed Hn Hp Ht Hr | n parsed st1 st2 st4 st5 tld dns age
                                         fetched Hn Hp Ht H1 H2 H4 H5 Hr].
  { subst r. discriminate Hpage. }
  pose proof (final_report_fields url (host_of parsed) (fst (domain_parts w n))
                tld dns age fetched
                (page_checks w (fst (domain_parts w n)) fetched st5))
    as (_ & _ & _ & Fd & _ & _ & _ & _ & Fc & _).
  pose proof (before_page_extends _ _ _ _ _ _ _ _ _ _ _ H1 H2 H4 H5) as B.
  exists st5. split.
  - rewrite (extends_picked_other _ sg _ _ B); [reflexivity|].
    unfold not_sig. now rewrite Hsg.
  - subst r. cbn [report run_ledger run_page] in *. rewrite Fd, Fc.
    unfold page_checks. rewrite Hpage. reflexivity.
Qed.

(** X13.  Every link of the inspected page whose target starts with
    "mailto:" and contains a question mark leaves its own detection, a
    MEDIUM finding of weight 5 that carries the target: links are counted
    one by one, also when they repeat. *)
Theorem mailto_links_counted_separately (w : World) (url : string) (r : Run)
        (soup : Soup) :
  analyze_run w url = Ok r ->
  run_page r = Some soup ->
  let links :=
    List.filter mailto_with_parameters (somes (soup_anchors soup)) in
  picked (Weighted mailto_exfil) (run_ledger r) = map mailto_entry links /\
  sum_weights (picked (Weighted mailto_exfil) (run_ledger r)) =
    5 * Z.of_nat (List.length links).
Proof.
  intros H Hpage links.
  destruct (inspected_page_picked w url r soup (Weighted mailto_exfil) H Hpage
              eq_refl) as (st & P0 & L).
  assert (P : picked (Weighted mailto_exfil) (run_ledger r) =
              map mailto_entry links).
  { rewrite L, soup_checks_picked_mailto. cbn [fst]. now rewrite P0. }
  split; [exact P|]. rewrite P. apply sum_weights_mailto.
Qed.

Lemma soup_checks_picked_password_any (w : World) (d : string) (b : bool)
      (soup : Soup) (a : Acc) :
  picked (Weighted password_over_http)
         (ledger (fst (soup_checks w d b soup a))) =
  (picked (Weighted password_over_http) (ledger (fst a)) ++
   (if negb b &&
       negb (Nat.eqb (List.length (List.filter is_password (soup_inputs soup))) 0)
    then [password_entry
            (Z.of_nat (List.length (List.filter is_password (soup_inputs soup))))]
    else []))%list.
Proof.
  unfold soup_checks.
  rewrite (extends_picked_other _ (Weighted password_over_http) _ _
             (scripts_check_extends w soup _) eq_refl).
  rewrite (extends_picked_other _ (Weighted password_over_http) _ _
             (iframes_check_extends soup _) eq_refl).
  rewrite (extends_picked_other _ (Weighted password_over_http) _ _
             (externals_check_extends w d soup _) eq_refl).
  match goal with |- picked _ (ledger (fst (password_check _ _ ?x))) = _ =>
    assert (E : picked (Weighted password_over_http) (ledger (fst x)) =
                picked (Weighted password_over_http) (ledger (fst a)));
    [|destruct x as [st src]] end.
  { rewrite (extends_picked_other _ (Weighted password_over_http) _ _
               (mailto_check_extends soup _) eq_refl).
    rewrite (extends_picked_other _ (Weighted password_over_http) _ _
               (forms_check_extends w d soup _) eq_refl).
    rewrite (extends_picked_other _ (Weighted password_over_http) _ _
               (favicon_check_extends w d soup _) eq_refl).
    rewrite (extends_picked_other _ (Weighted password_over_http) _ _
               (title_check_extends d soup _) eq_refl).
    reflexivity. }
  cbn [fst] in E. rewrite <- E. unfold password_check.
  destruct b; cbn [negb andb fst]; [now rewrite app_nil_r|].
  destruct (List.filter is_password (soup_inputs soup)) as [|x l];
    cbn [fst List.length Nat.eqb negb]; [now rewrite app_nil_r|].
  unfold flag. rewrite picked_hit. reflexivity.
Qed.

(** X14.  The password check of an inspected page records a detection
    exactly when the report says that HTTPS is not used and the page has an
    input whose type is "password": one HIGH finding of weight 10 that
    carries the number of such inputs, however many there are. *)
Theorem password_check_exact (w : World) (url : string) (r : Run)
        (soup : Soup) :
  analyze_run w url = Ok r ->
  run_page r = Some soup ->
  let fields := List.filter is_password (soup_inputs soup) in
  picked (Weighted password_over_http) (run_ledger r) =
    if negb (uses_https (context (report r))) &&
       negb (Nat.eqb (List.length fields) 0)
    then [password_entry (Z.of_nat (List.length fields))]
    else [].
Proof.
  intros H Hpage fields.
  destruct (inspected_page_picked w url r soup (Weighted password_over_http)
              H Hpage eq_refl) as (st & P0 & L).
  rewrite L, soup_checks_picked_password_any. cbn [fst]. now rewrite P0.
Qed.

Lemma script_fold_picked (w : World) (l : list ScriptTag) :
  forall a : Acc,
    picked (Weighted obfuscation)
           (ledger (fst (fold_left (script_step w) l a))) =
    (picked (Weighted obfuscation) (ledger (fst a)) ++
     map (fun _ => obfuscation_entry)
         (List.filter (script_matches w OBFUSCATION_HINTS) l))%list /\
    picked (Weighted redirect_js)
           (ledger (fst (fold_left (script_step w) l a))) =
    (picked (Weighted redirect_js) (ledger (fst a)) ++
     map (fun _ => redirect_entry)
         (List.filter (script_matches w REDIRECT_HINTS) l))%list /\
    picked (Weighted rightclick_block)
           (ledger (fst (fold_left (script_step w) l a))) =
    (picked (Weighted rightclick_block) (ledger (fst a)) ++
     map (fun _ => rightclick_entry)
         (List.filter (script_matches w RIGHTCLICK_BLOCK_HINTS) l))%list.
Proof.
  induction l as [|x l IH]; intro a; cbn [fold_left List.filter].
  - cbn [map]. now rewrite !app_nil_r.
  - destruct (IH (script_step w a x)) as (I1 & I2 & I3).
    rewrite I1, I2, I3. clear IH I1 I2 I3.
    unfold script_matches, script_text, script_step.
    destruct (truthy_str (script_string x)) as [c|];
      [|repeat split; reflexivity].
    cbv zeta.
    destruct (Str.is_empty (Str.strip c)); [repeat split; reflexivity|].
    destruct a as [st src].
    destruct (any_hint w OBFUSCATION_HINTS (Str.strip c));
      destruct (any_hint w REDIRECT_HINTS (Str.strip c));
      destruct (any_hint w RIGHTCLICK_BLOCK_HINTS (Str.strip c));
      cbn [fst map]; unfold flag; rewrite ?picked_hit;
      cbn [Signal_beq WeightKey_beq]; rewrite ?app_nil_r, <- ?app_assoc;
      repeat split; reflexivity.
Qed.

(** X15.  The script checks record one detection per script and family of
    patterns: a script whose text matches several obfuscation patterns
    counts once for obfuscation, and likewise for the redirect and the
    right-click patterns; scripts without text, or with blank text, are
    skipped. *)
Theorem scripts_counted_per_family (w : World) (url : string) (r : Run)
        (soup : Soup) :
  analyze_run w url = Ok r ->
  run_page r = Some soup ->
  picked (Weighted obfuscation) (run_ledger r) =
    map (fun _ => obfuscation_entry)
        (List.filter (script_matches w OBFUSCATION_HINTS) (soup_scripts soup)) /\
  picked (Weighted redirect_js) (run_ledger r) =
    map (fun _ => redirect_entry)
        (List.filter (script_matches w REDIRECT_HINTS) (soup_scripts soup)) /\
  picked (Weighted rightclick_block) (run_ledger r) =
    map (fun _ => rightclick_entry)
        (List.filter (script_matches w RIGHTCLICK_BLOCK_HINTS)
                     (soup_scripts soup)).
Proof.
  intros H Hpage.
  assert (G : forall sg, script_sig sg = true ->
     exists a : Acc,
       picked sg (ledger (fst a)) = [] /\
       run_ledger r = ledger (fst (scripts_check w soup a))).
  { intros sg Hsg.
    assert (Hpg : page_sig sg = true)
      by (destruct sg as [[]|]; try discriminate Hsg; reflexivity).
    destruct (inspected_page_picked w url r soup sg H Hpage Hpg)
      as (st & P0 & L).
    unfold soup_checks in L.
    match type of L with _ = ledger (fst (scripts_check _ _ ?x)) =>
      exists x end.
    split; [|exact L].
    assert (N : forall p, (forall s, p s = true -> not_sig script_sig s = true) ->
                  forall (a b : St), extends p a b ->
                                     picked sg (ledger b) = picked sg (ledger a)).
    { intros p Hp a b Hab.
      apply (extends_picked_other (not_sig script_sig) sg a b).
      - exact (extends_weaken _ _ _ _ Hp Hab).
      - unfold not_sig. now rewrite Hsg. }
    rewrite (N (only many_iframes) ltac:(sig_incl) _ _
               (iframes_check_extends soup _)).
    rewrite (N (only many_external_scripts) ltac:(sig_incl) _ _
               (externals_check_extends w (domain (report r)) soup _)).
    rewrite (N (only password_over_http) ltac:(sig_incl) _ _
               (password_check_extends (uses_https (context (report r))) soup _)).
    rewrite (N (only mailto_exfil) ltac:(sig_incl) _ _
               (mailto_check_extends soup _)).
    rewrite (N (only external_form_action) ltac:(sig_incl) _ _
               (forms_check_extends w (domain (report r)) soup _)).
    rewrite (N (only external_favicon) ltac:(sig_incl) _ _
               (favicon_check_extends w (domain (report r)) soup _)).
    rewrite (N (only brand_title_mismatch) ltac:(sig_incl) _ _
               (title_check_extends (domain (report r)) soup _)).
    exact P0. }
  split; [|split].
  - destruct (G (Weighted obfuscation) eq_refl) as (a & P0 & L).
    rewrite L. unfold scripts_check.
    destruct (script_fold_picked w (soup_scripts soup) a) as (F & _ & _).
    now rewrite F, P0.
  - destruct (G (Weighted redirect_js) eq_refl) as (a & P0 & L).
    rewrite L. unfold scripts_check.
    destruct (script_fold_picked w (soup_scripts soup) a) as (_ & F & _).
    now rewrite F, P0.
  - destruct (G (Weighted rightclick_block) eq_refl) as (a & P0 & L).
    rewrite L. unfold scripts_check.
    destruct (script_fold_picked w (soup_scripts soup) a) as (_ & _ & F).
    now rewrite F, P0.
Qed.

Lemma mailto_links_counted_separately_witness :
  exists r,
    analyze_run busy "http://shop.example.com/" = Ok r /\
    picked (Weighted mailto_exfil) (run_ledger r) =
      map mailto_entry ["mailto:help@example.com?subject=card";
                        "mailto:help@example.com?subject=card"] /\
    sum_weights (picked (Weighted mailto_exfil) (run_ledger r)) = 5 * 2.
Proof.
  eexists. split; [vm_compute; reflexivity|].
  apply (mailto_links_counted_separately busy "http://shop.example.com/" _
           busy_page); vm_compute; reflexivity.
Defined.

Lemma password_check_exact_witness :
  exists r,
    analyze_run busy "http://shop.example.com/" = Ok r /\
    picked (Weighted password_over_http) (run_ledger r) = [password_entry 2].
Proof.
  eexists. split; [vm_compute; reflexivity|].
  pose proof (password_check_exact busy "http://shop.example.com/" _ busy_page
                ltac:(vm_compute; reflexivity) ltac:(vm_compute; reflexivity))
    as P.
  vm_compute in P. vm_compute. exact P.
Defined.

Lemma scripts_counted_per_family_witness :
  exists r,
    analyze_run busy "http://shop.example.com/" = Ok r /\
    picked (Weighted obfuscation) (run_ledger r) = [obfuscation_entry] /\
    picked (Weighted redirect_js) (run_ledger r) = [redirect_entry] /\
    picked (Weighted rightclick_block) (run_ledger r) = [].
Proof.
  eexists. split; [vm_compute; reflexivity|].
  apply (scripts_counted_per_family busy "http://shop.example.com/" _ busy_page);
    vm_compute; reflexivity.
Defined.

(** ** The external domains of a page *)

Lemma in_list_In (s : string) (l : list string) :
  in_list s l = true <-> In s l.
Proof.
  unfold in_list. rewrite existsb_exists. split.
  - intros (x & Hx & E). apply String.eqb_eq in E. now subst x.
  - intro H. exists s. split; [exact H | apply String.eqb_refl].
Qed.

Lemma set_add_spec (d : string) (s : list string) :
  NoDup s ->
  NoDup (set_add d s) /\ forall x, In x (set_add d s) <-> In x s \/ x = d.
Proof.
  intro N. unfold set_add. destruct (in_list d s) eqn:E.
  - apply in_list_In in E. split; [exact N|]. intro x. split; [tauto|].
    intros [H | ->]; assumption.
  - assert (Hn : ~ In d s) by (intro H; apply in_list_In in H; congruence).
    split.
    + apply NoDup_app; [exact N | repeat constructor; intros [] | ].
      intros x Hx [<- | []]. contradiction.
    + intro x. rewrite in_app_iff. cbn. split; intros [H | H]; auto.
      destruct H as [<- | []]. now right.
Qed.

Lemma fold_add_external_spec (w : World) (base : string) (l : list string) :
  forall acc,
    NoDup acc ->
    NoDup (fold_left (add_external w base) l acc) /\
    forall d,
      In d (fold_left (add_external w base) l acc) <->
      In d acc \/
      (d <> EmptyString /\ d <> base /\
       exists attr, In attr l /\ d = fst (domain_parts w attr)).
Proof.
  induction l as [|x l IH]; intros acc N; cbn [fold_left].
  - split; [exact N|]. intro d. split; [tauto|].
    intros [H | (_ & _ & a & [] & _)]. exact H.
  - assert (S : NoDup (add_external w base acc x) /\
                forall d, In d (add_external w base acc x) <->
                          In d acc \/
                          (d <> EmptyString /\ d <> base /\
                           d = fst (domain_parts w x))).
    { unfold add_external.
      destruct (Str.is_empty (fst (domain_parts w x))) eqn:E1; cbn [negb andb].
      - split; [exact N|]. intro d. split; [tauto|].
        intros [H | (H1 & _ & H3)]; [exact H|].
        apply is_empty_true in E1. congruence.
      - destruct (String.eqb (fst (domain_parts w x)) base) eqn:E2; cbn [negb].
        + split; [exact N|]. intro d. split; [tauto|].
          intros [H | (_ & H2 & H3)]; [exact H|].
          apply String.eqb_eq in E2. congruence.
        + destruct (set_add_spec (fst (domain_parts w x)) acc N) as [N' I].
          split; [exact N'|]. intro d. rewrite I. split.
          * intros [H | ->]; [now left|]. right.
            apply String.eqb_neq in E2. repeat split; [|exact E2].
            intro Z. rewrite Z in E1. discriminate E1.
          * intros [H | (_ & _ & ->)]; [now left | now right]. }
    destruct S as [N' I]. destruct (IH _ N') as [N2 I2].
    split; [exact N2|]. intro d. rewrite I2, I. split.
    + intros [[H | (H1 & H2 & H3)] | (H1 & H2 & a & Ha & H3)].
      * now left.
      * right. repeat split; try assumption. exists x. split; [now left|exact H3].
      * right. repeat split; try assumption. exists a. split; [now right|exact H3].
    + intros [H | (H1 & H2 & a & [<- | Ha] & H3)].
      * left. now left.
      * left. right. auto.
      * right. repeat split; try assumption. exists a. auto.
Qed.

(** X16.  [collect_external_domains] returns each domain once, and returns
    exactly the registrable domains of the script, iframe and link targets
    of the page that are not empty and differ from the base domain. *)
Theorem external_domains_are_a_set (w : World) (soup : Soup) (base : string) :
  NoDup (collect_external_domains w soup base) /\
  forall d,
    In d (collect_external_domains w soup base) <->
    d <> EmptyString /\ d <> base /\
    exists attr, In attr (external_attrs soup) /\ d = fst (domain_parts w attr).
Proof.
  assert (E : collect_external_domains w soup base =
              fold_left (add_external w base) (external_attrs soup) []).
  { unfold collect_external_domains, external_attrs.
    now rewrite !fold_left_app. }
  rewrite E.
  destruct (fold_add_external_spec w base (external_attrs soup) [] (NoDup_nil _))
    as [N I].
  split; [exact N|]. intro d. rewrite I. split.
  - intros [[] | H]. exact H.
  - intro H. now right.
Qed.

(** ** Domains that are trusted by their ending *)

Lemma suffix_trusted (d : string) :
  Str.endswith ".edu" d = true \/ Str.endswith ".gov" d = true \/
  Str.endswith ".org" d = true \/ Str.contains ".edu." d = true \/
  Str.contains ".ac." d = true \/ Str.contains ".gov." d = true ->
  is_trusted_domain d = true.
Proof.
  intro H. unfold is_trusted_domain.
  destruct (in_list d TRUSTED_DOMAINS); [reflexivity|].
  destruct (existsb _ TRUSTED_DOMAINS); [reflexivity|].
  destruct (existsb _ TRUSTED_PATTERNS); [reflexivity|].
  destruct (Str.endswith ".edu" d); [reflexivity|].
  destruct (Str.contains ".edu." d); [reflexivity|].
  destruct (Str.contains ".ac." d); [reflexivity|].
  destruct (Str.endswith ".gov" d); [reflexivity|].
  destruct (Str.contains ".gov." d); [reflexivity|].
  destruct (Str.endswith ".org" d); [reflexivity|].
  destruct H as [H | [H | [H | [H | [H | H]]]]]; discriminate H.
Qed.

(** X17.  A site is never analysed when its registrable domain ends in
    ".edu", ".gov" or ".org", or contains ".edu.", ".ac." or ".gov.",
    whether or not the domain is on the list of trusted domains: the report
    is "Likely safe" with score 0 and no finding, and the network is not
    used. *)
Theorem trusted_endings_are_not_analysed (w : World) (url n : string)
        (parsed : ParseResult) :
  normalize_url w url = Ok n ->
  urlparse (ip_address w) n = Ok parsed ->
  (let d := fst (domain_parts w n) in
   Str.endswith ".edu" d = true \/ Str.endswith ".gov" d = true \/
   Str.endswith ".org" d = true \/ Str.contains ".edu." d = true \/
   Str.contains ".ac." d = true \/ Str.contains ".gov." d = true) ->
  exists r,
    analyze_run w url = Ok r /\
    verdict (report r) = "Likely safe" /\
    risk_score (report r) = 0 /\
    threats (report r) = [] /\
    trusted_domain (context (report r)) = true /\
    run_calls r = [].
Proof.
  intros Hn Hp Hd. cbv zeta in Hd. apply suffix_trusted in Hd.
  exists (mkRun (trusted_report url n parsed (fst (domain_parts w n))) [] [] None).
  split; [|repeat split].
  unfold analyze_run. rewrite Hn. cbn [bind]. rewrite Hp. cbn [bind].
  now rewrite Hd.
Qed.

Lemma trusted_endings_are_not_analysed_witness :
  exists r,
    analyze_run unlisted_org "http://paypal-login.example.org/" = Ok r /\
    verdict (report r) = "Likely safe" /\
    risk_score (report r) = 0 /\
    threats (report r) = [] /\
    trusted_domain (context (report r)) = true /\
    run_calls r = [].
Proof.
  apply (trusted_endings_are_not_analysed unlisted_org
           "http://paypal-login.example.org/" "http://paypal-login.example.org/"
           (mkParse "http" "paypal-login.example.org" "/" EmptyString
                    EmptyString EmptyString)).
  - vm_compute. reflexivity.
  - vm_compute. reflexivity.
  - right. right. left. vm_compute. reflexivity.
Defined.

(** ** When [normalize_url] raises *)

Lemma existsb_lstrip_by (q p : ascii -> bool) (s : string) :
  Str.existsb q s = false -> Str.existsb q (Str.lstrip_by p s) = false.
Proof.
  induction s as [|c s IH]; [reflexivity|]. cbn [Str.existsb Str.lstrip_by].
  intro H. apply orb_false_elim in H as [Hc Hs].
  destruct (p c); [now apply IH|]. cbn [Str.existsb]. now rewrite Hc, Hs.
Qed.

Lemma existsb_rstrip_by (q p : ascii -> bool) (s : string) :
  Str.existsb q s = false -> Str.existsb q (Str.rstrip_by p s) = false.
Proof.
  induction s as [|c s IH]; [reflexivity|]. cbn [Str.existsb Str.rstrip_by].
  intro H. apply orb_false_elim in H as [Hc Hs].
  destruct (_ && _); [reflexivity|]. cbn [Str.existsb].
  now rewrite Hc, (IH Hs).
Qed.

Lemma existsb_filter (q p : ascii -> bool) (s : string) :
  Str.existsb q s = false -> Str.existsb q (Str.filter p s) = false.
Proof.
  induction s as [|c s IH]; [reflexivity|]. cbn [Str.existsb Str.filter].
  intro H. apply orb_false_elim in H as [Hc Hs].
  destruct (p c); [|now apply IH]. cbn [Str.existsb]. now rewrite Hc, (IH Hs).
Qed.

Lemma existsb_drop (q : ascii -> bool) (n : nat) (s : string) :
  Str.existsb q s = false -> Str.existsb q (Str.drop n s) = false.
Proof.
  revert s. induction n as [|n IH]; intros s H; [exact H|].
  destruct s as [|c s]; [reflexivity|]. cbn [Str.drop].
  cbn [Str.existsb] in H. apply orb_false_elim in H as [_ Hs]. now apply IH.
Qed.

(** Every exception of the bracket checks is a ValueError, and they raise
    only on a network location that has a bracket. *)
Lemma netloc_ok_raises (ip : string -> option ip_version) (nl : string)
      (e : exn) :
  netloc_ok ip nl = Raise e ->
  e = ValueError /\ (Str.mem "[" nl = true \/ Str.mem "]" nl = true).
Proof.
  unfold netloc_ok. cbv zeta.
  destruct (Str.mem "[" nl) eqn:O; destruct (Str.mem "]" nl) eqn:C;
    cbn [andb orb negb]; intro H; try discriminate H.
  - split; [|now left]. unfold _check_bracketed_netloc in H. cbv zeta in H.
    assert (K : forall h, _check_bracketed_host ip h = Raise e -> e = ValueError).
    { intros h. unfold _check_bracketed_host.
      destruct (Str.startswith "v" h).
      - destruct (ipvfuture_ok h); congruence.
      - destruct (ip h) as [[]|]; congruence. }
    destruct (Str.partition "[" _) as [[before bracketed]|].
    + destruct (negb (Str.is_empty before)); [congruence|].
      destruct (Str.partition "]" bracketed) as [[h p]|].
      * destruct (_ && _); [congruence | exact (K _ H)].
      * destruct (_ && _); [congruence | exact (K _ H)].
    + exact (K _ H).
  - split; [congruence | now left].
  - split; [congruence | now right].
Qed.

Lemma split_rest_raises (ip : string -> option ip_version) (sch R : string)
      (e : exn) :
  split_rest ip sch ("//" ++ R) = Raise e ->
  e = ValueError /\ (Str.mem "[" R = true \/ Str.mem "]" R = true).
Proof.
  unfold split_rest, split_authority.
  change (Str.startswith "//" ("//" ++ R)) with true. cbv iota.
  unfold _splitnetloc2. change (Str.drop 2 ("//" ++ R)) with R.
  destruct (Str.span not_delim R) as [nl rest] eqn:S.
  apply span_spec in S as (ER & _ & _).
  destruct (netloc_ok ip nl) as [[]|e'] eqn:N; cbn [bind].
  - destruct (cut "#" rest) as [t1 frag]. destruct (cut "?" t1) as [pth qry].
    discriminate.
  - intro H. assert (e' = e) by congruence. subst e'.
    destruct (netloc_ok_raises ip nl e N) as [Ev M]. split; [exact Ev|].
    rewrite ER, !mem_app. destruct M as [M | M]; rewrite M; [now left|now right].
Qed.

(** What [urlsplit] works on keeps no character that the input does not
    have. *)
Lemma normalized_input_mem (c : ascii) (u : string) (k : nat) :
  Ascii.eqb c "h" = false -> Ascii.eqb c "t" = false ->
  Ascii.eqb c "p" = false -> Ascii.eqb c ":" = false ->
  Ascii.eqb c "/" = false ->
  Str.mem c u = false ->
  Str.mem c (Str.filter keep_url_byte
               (Str.drop k (with_default_scheme (Str.strip u)))) = false.
Proof.
  intros H1 H2 H3 H4 H5 M. apply existsb_filter, existsb_drop.
  assert (S : Str.mem c (Str.strip u) = false)
    by (apply existsb_rstrip_by, existsb_lstrip_by, M).
  unfold with_default_scheme. destruct (negb _); [|exact S].
  unfold Str.mem in *. cbn [append Str.existsb].
  now rewrite H1, H2, H3, H4, H5, S.
Qed.

(** X18.  On an input whose code points are all below 256 (the strings of
    this embedding), [normalize_url] raises nothing but a ValueError, and
    only when the input has a square bracket: every such input without "["
    and "]" is normalized.  The bound matters: [urlsplit] also raises a
    ValueError when the compatibility form of the network location gains
    one of "/?#@:", which needs a code point from 256 on, such as U+2100. *)
Theorem normalize_url_raises_on_brackets_only (w : World) (u : string)
        (e : exn) :
  normalize_url w u = Raise e ->
  e = ValueError /\ (Str.mem "[" u = true \/ Str.mem "]" u = true).
Proof.
  unfold normalize_url. cbv zeta. unfold urlparse. intro H.
  pose proof (with_default_scheme_has (Str.strip u)) as Hs.
  assert (G : exists sch k,
             urlsplit (ip_address w) (with_default_scheme (Str.strip u)) =
             split_rest (ip_address w) sch
               ("//" ++ Str.filter keep_url_byte
                          (Str.drop k (with_default_scheme (Str.strip u))))).
  { unfold has_http_scheme in Hs. apply orb_prop in Hs as [Hs | Hs].
    - exists "http", 7%nat. now apply urlsplit_http.
    - exists "https", 8%nat. now apply urlsplit_https. }
  destruct G as (sch & k & G). rewrite G in H.
  destruct (split_rest (ip_address w) sch _) as [sp|e'] eqn:R;
    [discriminate H|].
  cbn [bind] in H. assert (e' = e) by congruence. subst e'.
  destruct (split_rest_raises _ _ _ _ R) as [Ev M]. split; [exact Ev|].
  destruct (Str.mem "[" u) eqn:O; [now left|].
  destruct (Str.mem "]" u) eqn:C; [now right|].
  rewrite (normalized_input_mem "[" u k) in M by (reflexivity || exact O).
  rewrite (normalized_input_mem "]" u k) in M by (reflexivity || exact C).
  destruct M; discriminate.
Qed.

Lemma normalize_url_raises_on_brackets_only_witness :
  ValueError = ValueError /\
  (Str.mem "[" "http://[::1/" = true \/ Str.mem "]" "http://[::1/" = true).
Proof.
  apply (normalize_url_raises_on_brackets_only offline "http://[::1/").
  vm_compute. reflexivity.
Defined.

(** ** The upgrade of a normalized URL *)

(** X19.  For an input whose code points are all below 256 (the strings of
    this embedding): on its normalized URL, when that parses,
    [try_https_upgrade] does not raise; its result starts with "https://",
    differs from the URL in the scheme only, and is left as it is by a
    second upgrade.  The bound matters as for the shape of the normalized
    URL, on which this rests. *)
Theorem upgrade_of_normalized_url (w : World) (u n : string)
        (parsed : ParseResult) :
  normalize_url w u = Ok n ->
  urlparse (ip_address w) n = Ok parsed ->
  exists r,
    try_https_upgrade w n = Ok r /\
    Str.startswith "https://" r = true /\
    Str.after_first "://" r = Str.after_first "://" n /\
    try_https_upgrade w r = Ok r.
Proof.
  intros Hn Hp.
  destruct (normalize_url_facts w u n Hn) as ([S | S] & _ & _);
    pose proof (startswith_app _ _ S) as E; cbn [String.length] in E.
  - exists ("https://" ++ Str.drop 7 n).
    rewrite E in Hp.
    destruct (urlparse_upgrade_ok _ _ _ Hp) as [p' Hp'].
    split; [|split; [reflexivity|split]].
    + rewrite E at 1. exact (try_https_upgrade_http w _ _ Hp).
    + rewrite E at 2. reflexivity.
    + unfold try_https_upgrade. rewrite Hp'. cbn [bind].
      now rewrite (urlparse_https_scheme _ _ _ Hp').
  - exists n.
    assert (T : try_https_upgrade w n = Ok n).
    { unfold try_https_upgrade. rewrite Hp. cbn [bind].
      rewrite E in Hp. now rewrite (urlparse_https_scheme _ _ _ Hp). }
    auto.
Qed.

Lemma upgrade_of_normalized_url_witness :
  exists r,
    try_https_upgrade offline "http://example.com/http://x" = Ok r /\
    Str.startswith "https://" r = true /\
    Str.after_first "://" r =
      Str.after_first "://" "http://example.com/http://x" /\
    try_https_upgrade offline r = Ok r.
Proof.
  apply (upgrade_of_normalized_url offline "example.com/http://x#frag"
           "http://example.com/http://x"
           (mkParse "http" "example.com" "/http://x" EmptyString EmptyString
                    EmptyString));
    vm_compute; reflexivity.
Defined.

(** ** The brand check on the title *)

(** X20.  One brand is enough to clear a title: when a brand of the list
    occurs both in the title and in the domain, [looks_like_brand_mismatch]
    answers no, whatever other brands the title names.  Letter case is
    ignored on both sides, and so is white space around the title. *)
Theorem brand_in_domain_clears_title (title domain brand : string) :
  In brand BRAND_HINTS ->
  Str.contains (Str.lower brand) (Str.lower (Str.strip title)) = true ->
  Str.contains (Str.lower brand) (Str.lower domain) = true ->
  looks_like_brand_mismatch title domain = false.
Proof.
  intros Hb Ht Hd. unfold looks_like_brand_mismatch. cbv zeta.
  destruct (Str.is_empty (Str.strip title)); [reflexivity|].
  assert (I : In brand
                 (List.filter
                    (fun b => Str.contains (Str.lower b)
                                           (Str.lower (Str.strip title)))
                    BRAND_HINTS))
    by (apply filter_In; auto).
  destruct (List.filter _ BRAND_HINTS) as [|b0 l] eqn:F; [reflexivity|].
  apply negb_false_iff, existsb_exists. exists brand. auto.
Qed.

Lemma brand_in_domain_clears_title_witness :
  looks_like_brand_mismatch "  PayPal - Bank login " "MyBank.example" = false.
Proof.
  apply (brand_in_domain_clears_title _ _ "Bank").
  - vm_compute. tauto.
  - vm_compute. reflexivity.
  - vm_compute. reflexivity.
Defined.

(** ** The rule on the top-level domain *)

Lemma suspicious_tld_not_legitimate (t : string) :
  in_list t SUSPICIOUS_TLDS = true -> is_legitimate_tld t = false.
Proof.
  intro H. apply in_list_In in H. unfold SUSPICIOUS_TLDS in H.
  repeat (destruct H as [<- | H]; [reflexivity|]). destruct H.
Qed.

(** X25.  No top-level domain is on both lists, so the exemption for
    legitimate top-level domains never applies: a full analysis records the
    LOW detection "Suspicious TLD" (weight 4) exactly when the last label of
    the public suffix is on the list of suspicious ones. *)
Theorem suspicious_tld_rule_ignores_legitimate_list (w : World) (url : string)
        (r : Run) :
  analyze_run w url = Ok r ->
  trusted_domain (context (report r)) = false ->
  (forall t, in_list t SUSPICIOUS_TLDS && negb (is_legitimate_tld t) =
             in_list t SUSPICIOUS_TLDS) /\
  picked (Weighted suspicious_tld) (run_ledger r) =
    if in_list (tld (report r)) SUSPICIOUS_TLDS
    then [tld_entry (tld (report r))]
    else [].
Proof.
  intros H Hf.
  assert (G : forall t, in_list t SUSPICIOUS_TLDS && negb (is_legitimate_tld t) =
                        in_list t SUSPICIOUS_TLDS).
  { intro t. destruct (in_list t SUSPICIOUS_TLDS) eqn:E; [|reflexivity].
    now rewrite (suspicious_tld_not_legitimate t E). }
  split; [exact G|].
  apply analyze_run_inv in H.
  destruct H as [n parsed Hn Hp Ht Hr | n parsed st1 st2 st4 st5 tld0 dns age
                                         fetched Hn Hp Ht H1 H2 H4 H5 Hr].
  { subst r. discriminate Hf. }
  pose proof (after_url_extends _ _ _ _ _ _ _ _ _ _ H2 H4 H5) as A.
  pose proof (final_report_fields url (host_of parsed) (fst (domain_parts w n))
                tld0 dns age fetched
                (page_checks w (fst (domain_parts w n)) fetched st5))
    as (_ & _ & _ & _ & Ft & _).
  subst r. cbn [report run_ledger]. rewrite Ft.
  rewrite (extends_picked_other _ (Weighted suspicious_tld) _ _ A eq_refl).
  unfold url_checks in H1.
  apply bind_ok in H1 as (ip & _ & H1).
  apply bind_ok in H1 as (rest & _ & H1).
  assert (Et : tld0 = tld_of w n) by congruence.
  assert (E : ledger st1 = ledger
    ((fun st => match first_keyword n with
                | Some kw =>
                    flag suspicious_keywords
                      (LOW, "Suspicious keyword in URL: '" ++ kw ++ "'.",
                       [("keyword", VStr kw)]) st
                | None => st
                end)
       (flag_if (4 <=? Str.count "-" (host_of parsed)) many_hyphens
          (LOW, "Many hyphens in hostname.", [("host", VStr (host_of parsed))])
       (flag_if (Str.contains "//" rest) double_slash
          (LOW, "Double slash in path (can be used for obfuscation).", [])
       (flag_if (Str.mem "@" n) at_symbol
          (MEDIUM, "Contains '@' in URL (userinfo part).", [])
       (flag_if (180 <? Str.len n) url_length
          (LOW, "Long URL (" ++ Str.of_Z (Str.len n) ++ " chars).",
           [("url", VStr (Str.take 100 n ++ "..."))])
       (flag_if (in_list (tld_of w n) SUSPICIOUS_TLDS &&
                 negb (is_legitimate_tld (tld_of w n))) suspicious_tld
          (LOW, "Suspicious TLD: ." ++ tld_of w n, [("tld", VStr (tld_of w n))])
       (flag_if (6 <=? sub_count (host_of parsed) (fst (domain_parts w n)))
          too_many_subdomains
          (many_subdomains_finding (host_of parsed)
             (sub_count (host_of parsed) (fst (domain_parts w n))))
       (flag_if (contains_unicode_homoglyphs (host_of parsed)) unicode_homoglyphs
          (LOW, "Non-ASCII characters in hostname; possible IDN homograph attempt.",
           [("host", VStr (host_of parsed))])
       (flag_if (Str.startswith "xn--" (host_of parsed) ||
                 Str.contains ".xn--" (host_of parsed)) punycode
          (LOW, "Punycode (IDN) in hostname; potential homograph attack.",
           [("host", VStr (host_of parsed))])
       (flag_if ip ip_in_url
          (MEDIUM, "IP address used in URL (often used to hide identity).",
           [("host", VStr (host_of parsed))]) st0)))))))))))
    by congruence.
  rewrite E, Et, G. cbv beta.
  destruct (first_keyword n) as [kw|].
  - unfold flag. rewrite picked_hit. rewrite !picked_flag_if.
    cbn [Signal_beq WeightKey_beq andb]. rewrite !andb_false_r, !andb_true_r.
    destruct (in_list (tld_of w n) SUSPICIOUS_TLDS); reflexivity.
  - rewrite !picked_flag_if.
    cbn [Signal_beq WeightKey_beq andb]. rewrite !andb_false_r, !andb_true_r.
    destruct (in_list (tld_of w n) SUSPICIOUS_TLDS); reflexivity.
Qed.

Lemma suspicious_tld_rule_ignores_legitimate_list_witness :
  exists r,
    analyze_run cheap_tld "http://prize.example.xyz/" = Ok r /\
    tld (report r) = "xyz" /\
    (forall t, in_list t SUSPICIOUS_TLDS && negb (is_legitimate_tld t) =
               in_list t SUSPICIOUS_TLDS) /\
    picked (Weighted suspicious_tld) (run_ledger r) =
      if in_list (tld (report r)) SUSPICIOUS_TLDS
      then [tld_entry (tld (report r))]
      else [].
Proof.
  eexists. split; [vm_compute; reflexivity|].
  split; [vm_compute; reflexivity|].
  apply (suspicious_tld_rule_ignores_legitimate_list cheap_tld
           "http://prize.example.xyz/"); vm_compute; reflexivity.
Defined.

(** ** A certificate without readable dates *)

(** X26.  On an "https://" URL whose host presents a certificate, the two
    checks on the certificate's dates are made only when both dates can be
    read: when "notBefore" or "notAfter" is missing or does not parse, the
    TLS stage records nothing at all. *)
Theorem unreadable_certificate_dates_pass (w : World) (url n : string)
        (r : Run) (cert : list (string * string)) :
  analyze_run w url = Ok r ->
  trusted_domain (context (report r)) = false ->
  normalize_url w url = Ok n ->
  Str.startswith "https://" n = true ->
  get_tls_cert w (host (report r)) = Some cert ->
  cert <> [] ->
  fst (parse_cert_dates w cert) = None \/ snd (parse_cert_dates w cert) = None ->
  Forall (fun e => tls_sig (e_signal e) = false) (run_ledger r).
Proof.
  intros H Hf Hn S Hc Hne Hd. apply analyze_run_inv in H.
  destruct H as [n' parsed Hn' Hp Ht Hr | n' parsed st1 st2 st4 st5 tld dns age
                                           fetched Hn' Hp Ht H1 H2 H4 H5 Hr].
  { subst r. discriminate Hf. }
  assert (n' = n) by congruence. subst n'.
  pose proof (final_report_fields url (host_of parsed) (fst (domain_parts w n))
                tld dns age fetched
                (page_checks w (fst (domain_parts w n)) fetched st5))
    as (_ & _ & Fh & _).
  assert (Hh : host (report r) = host_of parsed) by (subst r; exact Fh).
  rewrite Hh in Hc.
  assert (U : uses_https_of parsed = true).
  { pose proof (startswith_app _ _ S) as E. cbn [String.length] in E.
    rewrite E in Hp. unfold uses_https_of.
    now rewrite (urlparse_https_scheme _ _ _ Hp). }
  assert (T : extends (not_sig tls_sig) st2
                (tls_checks w (host_of parsed) (uses_https_of parsed) st2)).
  { unfold tls_checks. rewrite U, Hc. cbn [negb].
    destruct cert as [|kv cert]; [contradiction|].
    destruct (parse_cert_dates w (kv :: cert)) as [[nb|] [na|]];
      cbn [fst snd] in Hd; try (destruct Hd; discriminate);
      apply extends_call, extends_refl. }
  apply url_checks_extends in H1. apply dns_checks_extends in H2.
  apply whois_checks_extends in H4. apply fetch_page_extends in H5.
  pose proof (page_checks_extends w (fst (domain_parts w n)) fetched st5) as H6.
  assert (X : extends (not_sig tls_sig) st0
                (fst (page_checks w (fst (domain_parts w n)) fetched st5))).
  { eapply extends_trans; [eapply extends_weaken; [|exact H1]; sig_incl|].
    eapply extends_trans; [eapply extends_weaken; [|exact H2]; sig_incl|].
    eapply extends_trans; [exact T|].
    eapply extends_trans; [eapply extends_weaken; [|exact H4]; sig_incl|].
    eapply extends_trans; [eapply extends_weaken; [|exact H5]; sig_incl|].
    eapply extends_weaken; [|exact H6]; sig_incl. }
  destruct X as (d & L & _ & _ & P).
  subst r. cbn [run_ledger]. rewrite L. cbn [ledger st0 app].
  eapply Forall_impl; [|exact P]. intros e He. unfold not_sig in He.
  now destruct (tls_sig (e_signal e)).
Qed.

Lemma unreadable_certificate_dates_pass_witness :
  exists r,
    analyze_run undated_certificate "https://shop.example.com/" = Ok r /\
    Forall (fun e => tls_sig (e_signal e) = false) (run_ledger r).
Proof.
  eexists. split; [vm_compute; reflexivity|].
  apply (unreadable_certificate_dates_pass undated_certificate
           "https://shop.example.com/" "https://shop.example.com/" _
           [("notBefore", "Jan  1 00:00:00 2025 GMT"); ("serialNumber", "01")]).
  - vm_compute. reflexivity.
  - vm_compute. reflexivity.
  - vm_compute. reflexivity.
  - vm_compute. reflexivity.
  - vm_compute. reflexivity.
  - discriminate.
  - right. vm_compute. reflexivity.
Defined.

(** * The web application *)

Import App.

(** ** One scan, one entry *)

Lemma record_scan_fields (now url : string) (response : ScanResponse)
      (st : AppState) :
  let st' := record_scan now url response st in
  scan_history st' =
    (scan_history st ++
     [mkScanEntry url (resp_status response) (resp_confidence response) now])%list /\
  history_file st' = Some (scan_history st') /\
  session_total_scans st' = Some (get0 (session_total_scans st) + 1) /\
  session_threats_blocked st' =
    (if String.eqb (resp_status response) "dangerous"
     then Some (get0 (session_threats_blocked st) + 1)
     else session_threats_blocked st) /\
  session_theme st' = session_theme st.
Proof.
  unfold record_scan, count_threat.
  destruct (String.eqb (resp_status response) "dangerous");
    cbn; repeat split; reflexivity.
Qed.

(** The three ways in which [scan_url] answers a request with a URL. *)
Lemma scan_url_cases (w : World) (now : string) (c : ascii) (u : string)
      (st : AppState) :
  let url := String c u in
  (is_trusted_domain (fst (domain_parts w url)) = true /\
   scan_url w now (Some url) st =
     (JsonScan trusted_response,
      count_scan (append_scan (mkScanEntry url "safe" 95 now) st))) \/
  (is_trusted_domain (fst (domain_parts w url)) = false /\
   exists response,
     (match analyze w url with
      | Ok result => analysis_response result
      | Raise _ => None
      end = Some response \/
      (match analyze w url with
       | Ok result => analysis_response result
       | Raise _ => None
       end = None /\ response = fallback_response url)) /\
     scan_url w now (Some url) st =
       (JsonScan response, record_scan now url response st)).
Proof.
  cbv zeta. unfold scan_url. cbn [Str.is_empty].
  destruct (domain_parts w (String c u)) as [d sub]. cbn [fst].
  destruct (is_trusted_domain d); [left; split; reflexivity|].
  right. split; [reflexivity|].
  destruct (match analyze w (String c u) with
            | Ok result => analysis_response result
            | Raise _ => None
            end) as [response|].
  - exists response. split; [now left | reflexivity].
  - exists (fallback_response (String c u)). split; [right; split|]; reflexivity.
Qed.

(** X21.  A scan request without a URL, or with an empty one, is answered
    with the error 400 and changes nothing.  Every other scan request is
    answered with a scan result, appends exactly one entry to the history
    (the submitted URL, the status and confidence of the answer, the time
    of the scan), writes the history to the file and adds one to the
    session's count of scans. *)
Theorem scan_recorded_once (w : World) (now : string) (url : option string)
        (st : AppState) :
  match url with
  | None | Some EmptyString =>
      scan_url w now url st = (JsonError 400 "No URL provided", st)
  | Some u =>
      exists body,
        fst (scan_url w now url st) = JsonScan body /\
        let st' := snd (scan_url w now url st) in
        scan_history st' =
          (scan_history st ++
           [mkScanEntry u (resp_status body) (resp_confidence body) now])%list /\
        history_file st' = Some (scan_history st') /\
        session_total_scans st' = Some (get0 (session_total_scans st) + 1) /\
        session_theme st' = session_theme st
  end.
Proof.
  destruct url as [[|c u]|]; try reflexivity.
  destruct (scan_url_cases w now c u st) as [[_ E] | (_ & response & _ & E)];
    cbv zeta in E; rewrite E; cbn [fst snd].
  - exists trusted_response. repeat split; reflexivity.
  - exists response. split; [reflexivity|].
    pose proof (record_scan_fields now (String c u) response st)
      as (H1 & H2 & H3 & _ & H5).
    cbv zeta. auto.
Qed.

(** ** The answer when the age of the domain is not known *)

(** X22.  When the site is not recognised as trusted and [analyze] raises, or
    returns a report without a domain age (WHOIS gave no usable creation
    date), [scan_url] drops the analysis and answers with one of its three
    canned results, chosen by the text of the URL alone: "safe" (0.92) when
    the URL contains "safe", else "suspicious" (0.65) when it contains
    "suspicious", else "dangerous" (0.98). *)
Theorem scan_falls_back_without_age (w : World) (now url : string)
        (st : AppState) :
  url <> EmptyString ->
  is_trusted_domain (fst (domain_parts w url)) = false ->
  (forall result, analyze w url = Ok result ->
                  domain_age_days_ctx (context result) = None) ->
  exists body,
    fst (scan_url w now (Some url) st) = JsonScan body /\
    body = fallback_response url /\
    (resp_status body, resp_confidence body) =
      (if Str.contains "safe" url then ("safe", 92)
       else if Str.contains "suspicious" url then ("suspicious", 65)
       else ("dangerous", 98)).
Proof.
  intros Hne Ht Hage. destruct url as [|c u]; [contradiction|].
  exists (fallback_response (String c u)).
  split; [|split; [reflexivity|]].
  - destruct (scan_url_cases w now c u st)
      as [[Ht' _] | (_ & response & [B | [B ->]] & E)]; cbv zeta in *.
    + congruence.
    + destruct (analyze w (String c u)) as [result|e]; [|discriminate B].
      specialize (Hage result eq_refl). unfold analysis_response in B.
      rewrite Hage in B. discriminate B.
    + now rewrite E.
  - unfold fallback_response.
    destruct (Str.contains "safe" (String c u)); [reflexivity|].
    destruct (Str.contains "suspicious" (String c u)); reflexivity.
Qed.

Lemma scan_falls_back_without_age_witness :
  (exists result,
     analyze offline "http://unknown.test/" = Ok result /\
     verdict result = "Likely safe") /\
  exists body,
    fst (scan_url offline "2025-01-01 00:00:00" (Some "http://unknown.test/")
                  (mkApp [] None None None None)) = JsonScan body /\
    body = fallback_response "http://unknown.test/" /\
    (resp_status body, resp_confidence body) = ("dangerous", 98).
Proof.
  split; [eexists; split; vm_compute; reflexivity|].
  apply (scan_falls_back_without_age offline "2025-01-01 00:00:00"
           "http://unknown.test/").
  - discriminate.
  - vm_compute. reflexivity.
  - intros result H. vm_compute in H.
    assert (E : domain_age_days_ctx (context result) = None)
      by (injection H as <-; reflexivity).
    exact E.
Defined.

(** ** The answer when the age of the domain is known *)

Lemma status_of_verdict_of (s : Z) :
  status_of_verdict (verdict_of s) = status_of_score s.
Proof.
  unfold verdict_of, status_of_score.
  destruct (35 <=? s); [reflexivity|]. destruct (20 <=? s); reflexivity.
Qed.

(** X23.  When the site is not recognised as trusted and [analyze] returns a
    report with a domain age, the answer carries the analysis: the status
    is "dangerous" from a score of 35, "suspicious" from 20 and "safe"
    below, and the confidence is the score in hundredths, capped at 0.99
    and never negative. *)
Theorem scan_reports_analysis_with_age (w : World) (now url : string)
        (st : AppState) (r : Run) (age : Z) :
  url <> EmptyString ->
  is_trusted_domain (fst (domain_parts w url)) = false ->
  analyze_run w url = Ok r ->
  domain_age_days_ctx (context (report r)) = Some age ->
  exists body,
    scan_url w now (Some url) st = (JsonScan body, record_scan now url body st) /\
    analysis_response (report r) = Some body /\
    resp_status body = status_of_score (risk_score (report r)) /\
    resp_confidence body = Z.min (risk_score (report r)) 99 /\
    0 <= resp_confidence body <= 99.
Proof.
  intros Hne Ht Hr Hage. destruct url as [|c u]; [contradiction|].
  assert (A : analyze w (String c u) = Ok (report r))
    by (unfold analyze; now rewrite Hr).
  assert (V : verdict (report r) = verdict_of (risk_score (report r))).
  { pose proof Hr as Hr'. apply analyze_run_inv in Hr'.
    destruct Hr' as [n parsed Hn Hp Ht' E | n parsed st1 st2 st4 st5 tld dns age'
                                            fetched Hn Hp Ht' H1 H2 H4 H5 E].
    - subst r. discriminate Hage.
    - pose proof (final_report_fields (String c u) (host_of parsed)
                    (fst (domain_parts w n)) tld dns age' fetched
                    (page_checks w (fst (domain_parts w n)) fetched st5))
        as (_ & _ & _ & _ & _ & Fv & Fs & _).
      subst r. cbn [report]. now rewrite Fv, Fs. }
  assert (S : 0 <= risk_score (report r)).
  { pose proof (run_ledger_sound w _ r Hr) as [_ S].
    pose proof (ledger_weight_bounds _ (run_ledger_ok w _ r Hr)) as [B _].
    rewrite S. lia. }
  assert (B : exists body, analysis_response (report r) = Some body /\
                resp_status body = status_of_score (risk_score (report r)) /\
                resp_confidence body = Z.min (risk_score (report r)) 99).
  { unfold analysis_response. rewrite Hage. eexists. split; [reflexivity|].
    cbn [resp_status resp_confidence]. rewrite V.
    split; [apply status_of_verdict_of | reflexivity]. }
  destruct B as (body & B & Bs & Bc). exists body.
  split; [|split; [exact B|split; [exact Bs|split; [exact Bc|lia]]]].
  destruct (scan_url_cases w now c u st)
    as [[Ht' _] | (_ & response & [C | [C _]] & E)]; cbv zeta in *.
  - congruence.
  - rewrite A, B in C. assert (response = body) by congruence. subst response.
    exact E.
  - rewrite A, B in C. discriminate C.
Qed.

Lemma scan_reports_analysis_with_age_witness :
  exists r body,
    analyze_run young_domain "http://shop.example.com/" = Ok r /\
    scan_url young_domain "2025-01-01 00:00:00" (Some "http://shop.example.com/")
             (mkApp [] None None None None) =
      (JsonScan body,
       record_scan "2025-01-01 00:00:00" "http://shop.example.com/" body
                   (mkApp [] None None None None)) /\
    analysis_response (report r) = Some body /\
    resp_status body = status_of_score (risk_score (report r)) /\
    resp_confidence body = Z.min (risk_score (report r)) 99 /\
    0 <= resp_confidence body <= 99.
Proof.
  eexists.
  destruct (scan_reports_analysis_with_age young_domain "2025-01-01 00:00:00"
              "http://shop.example.com/" (mkApp [] None None None None) _ 3
              ltac:(discriminate) ltac:(vm_compute; reflexivity)
              ltac:(vm_compute; reflexivity) ltac:(vm_compute; reflexivity))
    as (body & H).
  exists body. split; [vm_compute; reflexivity | exact H].
Defined.

(** ** The counters of a session *)

Lemma in_step_clear (st : AppState) : in_step (snd (clear_history st)).
Proof. split; reflexivity. Qed.

Lemma in_step_counts (st : AppState) :
  in_step st <->
  Z.of_nat (List.length (scan_history st)) = get0 (session_total_scans st) /\
  Z.of_nat (List.length (List.filter is_dangerous (scan_history st))) =
    get0 (session_threats_blocked st) /\
  history_file st = Some (scan_history st).
Proof.
  unfold in_step, get_stats. split.
  - intros [E F]. injection E as E1 E2. auto.
  - intros (E1 & E2 & F). rewrite E1, E2. auto.
Qed.

Lemma in_step_record_scan (now url : string) (response : ScanResponse)
      (st : AppState) :
  in_step st -> in_step (record_scan now url response st).
Proof.
  rewrite !in_step_counts. intros (E1 & E2 & F).
  pose proof (record_scan_fields now url response st) as (H1 & H2 & H3 & H4 & _).
  cbv zeta in *. rewrite H1, H2, H3, H4, H1.
  rewrite filter_app, !length_app. cbn [List.filter].
  change (is_dangerous (mkScanEntry url (resp_status response)
                                    (resp_confidence response) now))
    with (String.eqb (resp_status response) "dangerous").
  destruct (String.eqb (resp_status response) "dangerous");
    cbn [List.length get0]; repeat split; lia.
Qed.

Lemma in_step_serve (req : Request) (st : AppState) :
  in_step st -> in_step (snd (serve req st)).
Proof.
  intro H. destruct req as [w now url | | | theme]; cbn [serve snd].
  - destruct url as [[|c u]|]; try exact H.
    destruct (scan_url_cases w now c u st) as [[_ E] | (_ & response & _ & E)];
      cbv zeta in E; rewrite E; cbn [snd].
    + apply in_step_counts in H as (E1 & E2 & F). apply in_step_counts.
      cbn. rewrite filter_app, !length_app. cbn. repeat split; lia.
    + now apply in_step_record_scan.
  - apply in_step_clear.
  - exact H.
  - apply in_step_counts in H as (E1 & E2 & F). apply in_step_counts.
    cbn. auto.
Qed.

(** X24.  Once the history has been cleared, the counters of the session
    stay in step with the history through every sequence of scan, stats,
    theme and clear requests of that client: [get_stats] answers with the
    session's number of scans and of threats (0 for a counter that is not
    set), and the history file holds the history. *)
Theorem counters_in_step_after_clear (reqs : list Request) (st : AppState) :
  let st' := serve_all reqs (snd (clear_history st)) in
  get_stats st' = JsonStats (get0 (session_total_scans st'))
                            (get0 (session_threats_blocked st')) /\
  history_file st' = Some (scan_history st') /\
  load_history st' = st'.
Proof.
  cbv zeta.
  assert (G : forall l s, in_step s -> in_step (serve_all l s)).
  { induction l as [|req l IH]; intros s H; [exact H|].
    unfold serve_all. cbn [fold_left]. apply IH, in_step_serve, H. }
  destruct (G reqs _ (in_step_clear st)) as [E F].
  split; [exact E|]. split; [exact F|].
  unfold load_history. rewrite F.
  destruct (serve_all reqs (snd (clear_history st))) as [h f t b th].
  cbn in *. now rewrite F.
Qed.
